(** * Document storage and lifecycle layer of the documentation wiki

    A shallow embedding of [app/storage.py] and of the document and trash
    handlers of [app/app.py], followed by the theorems that settle the
    properties stated for them.

    Conventions of the embedding.
    - A Python [str] is a Rocq [string]; every [ascii] stands for one code
      point below 256, so the text covered is Latin-1 text.
    - The data directory is a tree of [node]s, a path is the list of its
      components below the data directory, and a slug or an entry name is
      one component of such a path.
    - Python code runs in the monad [M]: it reads and writes the tree and
      either returns a value or raises; an exception does not roll the
      tree back.
    - The third-party libraries (python-slugify, python-frontmatter with
      PyYAML, Markdown, werkzeug's [secure_filename]) are the fields of the
      class [Lib]; the definitions and theorems are generic in them. *)

From Stdlib Require Import String Ascii ZArith Lia DecimalString.
From stdpp Require Import gmap strings list sorting.

#[local] Set Warnings "-register-all,-clear-no-such-hyp".
#[local] Open Scope string_scope.

(** ** Python string operations *)

Module Py.

Definition code (c : ascii) : nat := nat_of_ascii c.

(** [str.isspace] on one code point below 256. *)
Definition isspace (c : ascii) : bool :=
  let n := code c in
  (((9 <=? n) && (n <=? 13)) || ((28 <=? n) && (n <=? 32))
   || (n =? 133) || (n =? 160))%nat.

(** [str.lower] on one code point below 256. *)
Definition lower_char (c : ascii) : ascii :=
  let n := code c in
  if (((65 <=? n) && (n <=? 90))
      || ((192 <=? n) && (n <=? 222) && negb (n =? 215)))%nat
  then ascii_of_nat (n + 32) else c.

Fixpoint lower (s : string) : string :=
  match s with
  | EmptyString => EmptyString
  | String c s' => String (lower_char c) (lower s')
  end.

Definition is_empty (s : string) : bool :=
  match s with EmptyString => true | String _ _ => false end.

(** [s.lstrip(chars)], [s.rstrip(chars)] and [s.strip(chars)], with the
    set of characters given as a predicate. *)
Fixpoint lstrip_by (p : ascii → bool) (s : string) : string :=
  match s with
  | EmptyString => EmptyString
  | String c s' => if p c then lstrip_by p s' else s
  end.

Fixpoint rstrip_by (p : ascii → bool) (s : string) : string :=
  match s with
  | EmptyString => EmptyString
  | String c s' =>
      let r := rstrip_by p s' in
      if is_empty r && p c then EmptyString else String c r
  end.

Definition strip_by (p : ascii → bool) (s : string) : string :=
  rstrip_by p (lstrip_by p s).

Definition strip (s : string) : string := strip_by isspace s.

(** [s.strip(ch)] for a one-character argument. *)
Definition strip_char (ch : ascii) (s : string) : string :=
  strip_by (Ascii.eqb ch) s.

Fixpoint startswith (p s : string) : bool :=
  match p, s with
  | EmptyString, _ => true
  | String a p', String b s' => Ascii.eqb a b && startswith p' s'
  | String _ _, EmptyString => false
  end.

(** [s[n:]] and [s[:n]] for [n >= 0]. *)
Fixpoint drop (n : nat) (s : string) : string :=
  match n, s with
  | 0, _ => s
  | S n', String _ s' => drop n' s'
  | S _, EmptyString => EmptyString
  end.

Fixpoint take (n : nat) (s : string) : string :=
  match n, s with
  | 0, _ => EmptyString
  | S n', String c s' => String c (take n' s')
  | S _, EmptyString => EmptyString
  end.

Definition endswith (p s : string) : bool :=
  (String.length p <=? String.length s)%nat
  && String.eqb (drop (String.length s - String.length p) s) p.

(** [s[:-n]] for [n > 0]. *)
Definition drop_last (n : nat) (s : string) : string :=
  take (String.length s - n) s.

(** [needle in hay]. *)
Fixpoint contains (needle hay : string) : bool :=
  startswith needle hay ||
  match hay with
  | EmptyString => false
  | String _ hay' => contains needle hay'
  end.

(** [s.split(sep)] for a one-character separator: the pieces between
    the separators, always at least one. *)
Fixpoint split (sep : ascii) (s : string) : list string :=
  match s with
  | EmptyString => [EmptyString]
  | String c s' =>
      if Ascii.eqb c sep then EmptyString :: split sep s'
      else match split sep s' with
           | [] => [String c EmptyString]
           | piece :: rest => String c piece :: rest
           end
  end.

(** [s.split(sep, 1)[1]] when [sep] occurs in [s]: what follows the
    first separator. *)
Fixpoint after_first (sep : ascii) (s : string) : string :=
  match s with
  | EmptyString => EmptyString
  | String c s' => if Ascii.eqb c sep then s' else after_first sep s'
  end.

(** [s.replace(old, new)] for a non-empty [old]: the occurrences are
    replaced from left to right and do not overlap.  The fuel is the
    length of the text that is left. *)
Fixpoint replace_go (fuel : nat) (old new s : string) : string :=
  match fuel with
  | 0 => s
  | S fuel' =>
      match s with
      | EmptyString => EmptyString
      | String c s' =>
          if startswith old s
          then new ++ replace_go fuel' old new (drop (String.length old) s)
          else String c (replace_go fuel' old new s')
      end
  end.

Definition replace (old new s : string) : string :=
  replace_go (String.length s) old new s.

(** [sep.join(pieces)]. *)
Fixpoint join (sep : string) (pieces : list string) : string :=
  match pieces with
  | [] => EmptyString
  | [p] => p
  | p :: rest => p ++ sep ++ join sep rest
  end.

(** The line boundaries of [str.splitlines] below code point 256, apart
    from the pair CR LF, which counts as one boundary. *)
Definition is_linebreak (c : ascii) : bool :=
  let n := code c in
  (((10 <=? n) && (n <=? 13)) || ((28 <=? n) && (n <=? 30))
   || (n =? 133))%nat.

(** [s.splitlines()]: [cur] is the line being read, reversed. *)
Fixpoint splitlines_go (cur : string) (s : string) : list string :=
  match s with
  | EmptyString => if is_empty cur then [] else [String.rev cur]
  | String c s' =>
      if is_linebreak c then
        match s' with
        | String d s'' =>
            if ((code c =? 13) && (code d =? 10))%nat
            then String.rev cur :: splitlines_go EmptyString s''
            else String.rev cur :: splitlines_go EmptyString s'
        | EmptyString => [String.rev cur]
        end
      else splitlines_go (String c cur) s'
  end.

Definition splitlines (s : string) : list string :=
  splitlines_go EmptyString s.

(** Reading a file opened in text mode: CR LF and a lone CR both arrive
    as LF. *)
Fixpoint universal_newlines (s : string) : string :=
  match s with
  | EmptyString => EmptyString
  | String c s' =>
      if (code c =? 13)%nat then
        match s' with
        | String d s'' =>
            if (code d =? 10)%nat then String d (universal_newlines s'')
            else String (ascii_of_nat 10) (universal_newlines s')
        | EmptyString => String (ascii_of_nat 10) EmptyString
        end
      else String c (universal_newlines s')
  end.

(** The order of [sorted] on strings: code point by code point. *)
Definition str_le (a b : string) : Prop := String.leb a b = true.

#[export] Instance str_le_dec a b : Decision (str_le a b).
Proof. unfold str_le. apply _. Defined.

Definition sorted (l : list string) : list string := merge_sort str_le l.

End Py.

(** ** The data directory as a tree *)

Inductive node :=
  | File (data : string)
  | Dir (entries : gmap string node).

Abbreviation path := (list string).

Module Fs.

(** A proper component of a path: a file or directory name. *)
Definition plain_name (c : string) : Prop :=
  c ≠ "" ∧ c ≠ "." ∧ c ≠ ".." ∧ Py.contains "/" c = false.

#[export] Instance plain_name_dec c : Decision (plain_name c).
Proof. unfold plain_name. apply _. Defined.

(** Lexical resolution of the components [""], ["."] and [".."], as a
    path that contains them is read by the operating system. *)
Definition resolve_step (acc : path) (c : string) : path :=
  if String.eqb c "" || String.eqb c "." then acc
  else if String.eqb c ".." then removelast acc
  else (acc ++ [c])%list.

Definition resolve (p : path) : path := foldl resolve_step [] p.

Fixpoint lookup_node (n : node) (p : path) : option node :=
  match p with
  | [] => Some n
  | c :: p' =>
      match n with
      | File _ => None
      | Dir es => match es !! c with
                  | Some child => lookup_node child p'
                  | None => None
                  end
      end
  end.

(** What is found at a path, if anything. *)
Definition stat (fs : node) (p : path) : option node :=
  lookup_node fs (resolve p).

(** Put [new] at a resolved path whose parent is a directory. *)
Fixpoint put_node (n : node) (p : path) (new : node) : option node :=
  match p with
  | [] => Some new
  | c :: p' =>
      match n with
      | File _ => None
      | Dir es =>
          match p' with
          | [] => Some (Dir (<[c := new]> es))
          | _ :: _ =>
              match es !! c with
              | Some child =>
                  match put_node child p' new with
                  | Some child' => Some (Dir (<[c := child']> es))
                  | None => None
                  end
              | None => None
              end
          end
      end
  end.

(** Remove what is at a resolved path. *)
Fixpoint del_node (n : node) (p : path) : option node :=
  match p with
  | [] => None
  | c :: p' =>
      match n with
      | File _ => None
      | Dir es =>
          match es !! c with
          | Some child =>
              match p' with
              | [] => Some (Dir (delete c es))
              | _ :: _ =>
                  match del_node child p' with
                  | Some child' => Some (Dir (<[c := child']> es))
                  | None => None
                  end
              end
          | None => None
          end
      end
  end.

(** Create the directories of a resolved path that are missing; there is
    no result when a component exists and is a file. *)
Fixpoint mkdirs (n : node) (p : path) : option node :=
  match n with
  | File _ => None
  | Dir es =>
      match p with
      | [] => Some n
      | c :: p' =>
          match mkdirs (default (Dir ∅) (es !! c)) p' with
          | Some child' => Some (Dir (<[c := child']> es))
          | None => None
          end
      end
  end.

Definition is_dir (o : option node) : bool :=
  match o with Some (Dir _) => true | _ => false end.

Definition is_some_node (o : option node) : bool :=
  match o with Some _ => true | None => false end.

Fixpoint is_prefix (p q : path) : bool :=
  match p, q with
  | [], _ => true
  | a :: p', b :: q' => String.eqb a b && is_prefix p' q'
  | _ :: _, [] => false
  end.

(** [os.path.basename] and [os.path.dirname] of a path given by its
    components. *)
Definition basename (p : path) : string := List.last p "".
Definition dirname (p : path) : path := removelast p.

End Fs.

(** ** Python code as state passing with exceptions *)

Inductive res (A : Type) :=
  | Ret (a : A) (fs : node)
  | Exc (fs : node).
Arguments Ret {A} a fs.
Arguments Exc {A} fs.

Definition M (A : Type) : Type := node → res A.

Definition ret {A} (a : A) : M A := λ fs, Ret a fs.
Definition raise {A} : M A := λ fs, Exc fs.
Definition bind {A B} (m : M A) (k : A → M B) : M B :=
  λ fs, match m fs with
        | Ret a fs' => k a fs'
        | Exc fs' => Exc fs'
        end.

(** [try: body except Exception: handler]. *)
Definition try_except {A} (body handler : M A) : M A :=
  λ fs, match body fs with
        | Ret a fs' => Ret a fs'
        | Exc fs' => handler fs'
        end.

Notation "'do' x <- m ; k" := (bind m (λ x, k))
  (at level 10, x name, m at level 100, k at level 200,
   format "'[v' 'do'  x  <-  m ; '/' k ']'").
Notation "m ;; k" := (bind m (λ _, k))
  (at level 100, k at level 200, right associativity).

(** The value of a computation that is run for its result only. *)
Definition eval {A} (m : M A) (fs : node) : option A :=
  match m fs with Ret a _ => Some a | Exc _ => None end.

(** The tree a computation leaves, whether it returned or raised. *)
Definition tree_after {A} (r : res A) : node :=
  match r with Ret _ fs => fs | Exc fs => fs end.

(** An observation of the tree that raises when it has no result. *)
Definition observe {A} (f : node → option A) : M A :=
  λ fs, match f fs with Some a => Ret a fs | None => Exc fs end.

(** *** The operations of [os], [os.path] and [shutil] that the code uses *)

Module Os.

Definition path_exists (p : path) : M bool :=
  λ fs, Ret (Fs.is_some_node (Fs.stat fs p)) fs.

Definition path_isdir (p : path) : M bool :=
  λ fs, Ret (Fs.is_dir (Fs.stat fs p)) fs.

(** [os.makedirs(p, exist_ok=True)]. *)
Definition makedirs (p : path) : M unit :=
  λ fs, match Fs.mkdirs fs (Fs.resolve p) with
        | Some fs' => Ret () fs'
        | None => Exc fs
        end.

(** Reading the whole of a file. *)
Definition read_text (p : path) : M string :=
  λ fs, match Fs.stat fs p with
        | Some (File data) => Ret data fs
        | _ => Exc fs
        end.

(** [open(p, "w")] followed by one [write]: the file is created or
    replaced; a directory at [p], or no directory above [p], raises. *)
Definition write_text (p : path) (data : string) : M unit :=
  λ fs, match Fs.stat fs p with
        | Some (Dir _) => Exc fs
        | _ => match Fs.put_node fs (Fs.resolve p) (File data) with
               | Some fs' => Ret () fs'
               | None => Exc fs
               end
        end.

(** [os.listdir(p)]; the order of the names is the one the map
    enumerates its keys in. *)
Definition listdir (p : path) : M (list string) :=
  λ fs, match Fs.stat fs p with
        | Some (Dir es) => Ret (elements (dom es)) fs
        | _ => Exc fs
        end.

(** [os.remove(p)]: a file is removed, anything else raises.  [ok] is
    false when the operating system refuses the removal. *)
Definition remove (ok : bool) (p : path) : M unit :=
  λ fs, match Fs.stat fs p with
        | Some (File _) =>
            if ok then
              match Fs.del_node fs (Fs.resolve p) with
              | Some fs' => Ret () fs'
              | None => Exc fs
              end
            else Exc fs
        | _ => Exc fs
        end.

(** [shutil.rmtree(p)]: a directory is removed with all it holds. *)
Definition rmtree (ok : bool) (p : path) : M unit :=
  λ fs, match Fs.stat fs p with
        | Some (Dir _) =>
            if ok then
              match Fs.del_node fs (Fs.resolve p) with
              | Some fs' => Ret () fs'
              | None => Exc fs
              end
            else Exc fs
        | _ => Exc fs
        end.

(** [shutil.copy2(src, dst)]: [src] is a file; when [dst] is a
    directory the copy goes inside it under the name of [src]. *)
Definition copy2 (src dst : path) : M unit :=
  do data <- read_text src;
  do into <- path_isdir dst;
  let target := if into then (dst ++ [Fs.basename src])%list else dst in
  if decide (Fs.resolve src = Fs.resolve target) then raise
  else write_text target data.

(** [os.rename(src, dst)] as [shutil.move] relies on it: a directory is
    not moved below itself nor onto a file, a file replaces a file. *)
Definition rename (src dst : path) : M unit :=
  λ fs,
    let rs := Fs.resolve src in
    let rd := Fs.resolve dst in
    match Fs.lookup_node fs rs with
    | None => Exc fs
    | Some n =>
        if decide (rs = rd) then Ret () fs
        else if Fs.is_prefix rs rd then Exc fs
        else
          let clash :=
            match Fs.lookup_node fs rd, n with
            | None, _ => false
            | Some (File _), File _ => false
            | Some _, _ => true
            end in
          if clash then Exc fs
          else match Fs.del_node fs rs with
               | None => Exc fs
               | Some fs1 =>
                   match Fs.put_node fs1 rd n with
                   | Some fs2 => Ret () fs2
                   | None => Exc fs
                   end
               end
    end.

(** [shutil.move(src, dst)]: when [dst] is a directory, [src] is moved
    inside it, unless a node of that name is there already. *)
Definition move (src dst : path) : M unit :=
  do into <- path_isdir dst;
  if into then
    if decide (Fs.resolve src = Fs.resolve dst) then ret ()
    else
      let real_dst := (dst ++ [Fs.basename src])%list in
      do taken <- path_exists real_dst;
      if taken then raise else rename src real_dst
  else rename src dst.

End Os.

(** ** Documents and the libraries the code calls *)

(** A value of the metadata block: a string or a list of strings. *)
Inductive value :=
  | VStr (s : string)
  | VList (l : list string).

#[export] Instance value_eq_dec : EqDecision value.
Proof. solve_decision. Defined.

(** A [frontmatter.Post]: the metadata dictionary and the body. *)
Record Post := mkPost {
  metadata : gmap string value;
  content : string
}.

(** The third-party functions.  [frontmatter_loads] is the parser applied
    to the text of a file, without a result when it raises. *)
Class Lib := {
  slugify : string → string;
  frontmatter_loads : string → option Post;
  frontmatter_dumps : Post → string;
  markdown : string → string;
  secure_filename : string → string
}.

(** A reading of the clock, as a [datetime]. *)
Record datetime := mkDatetime {
  year : nat; month : nat; day : nat;
  hour : nat; minute : nat; second : nat;
  microsecond : nat
}.

Module Fmt.

Definition LF : string := String "010"%char "".
Definition CR : string := String "013"%char "".

Definition dec (n : nat) : string := NilEmpty.string_of_uint (Nat.to_uint n).

Definition pad2 (n : nat) : string :=
  if (n <? 10)%nat then "0" ++ dec n else dec n.

Definition pad4 (n : nat) : string :=
  if (n <? 10)%nat then "000" ++ dec n
  else if (n <? 100)%nat then "00" ++ dec n
  else if (n <? 1000)%nat then "0" ++ dec n
  else dec n.

(** [strftime("%Y-%m-%d_%H-%M-%S")]. *)
Definition trash_stamp (t : datetime) : string :=
  pad4 (year t) ++ "-" ++ pad2 (month t) ++ "-" ++ pad2 (day t) ++ "_"
  ++ pad2 (hour t) ++ "-" ++ pad2 (minute t) ++ "-" ++ pad2 (second t).

(** [strftime("%Y-%m-%d %H:%M:%S %Z")] of a reading in the zone [BRT],
    whose name is [UTC-03:00]. *)
Definition edit_stamp (t : datetime) : string :=
  pad4 (year t) ++ "-" ++ pad2 (month t) ++ "-" ++ pad2 (day t) ++ " "
  ++ pad2 (hour t) ++ ":" ++ pad2 (minute t) ++ ":" ++ pad2 (second t)
  ++ " UTC-03:00".

(** Python's truth value of a metadata entry that may be missing. *)
Definition truthy (o : option value) : bool :=
  match o with
  | Some (VStr s) => negb (Py.is_empty s)
  | Some (VList l) => match l with [] => false | _ :: _ => true end
  | None => false
  end.

(** [os.path.splitext(name)[0]]: the name without its extension; dots
    that lead the name do not start an extension. *)
Fixpoint all_dots (s : string) : bool :=
  match s with
  | EmptyString => true
  | String c s' => Ascii.eqb c "."%char && all_dots s'
  end.

Fixpoint splitext_root_go (rev_name : string) : option string :=
  match rev_name with
  | EmptyString => None
  | String c rest =>
      if Ascii.eqb c "."%char
      then if all_dots rest then None else Some (String.rev rest)
      else splitext_root_go rest
  end.

Definition splitext_root (name : string) : string :=
  default name (splitext_root_go (String.rev name)).

(** The group of [FRONT_MATTER_RE] when it matches at the start of
    [raw]: the text between the opening [---] line and the first
    closing [---] line. *)
Definition fm_closes (t : string) : bool :=
  let t' := if Py.startswith CR t then Py.drop 1 t else t in
  Py.startswith (LF ++ "---" ++ CR ++ LF) t'
  || Py.startswith (LF ++ "---" ++ LF) t'.

Fixpoint fm_block_go (rev_acc : string) (t : string) : option string :=
  match t with
  | EmptyString => None
  | String c t' =>
      if fm_closes t then Some (String.rev rev_acc)
      else fm_block_go (String c rev_acc) t'
  end.

Definition FRONT_MATTER_RE_match (raw : string) : option string :=
  if Py.startswith ("---" ++ CR ++ LF) raw
  then fm_block_go EmptyString (Py.drop 5 raw)
  else if Py.startswith ("---" ++ LF) raw
  then fm_block_go EmptyString (Py.drop 4 raw)
  else None.

(** The first line of the block that starts with [title:]: what follows
    its first colon, stripped of white space, then of double quotes,
    then of single quotes. *)
Fixpoint title_line (lines : list string) : option string :=
  match lines with
  | [] => None
  | line :: rest =>
      if Py.startswith "title:" (Py.lower line)
      then Some (Py.strip_char "'"%char
                   (Py.strip_char "034"%char
                      (Py.strip (Py.after_first ":"%char line))))
      else title_line rest
  end.

(** The first line that is not blank and is not a marker, without a
    leading [# ]. *)
Fixpoint first_text_line (lines : list string) : option string :=
  match lines with
  | [] => None
  | line :: rest =>
      let line := Py.strip line in
      if negb (Py.is_empty line) && negb (Py.startswith "---" line)
      then Some (if Py.startswith "# " line
                 then Py.strip (Py.drop 2 line) else line)
      else first_text_line rest
  end.

(** [x or y] on strings. *)
Definition str_or (x y : string) : string :=
  if Py.is_empty x then y else x.

(** [x or y] where [x] may be [None]. *)
Definition opt_or (x : option string) (y : string) : string :=
  match x with Some s => str_or s y | None => y end.

End Fmt.

(** ** [app/storage.py] *)

(** One entry of the listing. *)
Record summary := mkSummary {
  s_slug : string;
  s_title : value;
  s_description : value;
  s_category : value;
  s_tags : list string;
  s_icon_url : value;
  s_cover_url : value;
  s_created_by : option value;
  s_created_at : option value;
  s_last_edited_by : option value;
  s_last_edited_at : option value;
  s_body : option string
}.

(** The [tags] argument of [save_doc]: one comma-separated string or a
    list. *)
Inductive tags_arg :=
  | TagsStr (s : string)
  | TagsList (l : list string).

Section Storage.
Context `{Lib}.

Definition DOCS_DIR : path := ["docs"].
Definition UPLOADS_DIR : path := ["uploads"].
Definition TRASH_DIR : path := ["trash"].
Definition REPO_DIR : path := [].

(** The data directory exists once the three directories are made, so
    the branch that would initialise a repository is never taken. *)
Definition ensure_dirs_and_repo : M unit :=
  Os.makedirs DOCS_DIR;;
  Os.makedirs UPLOADS_DIR;;
  Os.makedirs TRASH_DIR;;
  do present <- Os.path_exists REPO_DIR;
  if present then ret () else raise.

Definition _doc_dir (slug : string) : path := (DOCS_DIR ++ [slug])%list.

Definition _doc_md_path_new (slug : string) : path :=
  (_doc_dir slug ++ ["doc.md"])%list.

Definition _doc_md_path_legacy (slug : string) : path :=
  (DOCS_DIR ++ [(slug ++ ".md")%string])%list.

(** [frontmatter.load(path)]. *)
Definition frontmatter_load (p : path) : M Post :=
  do text <- Os.read_text p;
  match frontmatter_loads text with
  | Some post => ret post
  | None => raise
  end.

Definition read_doc (slug : string) : M (option Post) :=
  ensure_dirs_and_repo;;
  let slug := Py.strip slug in
  let new_path := _doc_md_path_new slug in
  let legacy_path := _doc_md_path_legacy slug in
  do has_new <- Os.path_exists new_path;
  do loaded <-
    (if has_new
     then try_except (do post <- frontmatter_load new_path; ret (Some post))
                     (ret None)
     else ret None);
  match loaded with
  | Some post => ret (Some post)
  | None =>
      do has_legacy <- Os.path_exists legacy_path;
      if has_legacy then
        try_except
          (Os.makedirs (Fs.dirname new_path);;
           Os.copy2 legacy_path new_path;;
           do post <- frontmatter_load new_path;
           ret (Some post))
          (try_except
             (do post <- frontmatter_load legacy_path; ret (Some post))
             (ret None))
      else ret None
  end.

(** The placeholder that [_safe_frontmatter_load] builds from the raw
    text of a file that does not parse. *)
Definition fallback_post (p : path) (raw : string) : Post :=
  let from_block :=
    match Fmt.FRONT_MATTER_RE_match raw with
    | Some fm => Fmt.title_line (Py.splitlines fm)
    | None => None
    end in
  let title :=
    if Py.is_empty (Fmt.opt_or from_block "")
    then Fmt.first_text_line (Py.splitlines raw)
    else from_block in
  let title :=
    Fmt.opt_or title
      (Fmt.str_or (Fs.basename (Fs.dirname p))
         (Fmt.splitext_root (Fs.basename p))) in
  mkPost (<["icon_url" := VStr ""]>
            (<["tags" := VList []]>
               (<["description" := VStr ""]>
                  (<["title" := VStr title]> ∅)))) "".

Definition _safe_frontmatter_load (p : path) : M (option Post) :=
  try_except
    (do post <- frontmatter_load p; ret (Some post))
    (try_except
       (do raw <- Os.read_text p;
        ret (Some (fallback_post p (Py.universal_newlines raw))))
       (ret None)).

Definition get (post : Post) (key : string) (dflt : value) : value :=
  default dflt (metadata post !! key).

(** The tags of a post as the listing reads them. *)
Definition post_tags (post : Post) : list string :=
  let raw := match get post "tags" (VList []) with
             | VStr s => [s]
             | VList l => l
             end in
  Py.strip <$> List.filter (λ t, negb (Py.is_empty (Py.strip t))) raw.

(** The requested tags as a set: trimmed, lower-cased, blanks dropped. *)
Definition want_tags (tags : option (list string)) : gset string :=
  list_to_set
    ((λ t, Py.lower (Py.strip t)) <$>
     List.filter (λ t, negb (Py.is_empty (Py.strip t))) (default [] tags)).

(** [x or ""] for a value that is then used as a string: a list that is
    not empty is a type error. *)
Definition text_of (v : value) : option string :=
  match v with
  | VStr s => Some s
  | VList [] => Some ""
  | VList (_ :: _) => None
  end.

Definition haystack (title description : string) (ptags : list string)
    (body : string) : string :=
  Py.lower (Py.join " " [title; description; Py.join " " ptags; body]).

(** The text filter; no result when building the text raises. *)
Definition text_pass (q : string) (title description : value)
    (ptags : list string) (body : string) : option bool :=
  if Py.is_empty q then Some true
  else
    match text_of title, text_of description with
    | Some t, Some d => Some (Py.contains q (haystack t d ptags body))
    | _, _ => None
    end.

(** The tag filter. *)
Definition tags_pass (want : gset string) (ptags : list string) : bool :=
  if decide (want = ∅) then true
  else bool_decide (list_to_set (Py.lower <$> ptags) ∩ want ≠ ∅).

(** [re.sub] of [(?is)<tag.*?>.*?</tag>] by the empty string. *)
Fixpoint startswith_ci (pat s : string) : bool :=
  match pat, s with
  | EmptyString, _ => true
  | String a pat', String b s' =>
      Ascii.eqb a (Py.lower_char b) && startswith_ci pat' s'
  | String _ _, EmptyString => false
  end.

Fixpoint after_ci (pat s : string) : option string :=
  if startswith_ci pat s then Some (Py.drop (String.length pat) s)
  else match s with
       | EmptyString => None
       | String _ s' => after_ci pat s'
       end.

Definition match_block (tag s : string) : option string :=
  if startswith_ci ("<" ++ tag) s then
    match after_ci ">" (Py.drop (1 + String.length tag) s) with
    | Some inner => after_ci ("</" ++ tag ++ ">") inner
    | None => None
    end
  else None.

Fixpoint remove_blocks_go (fuel : nat) (tag s : string) : string :=
  match fuel with
  | 0 => s
  | S fuel' =>
      match match_block tag s with
      | Some rest => remove_blocks_go fuel' tag rest
      | None =>
          match s with
          | EmptyString => EmptyString
          | String c s' => String c (remove_blocks_go fuel' tag s')
          end
      end
  end.

Definition remove_blocks (tag s : string) : string :=
  remove_blocks_go (S (String.length s)) tag s.

Definition body_preview (body : string) : string :=
  if Py.is_empty body then ""
  else
    let html := markdown body in
    let clean := remove_blocks "style" (remove_blocks "script" html) in
    Py.take 600 clean
    ++ (if (600 <? String.length clean)%nat then "..." else "").

(** The body of the first loop of [list_docs] for a post that loaded:
    no result when it raises, [Some None] when the entry is skipped. *)
Definition canonical_entry (q : string) (want : gset string)
    (slug : string) (post : Post) : option (option summary) :=
  let title := get post "title" (VStr slug) in
  let description := get post "description" (VStr "") in
  let ptags := post_tags post in
  let icon_url :=
    if Fmt.truthy (metadata post !! "icon_url")
    then get post "icon_url" (VStr "")
    else VStr ("/docs/" ++ slug ++ "/logo.png") in
  match text_pass q title description ptags (content post) with
  | None => None
  | Some false => Some None
  | Some true =>
      if negb (tags_pass want ptags) then Some None
      else
        match text_of description with
        | None => None
        | Some d =>
            let final_desc :=
              Fmt.str_or (Py.strip d) (body_preview (content post)) in
            Some (Some {|
              s_slug := slug;
              s_title := title;
              s_description :=
                if Fmt.truthy (Some description) then description
                else VStr final_desc;
              s_category := get post "category" (VStr "");
              s_tags := ptags;
              s_icon_url := icon_url;
              s_cover_url := get post "cover_url" (VStr "");
              s_created_by := metadata post !! "created_by";
              s_created_at := metadata post !! "created_at";
              s_last_edited_by := metadata post !! "last_edited_by";
              s_last_edited_at := metadata post !! "last_edited_at";
              s_body := Some (content post) |})
        end
  end.

(** The body of the second loop for a post that loaded. *)
Definition legacy_entry (q : string) (want : gset string)
    (legacy_slug : string) (post : Post) : option (option summary) :=
  let title := get post "title" (VStr legacy_slug) in
  let description := get post "description" (VStr "") in
  let ptags := post_tags post in
  match text_pass q title description ptags (content post) with
  | None => None
  | Some false => Some None
  | Some true =>
      if negb (tags_pass want ptags) then Some None
      else
        Some (Some {|
          s_slug := legacy_slug;
          s_title := title;
          s_description := description;
          s_category := get post "category" (VStr "");
          s_tags := ptags;
          s_icon_url := get post "icon_url" (VStr "");
          s_cover_url := get post "cover_url" (VStr "");
          s_created_by := metadata post !! "created_by";
          s_created_at := metadata post !! "created_at";
          s_last_edited_by := metadata post !! "last_edited_by";
          s_last_edited_at := metadata post !! "last_edited_at";
          s_body := None |})
  end.

(** One turn of the first loop on the tree [fs]. *)
Definition canonical_step (fs : node) (q : string) (want : gset string)
    (slug : string) : option (option summary) :=
  if negb (Fs.is_dir (Fs.stat fs (_doc_dir slug)))
     || negb (Fs.is_some_node (Fs.stat fs (_doc_md_path_new slug)))
  then Some None
  else
    match eval (_safe_frontmatter_load (_doc_md_path_new slug)) fs with
    | None => None
    | Some None => Some None
    | Some (Some post) => canonical_entry q want slug post
    end.

Fixpoint canonical_scan (fs : node) (q : string) (want : gset string)
    (results : list summary) (names : list string)
    : option (list summary) :=
  match names with
  | [] => Some results
  | slug :: rest =>
      match canonical_step fs q want slug with
      | None => None
      | Some None => canonical_scan fs q want results rest
      | Some (Some d) => canonical_scan fs q want (results ++ [d])%list rest
      end
  end.

Definition slug_listed (results : list summary) (slug : string) : bool :=
  existsb (λ d, String.eqb (s_slug d) slug) results.

(** One turn of the second loop, which looks at the results so far. *)
Definition legacy_step (fs : node) (q : string) (want : gset string)
    (results : list summary) (f : string) : option (option summary) :=
  if negb (Py.endswith ".md" f) then Some None
  else
    let legacy_slug := Py.drop_last 3 f in
    if slug_listed results legacy_slug then Some None
    else
      match eval (_safe_frontmatter_load (_doc_md_path_legacy legacy_slug))
              fs with
      | None => None
      | Some None => Some None
      | Some (Some post) => legacy_entry q want legacy_slug post
      end.

Fixpoint legacy_scan (fs : node) (q : string) (want : gset string)
    (results : list summary) (names : list string)
    : option (list summary) :=
  match names with
  | [] => Some results
  | f :: rest =>
      match legacy_step fs q want results f with
      | None => None
      | Some None => legacy_scan fs q want results rest
      | Some (Some d) => legacy_scan fs q want (results ++ [d])%list rest
      end
  end.

Definition list_docs (query : string) (tags : option (list string))
    (nivel : string) : M (list summary) :=
  ensure_dirs_and_repo;;
  let q := Py.lower (Py.strip query) in
  let want := want_tags tags in
  do is_dir1 <- Os.path_isdir DOCS_DIR;
  do results <-
    (if is_dir1 then
       do names <- Os.listdir DOCS_DIR;
       observe (λ fs, canonical_scan fs q want [] (Py.sorted names))
     else ret []);
  do is_dir2 <- Os.path_isdir DOCS_DIR;
  if is_dir2 then
    do names <- Os.listdir DOCS_DIR;
    observe (λ fs, legacy_scan fs q want results (Py.sorted names))
  else ret results.

(** The metadata and body that [save_doc] writes, from the post it
    found ([frontmatter.Post("")] when there was none). *)
Definition split_tags (tags : option tags_arg) : option (list string) :=
  match tags with
  | Some (TagsStr s) =>
      Some (Py.strip <$>
            List.filter (λ t, negb (Py.is_empty (Py.strip t)))
                        (Py.split ","%char s))
  | Some (TagsList l) =>
      Some (Py.strip <$>
            List.filter (λ t, negb (Py.is_empty (Py.strip t))) l)
  | None => None
  end.

Definition set_opt (key : string) (arg : option string)
    (m : gmap string value) : gmap string value :=
  match arg with
  | Some v => <[key := VStr v]> m
  | None => m
  end.

Definition set_missing (key : string) (v : value)
    (m : gmap string value) : gmap string value :=
  match m !! key with
  | Some _ => m
  | None => <[key := v]> m
  end.

Definition updated_post (post : Post) (slug : string)
    (title : option string) (body : string) (author_name now : string)
    (icon_url description : option string)
    (tags_list : option (list string))
    (category cover_url access_level : option string) : Post :=
  let m := metadata post in
  let m := match access_level with
           | Some a => <["access_level" := VStr a]> m
           | None => set_missing "access_level" (VStr "d1") m
           end in
  let m := <["title" :=
               if Py.is_empty (default "" title)
               then default (VStr slug) (m !! "title")
               else VStr (default "" title)]> m in
  let m := <["last_edited_at" := VStr now]> m in
  let m := <["last_edited_by" := VStr author_name]> m in
  let m := set_missing "created_at" (VStr now) m in
  let m := set_missing "created_by" (VStr author_name) m in
  let m := match description with
           | Some d => <["description" := VStr d]> m
           | None =>
               if Fmt.truthy (m !! "description") then m
               else <["description" := VStr (Py.take 300 (Py.strip body))]> m
           end in
  let m := set_opt "icon_url" icon_url m in
  let m := set_opt "cover_url" cover_url m in
  let m := set_opt "category" category m in
  let m := match tags_list with
           | Some l => <["tags" := VList l]> m
           | None => m
           end in
  mkPost m body.

(** [save_doc]; [now] is the reading of the clock in the zone [BRT] and
    a missing [title], [body] or [slug] is [None]. *)
Definition save_doc (now : datetime) (title : option string)
    (body : option string) (author_name author_email : string)
    (slug : option string) (icon_url description : option string)
    (tags : option tags_arg)
    (category cover_url access_level : option string) : M string :=
  ensure_dirs_and_repo;;
  let slug :=
    if Py.is_empty (default "" slug)
    then slugify (Fmt.opt_or title "documento")
    else default "" slug in
  let doc_dir := _doc_dir slug in
  let md_path_new := _doc_md_path_new slug in
  Os.makedirs doc_dir;;
  let now := Fmt.edit_stamp now in
  let body := default "" body in
  let tags_list := split_tags tags in
  let legacy_path := _doc_md_path_legacy slug in
  do has_new <- Os.path_exists md_path_new;
  do post <-
    (if has_new then frontmatter_load md_path_new
     else
       do has_legacy <- Os.path_exists legacy_path;
       if has_legacy then frontmatter_load legacy_path
       else ret (mkPost ∅ ""));
  let post :=
    updated_post post slug title body author_name now icon_url
      description tags_list category cover_url access_level in
  Os.write_text md_path_new (frontmatter_dumps post);;
  ret slug.

(** An uploaded file: the name the client gave, the bytes, and the six
    hexadecimal digits drawn for it. *)
Record upload := mkUpload {
  up_filename : string;
  up_data : string;
  up_suffix : string
}.

(** [os.path.splitext(name)[1]], through the root. *)
Definition splitext_ext (name : string) : string :=
  Py.drop (String.length (Fmt.splitext_root name)) name.

Definition upload_file (file_storage : upload) (slug : string)
    (filename_override title : option string) : M string :=
  ensure_dirs_and_repo;;
  let base_name :=
    if Py.is_empty (default "" title) then slug
    else slugify (default "" title) in
  if Py.is_empty base_name then raise
  else
    let base_dir := (DOCS_DIR ++ [base_name])%list in
    let base_url := "/docs/" ++ base_name in
    Os.makedirs base_dir;;
    let filename :=
      if Py.is_empty (default "" filename_override) then
        let orig :=
          secure_filename (Fmt.str_or (up_filename file_storage) "file") in
        let name := Fmt.splitext_root orig in
        let ext := Py.lower (splitext_ext orig) in
        let safe_name := Fmt.str_or (slugify name) "file" in
        safe_name ++ "-" ++ up_suffix file_storage ++ ext
      else default "" filename_override in
    let final_path := (base_dir ++ [filename])%list in
    Os.write_text final_path (up_data file_storage);;
    ret (base_url ++ "/" ++ filename).

Definition delete_file (slug filename : string) : M bool :=
  let p := (_doc_dir slug ++ [filename])%list in
  do present <- Os.path_exists p;
  if present then Os.remove true p;; ret true else ret false.

(** [delete_doc]; [utcnow] is the reading of the clock in UTC. *)
Definition delete_doc (utcnow : datetime) (slug : string) : M bool :=
  ensure_dirs_and_repo;;
  let doc_dir := _doc_dir slug in
  let legacy_path := _doc_md_path_legacy slug in
  do is_new <- Os.path_isdir doc_dir;
  if is_new then
    let timestamp := Fmt.trash_stamp utcnow in
    let trash_name := slug ++ "_" ++ timestamp in
    let trash_path := (TRASH_DIR ++ [trash_name])%list in
    Os.move doc_dir trash_path;;
    ret true
  else
    do is_legacy <- Os.path_exists legacy_path;
    if is_legacy then
      let timestamp := Fmt.trash_stamp utcnow in
      let trash_name := slug ++ "_" ++ timestamp ++ ".md" in
      Os.move legacy_path (TRASH_DIR ++ [trash_name])%list;;
      ret true
    else ret false.

(** The number of whole days between two instants given in
    microseconds: [(now - mtime).days]. *)
Definition age_days (now mtime : Z) : Z :=
  ((now - mtime) / 86400000000)%Z.

(** The loop of [clean_trash].  [getmtime] gives the last-modified
    instant of an entry, [refused] tells the entries that the operating
    system does not let go; [failed] collects the names whose failure
    is printed. *)
Fixpoint clean_loop (older_than_days now : Z) (getmtime : string → Z)
    (refused : string → bool) (names removed failed : list string)
    : M (list string * list string) :=
  match names with
  | [] => ret (removed, failed)
  | name :: rest =>
      let p := (TRASH_DIR ++ [name])%list in
      do present <- Os.path_exists p;
      if negb present
      then clean_loop older_than_days now getmtime refused rest
             removed failed
      else if (older_than_days <=? age_days now (getmtime name))%Z then
        do gone <-
          try_except
            (do is_dir <- Os.path_isdir p;
             (if is_dir then Os.rmtree (negb (refused name)) p
              else Os.remove (negb (refused name)) p);;
             ret true)
            (ret false);
        if gone
        then clean_loop older_than_days now getmtime refused rest
               (removed ++ [name])%list failed
        else clean_loop older_than_days now getmtime refused rest
               removed (failed ++ [name])%list
      else clean_loop older_than_days now getmtime refused rest
             removed failed
  end.

(** The run of [clean_trash]: the removed names and the printed ones. *)
Definition clean_trash_run (older_than_days now : Z)
    (getmtime : string → Z) (refused : string → bool)
    : M (list string * list string) :=
  ensure_dirs_and_repo;;
  do is_dir <- Os.path_isdir TRASH_DIR;
  if negb is_dir then ret ([], [])
  else
    do names <- Os.listdir TRASH_DIR;
    clean_loop older_than_days now getmtime refused names [] [].

Definition clean_trash (older_than_days now : Z) (getmtime : string → Z)
    (refused : string → bool) : M (list string) :=
  do out <- clean_trash_run older_than_days now getmtime refused;
  ret (fst out).


End Storage.

(** ** The document and trash handlers of [app/app.py] (POST requests) *)

(** What the handlers read of the session. *)
Record session := mkSession {
  user : option string;
  nivel : option string
}.

(** The fields of the document form; a field that was not sent is [None]. *)
Record doc_form := mkDocForm {
  f_title : option string;
  f_body : option string;
  f_description : option string;
  f_tags : option string;
  f_cover_url : option string;
  f_access_level : option string;
  f_icon : option upload
}.

(** The messages the handlers flash. *)
Inductive flash :=
  | NoPermission
  | TitleRequired
  | AlreadyExists (title : string)
  | IconError
  | Created
  | CreateError
  | Updated
  | Removed
  | TrashCleaned (count : nat)
  | InvalidName
  | ItemNotFound
  | RestoreConflict (base_name : string)
  | Restored (base_name : string)
  | RestoreError
  | Purged (name : string)
  | PurgeError.

(** Where the handlers redirect to. *)
Inductive target :=
  | ToLogin
  | ToDocs
  | ToNewDoc
  | ToViewDoc (slug : string)
  | ToEditDoc (slug : string)
  | ToTrash.

Record response := mkResponse {
  flashes : list flash;
  redirect : target
}.

Section App.
Context `{Lib}.

(** [@login_required] around [@nivel_required('n3')]. *)
Definition admin_only (s : session) (handler : M response) : M response :=
  match user s with
  | None => ret (mkResponse [] ToLogin)
  | Some _ =>
      if decide (nivel s = Some "n3") then handler
      else ret (mkResponse [NoPermission] ToDocs)
  end.

Definition form_tags (form : doc_form) : list string :=
  Py.strip <$>
  List.filter (λ t, negb (Py.is_empty (Py.strip t)))
              (Py.split ","%char (Py.strip (default "" (f_tags form)))).

(** The upload of the icon, when the form carries a named file; it
    tells whether the upload raised and the address it returned. *)
Definition upload_icon (form : doc_form) (slug : string)
    : M (list flash * option string) :=
  match f_icon form with
  | Some icon =>
      if Py.is_empty (up_filename icon) then ret ([], None)
      else
        try_except
          (do url <- upload_file icon slug None None; ret ([], Some url))
          (ret ([IconError], None))
  | None => ret ([], None)
  end.

Definition new_doc (now : datetime) (s : session) (form : doc_form)
    : M response :=
  admin_only s
    (let title := Py.strip (default "" (f_title form)) in
     let body := default "" (f_body form) in
     let description := Py.strip (default "" (f_description form)) in
     let tags := form_tags form in
     let access_level := default "d1" (f_access_level form) in
     if Py.is_empty title then ret (mkResponse [TitleRequired] ToNewDoc)
     else
       let slug := slugify title in
       let md_path_new := (DOCS_DIR ++ [slug; "doc.md"])%list in
       do taken <- Os.path_exists md_path_new;
       if taken then ret (mkResponse [AlreadyExists title] ToNewDoc)
       else
         do icon <- upload_icon form slug;
         try_except
           (do slug <-
              save_doc now (Some title) (Some body) (default "" (user s))
                (default "" (user s) ++ "@local") (Some slug) None
                (Some description) (Some (TagsList tags)) None None
                (Some access_level);
            ret (mkResponse (icon.1 ++ [Created])%list (ToViewDoc slug)))
           (ret (mkResponse (icon.1 ++ [CreateError])%list ToNewDoc))).

(** [edit_doc]: the call of [save_doc] is not guarded, so the handler
    raises when it does. *)
Definition edit_doc (now : datetime) (s : session) (slug : string)
    (form : doc_form) : M response :=
  admin_only s
    (let title := Py.strip (default "" (f_title form)) in
     let body := default "" (f_body form) in
     let description := Py.strip (default "" (f_description form)) in
     let tags := form_tags form in
     let access_level := default "d1" (f_access_level form) in
     if Py.is_empty title
     then ret (mkResponse [TitleRequired] (ToEditDoc slug))
     else
       do icon <- upload_icon form slug;
       save_doc now (Some title) (Some body) (default "" (user s))
         (default "" (user s) ++ "@local") (Some slug) icon.2
         (Some description) (Some (TagsList tags)) (Some access_level)
         None None;;
       ret (mkResponse (icon.1 ++ [Updated])%list (ToViewDoc slug))).

Definition remove_doc (utcnow : datetime) (s : session) (slug : string)
    : M response :=
  admin_only s
    (delete_doc utcnow slug;;
     ret (mkResponse [Removed] ToDocs)).

Definition admin_clean_trash (now : Z) (getmtime : string → Z)
    (refused : string → bool) (s : session) : M response :=
  admin_only s
    (do removed <- clean_trash 7 now getmtime refused;
     ret (mkResponse [TrashCleaned (length removed)] ToDocs)).

(** The slug that [restore_doc] reads off the name of a trash entry. *)
Definition restore_base_name (name : string) : string :=
  Py.replace ".md" "" (List.hd "" (Py.split "_"%char name)).

Definition restore_doc (s : session) (form_name : option string)
    : M response :=
  admin_only s
    (let name := Py.strip (default "" form_name) in
     if Py.is_empty name then ret (mkResponse [InvalidName] ToTrash)
     else
       let src := (TRASH_DIR ++ [name])%list in
       do present <- Os.path_exists src;
       if negb present then ret (mkResponse [ItemNotFound] ToTrash)
       else
         let base_name := restore_base_name name in
         let dest_dir := (DOCS_DIR ++ [base_name])%list in
         let new_path := _doc_md_path_new base_name in
         let legacy_path := _doc_md_path_legacy base_name in
         do has_new <- Os.path_exists new_path;
         do has_legacy <- Os.path_exists legacy_path;
         do has_dir <- Os.path_exists dest_dir;
         if has_new || has_legacy || has_dir
         then ret (mkResponse [RestoreConflict base_name] ToTrash)
         else
           try_except
             (Os.move src dest_dir;;
              ret (mkResponse [Restored base_name] ToTrash))
             (ret (mkResponse [RestoreError] ToTrash))).

Definition purge_doc (s : session) (form_name : option string)
    : M response :=
  admin_only s
    (let name := Py.strip (default "" form_name) in
     if Py.is_empty name then ret (mkResponse [InvalidName] ToTrash)
     else
       let p := (TRASH_DIR ++ [name])%list in
       do present <- Os.path_exists p;
       if negb present then ret (mkResponse [ItemNotFound] ToTrash)
       else
         try_except
           (do is_dir <- Os.path_isdir p;
            (if is_dir then Os.rmtree true p else Os.remove true p);;
            ret (mkResponse [Purged name] ToTrash))
           (ret (mkResponse [PurgeError] ToTrash))).

End App.

(** ** The listing page of [app/app.py] *)

(** One entry of the list that [docs] hands to its template; the fields
    of its [meta] dictionary are written next to the others. *)
Record item := mkItem {
  i_title : value;
  i_slug : string;
  i_category : value;
  i_description : value;
  i_cover_url : value;
  i_icon_url : value;
  i_tags : list string;
  i_created_by : option value;
  i_created_at : option value;
  i_last_edited_by : option value;
  i_last_edited_at : option value;
  i_content : option string
}.

(** What [docs] answers: the redirection of [@login_required], or the
    template with its items and the query. *)
Inductive page :=
  | PageToLogin
  | DocsList (items : list item) (q : string).

(** The title shown for a document without one: [Sem título]. *)
Definition untitled : string :=
  "Sem t" ++ String (ascii_of_nat 237) "tulo".

(** The dictionaries of [list_docs] have none of the keys [name],
    [excerpt], [summary], [snippet] and [content], so [pick] gives their
    defaults. *)
Definition to_item (d : summary) : item :=
  {| i_title :=
       if Fmt.truthy (Some (s_title d)) then s_title d else VStr untitled;
     i_slug := s_slug d;
     i_category := s_category d;
     i_description :=
       if Fmt.truthy (Some (s_description d)) then s_description d
       else VStr "";
     i_cover_url := s_cover_url d;
     i_icon_url := s_icon_url d;
     i_tags := s_tags d;
     i_created_by := s_created_by d;
     i_created_at := s_created_at d;
     i_last_edited_by := s_last_edited_by d;
     i_last_edited_at := s_last_edited_at d;
     i_content := None |}.

(** [i["category"] in (None, "", "d1")] and its variant for [n2]; a
    category is never [None] here. *)
Definition tier_allows (user_nivel : string) (category : value) : bool :=
  if String.eqb user_nivel "n1"
  then bool_decide (category = VStr "") || bool_decide (category = VStr "d1")
  else if String.eqb user_nivel "n2"
  then bool_decide (category = VStr "") || bool_decide (category = VStr "d1")
       || bool_decide (category = VStr "d2")
  else true.

Section Pages.
Context `{Lib}.

(** [docs]; [arg_q] is the parameter [q] of the request. *)
Definition docs (s : session) (arg_q : option string) : M page :=
  match user s with
  | None => ret PageToLogin
  | Some _ =>
      let q := Py.strip (default "" arg_q) in
      do raw_items <- list_docs q None "n1";
      let items := to_item <$> raw_items in
      let user_nivel := default "n1" (nivel s) in
      let items :=
        List.filter (λ i, tier_allows user_nivel (i_category i)) items in
      ret (DocsList items q)
  end.

End Pages.

(** ** The removal of an icon, in [app/app.py] *)

(** [f.readlines()] on a file opened in text mode, after the line ends
    were made LF: the lines with their line ends. *)
Fixpoint readlines (s : string) : list string :=
  match s with
  | EmptyString => []
  | String c s' =>
      if (Py.code c =? 10)%nat then String c EmptyString :: readlines s'
      else match readlines s' with
           | [] => [String c EmptyString]
           | line :: rest => String c line :: rest
           end
  end.

(** [f.writelines(lines)] writes the lines one after the other. *)
Definition writelines (lines : list string) : string :=
  foldr String.append EmptyString lines.

Definition is_icon_line (line : string) : bool :=
  Py.startswith "icon_url:" (Py.strip line).

Definition is_icon_file (fname : string) : bool :=
  Py.startswith "logo" fname || Py.contains "icon" fname.

(** What the handlers that answer in JSON return: the redirection of
    [@login_required], success, or an error with its status. *)
Inductive api :=
  | ApiToLogin
  | ApiOk
  | ApiError (status : nat).

(** The loop of [delete_icon] over the names of the directory: a
    removal that raises is passed over. *)
Fixpoint remove_icons (doc_dir : path) (names : list string) : M unit :=
  match names with
  | [] => ret ()
  | fname :: rest =>
      (if is_icon_file fname
       then try_except (Os.remove true (doc_dir ++ [fname])%list) (ret ())
       else ret ());;
      remove_icons doc_dir rest
  end.

Definition delete_icon (s : session) (slug : string) : M api :=
  match user s with
  | None => ret ApiToLogin
  | Some _ =>
      try_except
        (let md_path := _doc_md_path_new slug in
         do present <- Os.path_exists md_path;
         if negb present then ret (ApiError 404)
         else
           do raw <- Os.read_text md_path;
           let lines := readlines (Py.universal_newlines raw) in
           let new_lines :=
             List.filter (λ line, negb (is_icon_line line)) lines in
           Os.write_text md_path (writelines new_lines);;
           let doc_dir := _doc_dir slug in
           do names <- Os.listdir doc_dir;
           remove_icons doc_dir names;;
           ret ApiOk)
        (ret (ApiError 500))
  end.

(** ** The upload of an attachment, in [app/app.py] *)

(** [a or b] on two values that may be [None]. *)
Definition either (a b : option string) : option string :=
  match a with
  | Some x => if Py.is_empty x then b else a
  | None => b
  end.

(** What [upload] answers: the redirection of [@login_required], the
    address of the file, or an error with its status. *)
Inductive upload_reply :=
  | UploadToLogin
  | UploadUrl (url : string)
  | UploadError (status : nat).

Section UploadPage.
Context `{Lib}.

(** [upload]; [f] is the file of the request, which counts as missing
    when its name is empty, and the slug and the title are looked up in
    the form first and in the query string second. *)
Definition upload_route (s : session) (f : option upload)
    (form_slug args_slug form_title args_title : option string)
    : M upload_reply :=
  match user s with
  | None => ret UploadToLogin
  | Some _ =>
      let slug := either form_slug args_slug in
      let title := either form_title args_title in
      match f with
      | None => ret (UploadError 400)
      | Some file =>
          if Py.is_empty (up_filename file) then ret (UploadError 400)
          else if Py.is_empty (default "" slug)
                  && Py.is_empty (default "" title)
          then ret (UploadError 400)
          else
            do made <-
              try_except
                (let base_dir :=
                   (DOCS_DIR
                    ++ [slugify (Fmt.opt_or title (default "" slug))])%list in
                 Os.makedirs base_dir;;
                 ret true)
                (ret false);
            if negb made then ret (UploadError 500)
            else
              try_except
                (do url <- upload_file file (default "" slug) None title;
                 ret (UploadUrl url))
                (ret (UploadError 500))
      end
  end.

End UploadPage.

(** ** The page of a document, in [app/app.py] *)

(** What [view_doc] answers: the redirection of [@login_required], the
    redirection to the listing with the message that the document was
    not found, or the template with the rendered body, the slug and the
    metadata. *)
Inductive doc_page :=
  | ViewToLogin
  | ViewNotFound
  | DocView (html slug : string) (meta : gmap string value).

Section ViewPage.
Context `{Lib}.

(** [markdown] with the extensions that [view_doc] asks for. *)
Variable markdown_view : string → string.

Definition view_doc (s : session) (slug : string) : M doc_page :=
  match user s with
  | None => ret ViewToLogin
  | Some _ =>
      do post <- read_doc slug;
      match post with
      | None => ret ViewNotFound
      | Some post =>
          let html := markdown_view (content post) in
          ret (DocView html slug (metadata post))
      end
  end.

End ViewPage.

(** * The vocabulary of the properties *)

(** The entries of the directory at a path (none when there is no
    directory there). *)
Definition entries (fs : node) (p : path) : gmap string node :=
  match Fs.stat fs p with
  | Some (Dir es) => es
  | _ => ∅
  end.

(** What the data directory holds besides [docs] and [trash]. *)
Definition elsewhere (fs : node) : gmap string node :=
  delete "docs" (delete "trash" (entries fs [])).

(** The state that [ensure_dirs_and_repo] establishes when the
    application starts. *)
Definition initialised (fs : node) : Prop :=
  Fs.is_dir (Fs.stat fs DOCS_DIR) = true
  ∧ Fs.is_dir (Fs.stat fs UPLOADS_DIR) = true
  ∧ Fs.is_dir (Fs.stat fs TRASH_DIR) = true.

(** The names of the entries of a directory are proper components. *)
Definition proper_names (es : gmap string node) : Prop :=
  map_Forall (λ name _, Fs.plain_name name) es.

(** The data directory with the entries [d] in [docs] and [t] in
    [trash]. *)
Definition tree (root d t : gmap string node) : node :=
  Dir (<["docs" := Dir d]> (<["trash" := Dir t]> root)).

(** The tree with the entries [t] in its trash directory. *)
Definition with_trash (root : gmap string node) (t : gmap string node)
    : node :=
  Dir (<["trash" := Dir t]> root).

(** An entry has reached the threshold of the sweep; the sweep removes it;
    its removal is refused. *)
Definition due (days now : Z) (getmtime : string → Z) (name : string)
    : bool :=
  (days <=? age_days now (getmtime name))%Z.

Definition swept (days now : Z) (getmtime : string → Z)
    (refused : string → bool) (t : gmap string node) (name : string)
    : bool :=
  Fs.is_some_node (t !! name) && due days now getmtime name
  && negb (refused name).

Definition stuck (days now : Z) (getmtime : string → Z)
    (refused : string → bool) (t : gmap string node) (name : string)
    : bool :=
  Fs.is_some_node (t !! name) && due days now getmtime name && refused name.

(** A component that the lexical resolution leaves in place. *)
Definition not_special (c : string) : Prop := c ≠ "" ∧ c ≠ "." ∧ c ≠ "..".

(** The entries of the canonical directory of [slug], none when it does
    not exist. *)
Definition dir_entries (d : gmap string node) (slug : string)
    : gmap string node :=
  match d !! slug with
  | Some (Dir es) => es
  | _ => ∅
  end.

(** Only the legacy file of [slug] exists: it holds [text], there is no
    canonical file, and the canonical directory location is free or a
    directory. *)
Definition only_legacy (fs : node) (slug text : string) : Prop :=
  entries fs DOCS_DIR !! (slug ++ ".md") = Some (File text)
  ∧ Fs.stat fs (_doc_md_path_new slug) = None
  ∧ ∀ data, Fs.stat fs (_doc_dir slug) ≠ Some (File data).

(** A document of [slug] is stored, with text [raw]: as the canonical
    file, or as the legacy file only. *)
Definition stored_as (fs : node) (slug raw : string) : Prop :=
  Fs.stat fs (_doc_md_path_new slug) = Some (File raw)
  ∨ only_legacy fs slug raw.

(** The slug that [save_doc] writes to. *)
Definition resolved_slug `{Lib} (title slug : option string) : string :=
  if Py.is_empty (default "" slug)
  then slugify (Fmt.opt_or title "documento")
  else default "" slug.

(** The post that [save_doc] starts from: the canonical file when it
    exists, else the legacy file, else an empty post; nothing when the
    file that is chosen cannot be loaded. *)
Definition starting_post `{Lib} (fs : node) (slug : string) : option Post :=
  match Fs.stat fs (_doc_md_path_new slug) with
  | Some (File raw) => frontmatter_loads raw
  | Some (Dir _) => None
  | None =>
      match Fs.stat fs (_doc_md_path_legacy slug) with
      | Some (File raw) => frontmatter_loads raw
      | Some (Dir _) => None
      | None => Some (mkPost ∅ "")
      end
  end.

(** A session that passes [admin_only]. *)
Definition is_admin (s : session) : Prop :=
  is_Some (user s) ∧ nivel s = Some "n3".


(** The post that the listing loads from the canonical file of [slug],
    when it lists that directory, and from the legacy file. *)
Definition canonical_post `{Lib} (fs : node) (slug : string) : option Post :=
  if Fs.is_dir (Fs.stat fs (_doc_dir slug))
     && Fs.is_some_node (Fs.stat fs (_doc_md_path_new slug))
  then default None (eval (_safe_frontmatter_load (_doc_md_path_new slug)) fs)
  else None.

Definition legacy_post `{Lib} (fs : node) (slug : string) : option Post :=
  default None (eval (_safe_frontmatter_load (_doc_md_path_legacy slug)) fs).

(** The text filter on a post, as the listing applies it. *)
Definition passes_text `{Lib} (q slug : string) (post : Post) : Prop :=
  text_pass q (get post "title" (VStr slug)) (get post "description" (VStr ""))
    (post_tags post) (content post) = Some true.



(** What a handler behind [admin_only] answers to a session that is not
    an administrator's. *)
Definition turned_away (s : session) : response :=
  match user s with
  | None => mkResponse [] ToLogin
  | Some _ => mkResponse [NoPermission] ToDocs
  end.

(** The post that [_safe_frontmatter_load] makes of the text of a file:
    the parsed one, or the placeholder when the text does not parse. *)
Definition loaded_post `{Lib} (p : path) (raw : string) : Post :=
  match frontmatter_loads raw with
  | Some post => post
  | None => fallback_post p (Py.universal_newlines raw)
  end.

(** No character of the string is white space. *)
Fixpoint no_space (s : string) : bool :=
  match s with
  | EmptyString => true
  | String c s' => negb (Py.isspace c) && no_space s'
  end.

(** The directory and the file name that [upload_file] saves to. *)
Definition upload_base `{Lib} (slug : string) (title : option string)
    : string :=
  if Py.is_empty (default "" title) then slug
  else slugify (default "" title).

Definition upload_name `{Lib} (file_storage : upload)
    (filename_override : option string) : string :=
  if Py.is_empty (default "" filename_override) then
    let orig :=
      secure_filename (Fmt.str_or (up_filename file_storage) "file") in
    Fmt.str_or (slugify (Fmt.splitext_root orig)) "file"
    ++ "-" ++ up_suffix file_storage ++ Py.lower (splitext_ext orig)
  else default "" filename_override.

(** The entries of a document directory once its icons are removed:
    the files whose name starts with [logo] or contains [icon] are gone,
    the directories and the other files stay. *)
Definition icon_to_remove (name : string) (n : node) : bool :=
  is_icon_file name && match n with File _ => true | Dir _ => false end.

Definition without_icons (es : gmap string node) : gmap string node :=
  filter (λ kv, icon_to_remove kv.1 kv.2 = false) es.

(** The text of [doc.md] without its [icon_url:] lines. *)
Definition without_icon_lines (raw : string) : string :=
  writelines
    (List.filter (λ line, negb (is_icon_line line))
       (readlines (Py.universal_newlines raw))).

(** The lines that [readlines] gives: each has its line end, but
    possibly the last. *)
Definition is_lf (c : ascii) : bool := (Py.code c =? 10)%nat.

(** A line with its line end, and a last line without one. *)
Fixpoint ended_line (l : string) : bool :=
  match l with
  | EmptyString => false
  | String c EmptyString => is_lf c
  | String c l' => negb (is_lf c) && ended_line l'
  end.

Fixpoint open_line (l : string) : bool :=
  match l with
  | EmptyString => false
  | String c EmptyString => negb (is_lf c)
  | String c l' => negb (is_lf c) && open_line l'
  end.

Fixpoint well_split (ls : list string) : Prop :=
  match ls with
  | [] => True
  | [l] => ended_line l = true ∨ open_line l = true
  | l :: rest => ended_line l = true ∧ well_split rest
  end.

(** Text without carriage return is read as it is. *)
Fixpoint no_cr (s : string) : bool :=
  match s with
  | EmptyString => true
  | String c s' => negb (Py.code c =? 13)%nat && no_cr s'
  end.

(** One turn of the loop of [delete_icon], on the entries. *)
Definition sweep_step (es : gmap string node) (k : string)
    : gmap string node :=
  match es !! k with
  | Some n => if icon_to_remove k n then delete k es else es
  | None => es
  end.




(** * Sample libraries and stores

    Stand-ins for the third-party functions, used only to evaluate the
    definitions on concrete stores: a slugifier that is right on ASCII
    letters, digits, spaces and hyphens, and a front-matter codec for
    metadata blocks made of [key: value] lines whose values are plain
    strings, [''] or bracketed lists. *)

Module Sample.

Definition is_alnum (c : ascii) : bool :=
  let n := Py.code c in
  (((48 <=? n) && (n <=? 57)) || ((97 <=? n) && (n <=? 122)))%nat.

Fixpoint dashed (s : string) : string :=
  match s with
  | EmptyString => EmptyString
  | String c s' =>
      let c' := Py.lower_char c in
      String (if is_alnum c' then c' else "-"%char) (dashed s')
  end.

Fixpoint squeeze (s : string) : string :=
  match s with
  | String a ((String b _) as s') =>
      if Ascii.eqb a "-"%char && Ascii.eqb b "-"%char then squeeze s'
      else String a (squeeze s')
  | _ => s
  end.

Definition ascii_slug (s : string) : string :=
  Py.strip_char "-"%char (squeeze (dashed s)).

Definition render_value (v : value) : string :=
  match v with
  | VStr s => if Py.is_empty s then "''" else s
  | VList l => "[" ++ Py.join ", " l ++ "]"
  end.

Definition block_dumps (post : Post) : string :=
  "---" ++ Fmt.LF
  ++ foldr (λ k acc,
              match metadata post !! k with
              | Some v => k ++ ": " ++ render_value v ++ Fmt.LF ++ acc
              | None => acc
              end)
           "" (Py.sorted (elements (dom (metadata post))))
  ++ "---" ++ Fmt.LF ++ Fmt.LF ++ content post.

(** [s.partition(sep)] when [sep] occurs in [s]. *)
Fixpoint cut (sep s : string) : option (string * string) :=
  if Py.startswith sep s then Some ("", Py.drop (String.length sep) s)
  else match s with
       | EmptyString => None
       | String c s' =>
           match cut sep s' with
           | Some (a, b) => Some (String c a, b)
           | None => None
           end
       end.

Definition parse_value (s : string) : value :=
  if String.eqb s "''" then VStr ""
  else if Py.startswith "[" s && Py.endswith "]" s then
    let inner := Py.strip (Py.drop 1 (Py.drop_last 1 s)) in
    VList (if Py.is_empty inner then []
           else Py.strip <$> Py.split ","%char inner)
  else VStr s.

Fixpoint parse_lines (lines : list string) : option (gmap string value) :=
  match lines with
  | [] => Some ∅
  | line :: rest =>
      match cut ": " line, parse_lines rest with
      | Some (k, v), Some m => Some (<[k := parse_value v]> m)
      | _, _ => None
      end
  end.

Definition block_loads (text : string) : option Post :=
  match Fmt.FRONT_MATTER_RE_match text with
  | None => Some (mkPost ∅ (Py.strip text))
  | Some block =>
      match parse_lines (Py.splitlines block) with
      | Some m =>
          Some (mkPost m (Py.strip (Py.drop (String.length block + 9) text)))
      | None => None
      end
  end.

Definition lib : Lib := {|
    slugify := ascii_slug;
    frontmatter_loads := block_loads;
    frontmatter_dumps := block_dumps;
    markdown := λ s, "<p>" ++ s ++ "</p>";
    secure_filename := λ s, s
  |}.

(** A data directory with the entries [d] in [docs], [t] in [trash] and
    an empty [uploads]. *)
Definition store (d t : gmap string node) : node :=
  tree (<["uploads" := Dir ∅]> ∅) d t.

(** The text of a document file. *)
Definition doc_text (title tags body : string) : string :=
  "---" ++ Fmt.LF ++ "tags: " ++ tags ++ Fmt.LF ++ "title: " ++ title
  ++ Fmt.LF ++ "---" ++ Fmt.LF ++ Fmt.LF ++ body.

Definition doc_dir (text : string) : node :=
  Dir (<["doc.md" := File text]> ∅).

Definition clock : datetime := mkDatetime 2025 10 29 14 3 5 734.

Definition root_session : session := mkSession (Some "root") (Some "n3").

(** A trash with a directory last modified at instant 0 and a file last
    modified seven days later, looked at on the eighth day. *)
Definition day_us : Z := 86400000000.

Definition swept_trash : node :=
  store ∅ (<["guia_2025-10-20_09-00-00" := doc_dir "x"]>
             (<["nota_2025-10-27_09-00-00.md" := File "y"]> ∅)).

Definition swept_mtime (name : string) : Z :=
  if Py.startswith "guia" name then 0%Z else (7 * day_us)%Z.

(** One canonical document. *)
Definition api_text : string := doc_text "API Usuarios" "[api]" "# intro".

Definition one_doc : node :=
  store (<["api-usuarios" := doc_dir api_text]> ∅) ∅.

(** One legacy document. *)
Definition guia_text : string := doc_text "Guia" "[guide]" "passos".

Definition one_legacy : node :=
  store (<["guia.md" := File guia_text]> ∅) ∅.

(** One trashed document whose slug has no dot, and one whose slug is
    [a.md]. *)
Definition one_trashed : node :=
  store ∅ (<["guia_2025-10-29_14-03-05" := doc_dir guia_text]> ∅).


(** One canonical document with an empty description. *)
Definition nota_text : string :=
  "---" ++ Fmt.LF ++ "created_at: 2025-01-02 08:00:00 UTC-03:00" ++ Fmt.LF
  ++ "created_by: bia" ++ Fmt.LF ++ "description: ''" ++ Fmt.LF
  ++ "title: Nota" ++ Fmt.LF ++ "---" ++ Fmt.LF ++ Fmt.LF ++ "antes".

Definition one_nota : node :=
  store (<["nota" := doc_dir nota_text]> ∅) ∅.

Definition empty_store : node := store ∅ ∅.


(** What a reader finds stored under a key of the metadata, and as the
    body. *)
Definition stored_value (fs : node) (slug key : string) : option value :=
  match eval (read_doc (H := lib) slug) fs with
  | Some (Some post) => metadata post !! key
  | _ => None
  end.


(** A form that carries a title and a body only. *)
Definition form_of (title body : string) : doc_form :=
  mkDocForm (Some title) (Some body) None None None None None.

Definition reader_session : session := mkSession (Some "ana") (Some "n1").

(** A canonical file that does not parse beside the legacy file of the
    same slug. *)
Definition broken_text : string :=
  "---" ++ Fmt.LF ++ "title" ++ Fmt.LF ++ "---" ++ Fmt.LF ++ Fmt.LF ++ "x".

Definition broken_beside_legacy : node :=
  store (<["guia" := doc_dir broken_text]>
                  (<["guia.md" := File guia_text]> ∅)) ∅.

(** A slug stored in both forms beside a slug stored in the legacy form
    only. *)
Definition both_forms : node :=
  store (<["guia" := doc_dir guia_text]>
                  (<["guia.md" := File guia_text]>
                     (<["nota.md" := File nota_text]> ∅))) ∅.

Definition logo : upload := mkUpload "Logo Novo.PNG" "bytes" "a1b2c3".

(** Three canonical documents: without category, of category [d2] and of
    category [d3]. *)
Definition tiered_text (category title : string) : string :=
  "---" ++ Fmt.LF ++ "category: " ++ category ++ Fmt.LF
  ++ "title: " ++ title ++ Fmt.LF ++ "---" ++ Fmt.LF ++ Fmt.LF ++ "texto".

Definition tiered_docs : node :=
  store
    (<["aberto" := doc_dir (doc_text "Aberto" "[]" "texto")]>
       (<["interno" := doc_dir (tiered_text "d2" "Interno")]>
          (<["secreto" := doc_dir (tiered_text "d3" "Secreto")]> ∅)))
    ∅.

Definition staff_session : session := mkSession (Some "bia") (Some "n2").

Definition shown_slugs (p : res page) : list string :=
  match p with
  | Ret (DocsList items _) _ => i_slug <$> items
  | _ => []
  end.

(** A document with an icon: an [icon_url:] line in the front matter and
    an indented one in the body, the icon file, a file whose name happens
    to hold [icon], a cover and a directory named [icons]. *)
Definition icon_text : string :=
  "---" ++ Fmt.LF ++ "icon_url: /docs/guia/logo.png" ++ Fmt.LF
  ++ "title: Guia" ++ Fmt.LF ++ "---" ++ Fmt.LF ++ Fmt.LF
  ++ "passos" ++ Fmt.LF ++ "  icon_url: no corpo" ++ Fmt.LF ++ "fim".

Definition no_icon_text : string :=
  "---" ++ Fmt.LF ++ "title: Guia" ++ Fmt.LF ++ "---" ++ Fmt.LF ++ Fmt.LF
  ++ "passos" ++ Fmt.LF ++ "fim".

Definition icon_entries : gmap string node :=
  <["doc.md" := File icon_text]>
    (<["logo.png" := File "img"]>
       (<["silicone.txt" := File "txt"]>
          (<["capa.png" := File "img"]>
             (<["icons" := Dir ∅]> ∅)))).

Definition with_icon : node :=
  store (<["guia" := Dir icon_entries]> ∅) ∅.

Definition without_icon : node :=
  store
    (<["guia" := Dir (<["doc.md" := File no_icon_text]>
                        (<["capa.png" := File "img"]>
                           (<["icons" := Dir ∅]> ∅)))]> ∅) ∅.

(** A directory of icons without a document, and a directory where
    [doc.md] is itself a directory. *)
Definition icons_only : node :=
  store (<["guia" := Dir (<["logo.png" := File "img"]> ∅)]> ∅) ∅.

Definition doc_is_dir : node :=
  store (<["guia" := Dir (<["doc.md" := Dir ∅]> ∅)]> ∅) ∅.

(** A canonical document whose access level is [d3] and that has no
    category, and one of category [d3] whose access level is [d1]. *)
Definition levels_text (key level other title : string) : string :=
  "---" ++ Fmt.LF ++ key ++ ": " ++ level ++ Fmt.LF
  ++ other ++ Fmt.LF
  ++ "title: " ++ title ++ Fmt.LF ++ "---" ++ Fmt.LF ++ Fmt.LF ++ "texto".

Definition restricted_text : string :=
  levels_text "access_level" "d3" "author: bia" "Restrito".

Definition categorised_text : string :=
  levels_text "access_level" "d1" "category: d3" "Categorizado".

Definition levels_docs : node :=
  store
    (<["restrito" := doc_dir restricted_text]>
       (<["categorizado" := doc_dir categorised_text]> ∅))
    ∅.

(** A document directory, and a file where a directory is expected. *)
Definition guide_docs : node :=
  store (<["guia" := doc_dir guia_text]>
                  (<["nota" := File "x"]> ∅)) ∅.

Definition reply_of (r : res upload_reply) : option upload_reply :=
  match r with Ret a _ => Some a | Exc _ => None end.

Definition docs_names (r : res upload_reply) : list string :=
  Py.sorted (elements (dom (entries (tree_after r) DOCS_DIR))).




Definition shown (r : res doc_page) : option doc_page :=
  match r with Ret a _ => Some a | Exc _ => None end.

Definition framed (body : string) : string := "<div>" ++ body ++ "</div>".

End Sample.

(** * Properties *)

(** ** The shape of the data directory *)

Section TreeFacts.

Lemma length_append (a b : string) :
  String.length (a ++ b) = (String.length a + String.length b)%nat.
Proof. induction a as [|c a IH]; simpl; [done|by rewrite IH]. Qed.

Lemma initialised_inv fs :
  initialised fs →
  ∃ root d u t,
    fs = Dir root ∧ root !! "docs" = Some (Dir d)
    ∧ root !! "uploads" = Some (Dir u) ∧ root !! "trash" = Some (Dir t).
Proof.
  intros (Hd & Hu & Ht). destruct fs as [data|root]; [done|].
  unfold Fs.stat in *; cbn in *.
  destruct (root !! "docs") as [[|d]|] eqn:Ed; try done.
  destruct (root !! "uploads") as [[|u]|] eqn:Eu; try done.
  destruct (root !! "trash") as [[|t]|] eqn:Et; try done.
  by exists root, d, u, t.
Qed.

Lemma resolve_step_plain acc c :
  Fs.plain_name c → Fs.resolve_step acc c = (acc ++ [c])%list.
Proof.
  intros (H1 & H2 & H3 & _). unfold Fs.resolve_step.
  destruct (String.eqb_spec c ""); [done|].
  destruct (String.eqb_spec c "."); [done|].
  by destruct (String.eqb_spec c "..").
Qed.

Lemma resolve_step_legacy acc slug :
  Fs.resolve_step acc (slug ++ ".md") = (acc ++ [slug +:+ ".md"])%list.
Proof.
  assert (Hlen : ∀ x, slug ++ ".md" = x → (3 ≤ String.length x)%nat).
  { intros x <-. rewrite length_append. cbn. lia. }
  unfold Fs.resolve_step.
  destruct (String.eqb_spec (slug ++ ".md") "") as [E|_];
    [apply Hlen in E; cbn in E; lia|].
  destruct (String.eqb_spec (slug ++ ".md") ".") as [E|_];
    [apply Hlen in E; cbn in E; lia|].
  destruct (String.eqb_spec (slug ++ ".md") "..") as [E|_];
    [apply Hlen in E; cbn in E; lia|].
  done.
Qed.

Lemma stat_doc_dir fs slug :
  Fs.plain_name slug →
  Fs.stat fs (_doc_dir slug) = Fs.lookup_node fs ["docs"; slug].
Proof.
  intros Hp. unfold Fs.stat, Fs.resolve, _doc_dir, DOCS_DIR. cbn.
  by rewrite resolve_step_plain.
Qed.

Lemma stat_doc_md_new fs slug :
  Fs.plain_name slug →
  Fs.stat fs (_doc_md_path_new slug)
  = Fs.lookup_node fs ["docs"; slug; "doc.md"].
Proof.
  intros Hp. unfold Fs.stat, Fs.resolve, _doc_md_path_new, _doc_dir, DOCS_DIR.
  cbn. by rewrite resolve_step_plain.
Qed.

Lemma stat_doc_md_legacy fs slug :
  Fs.stat fs (_doc_md_path_legacy slug)
  = Fs.lookup_node fs ["docs"; slug +:+ ".md"].
Proof.
  unfold Fs.stat, Fs.resolve, _doc_md_path_legacy, DOCS_DIR. cbn.
  by rewrite resolve_step_legacy.
Qed.

Lemma stat_trash_entry fs name :
  Fs.plain_name name →
  Fs.stat fs (TRASH_DIR ++ [name])%list = Fs.lookup_node fs ["trash"; name].
Proof.
  intros Hp. unfold Fs.stat, Fs.resolve, TRASH_DIR. cbn.
  by rewrite resolve_step_plain.
Qed.

Lemma ensure_dirs_and_repo_id fs :
  initialised fs → ensure_dirs_and_repo fs = Ret () fs.
Proof.
  intros (root & d & u & t & -> & Hd & Hu & Ht)%initialised_inv.
  unfold ensure_dirs_and_repo, bind, Os.makedirs, Os.path_exists, ret.
  cbn. rewrite Hd. cbn. rewrite (insert_id root "docs") by done.
  cbn. rewrite Hu. cbn. rewrite (insert_id root "uploads") by done.
  cbn. rewrite Ht. cbn. by rewrite (insert_id root "trash").
Qed.

End TreeFacts.

(** ** The retention sweep *)

Section Sweep.
Variables (days now : Z) (getmtime : string → Z) (refused : string → bool).

Lemma stat_with_trash root t name :
  Fs.plain_name name →
  Fs.stat (with_trash root t) (TRASH_DIR ++ [name])%list = t !! name.
Proof.
  intros Hp. rewrite stat_trash_entry by done. cbn.
  rewrite lookup_insert_eq. by destruct (t !! name).
Qed.

Lemma del_with_trash root t name n :
  t !! name = Some n →
  Fs.del_node (with_trash root t) ["trash"; name]
  = Some (with_trash root (delete name t)).
Proof.
  intros Hn. cbn. rewrite lookup_insert_eq. cbn. rewrite Hn.
  unfold with_trash. by rewrite insert_insert_eq.
Qed.

Lemma resolve_trash_entry name :
  Fs.plain_name name → Fs.resolve (TRASH_DIR ++ [name])%list = ["trash"; name].
Proof.
  intros Hp. unfold Fs.resolve, TRASH_DIR. cbn.
  by rewrite resolve_step_plain.
Qed.

(** One turn of the loop on an entry that is due. *)
Lemma remove_due_entry root t name n :
  Fs.plain_name name → t !! name = Some n →
  try_except
    (do is_dir <- Os.path_isdir (TRASH_DIR ++ [name])%list;
     (if is_dir then Os.rmtree (negb (refused name)) (TRASH_DIR ++ [name])%list
      else Os.remove (negb (refused name)) (TRASH_DIR ++ [name])%list);;
     ret true)
    (ret false) (with_trash root t)
  = if refused name then Ret false (with_trash root t)
    else Ret true (with_trash root (delete name t)).
Proof.
  intros Hp Hn.
  unfold try_except, bind, Os.path_isdir, Os.rmtree, Os.remove, ret.
  cbv beta. rewrite stat_with_trash, Hn by done.
  destruct n as [data|es]; cbn [Fs.is_dir];
    rewrite stat_with_trash, Hn by done;
    destruct (refused name); cbn [negb]; try done;
    by rewrite resolve_trash_entry, (del_with_trash _ _ _ _ Hn).
Qed.

Lemma lookup_kept (t : gmap string node) name rest n :
  swept days now getmtime refused t name = false →
  (if decide (n ∈ rest ∧ swept days now getmtime refused t n = true) then None else t !! n)
  = (if decide (n ∈ name :: rest ∧ swept days now getmtime refused t n = true) then None else t !! n).
Proof.
  intros Hs.
  destruct (decide (n ∈ rest ∧ swept days now getmtime refused t n = true)) as [[Hin Hn]|Hno];
    destruct (decide (n ∈ name :: rest ∧ swept days now getmtime refused t n = true))
      as [[Hin' Hn']|Hno']; try done.
  - exfalso. apply Hno'. split; [by right|done].
  - exfalso. apply elem_of_cons in Hin' as [->|Hin']; [congruence|].
    by apply Hno.
Qed.

Lemma lookup_gone (t : gmap string node) name rest n :
  swept days now getmtime refused t name = true → name ∉ rest →
  (if decide (n ∈ rest ∧ swept days now getmtime refused (delete name t) n = true)
   then None else delete name t !! n)
  = (if decide (n ∈ name :: rest ∧ swept days now getmtime refused t n = true) then None else t !! n).
Proof.
  intros Hs Hnotin. destruct (decide (n = name)) as [->|Hne].
  - rewrite lookup_delete_eq.
    destruct (decide (name ∈ rest ∧ swept days now getmtime refused (delete name t) name = true))
      as [[Hin _]|_]; [done|].
    destruct (decide (name ∈ name :: rest ∧ swept days now getmtime refused t name = true))
      as [_|Hno']; [done|].
    exfalso. apply Hno'. split; [left|done].
  - rewrite lookup_delete_ne by done.
    assert (swept days now getmtime refused (delete name t) n = swept days now getmtime refused t n) as ->
      by (unfold swept; by rewrite lookup_delete_ne).
    destruct (decide (n ∈ rest ∧ swept days now getmtime refused t n = true)) as [[Hin Hn]|Hno];
      destruct (decide (n ∈ name :: rest ∧ swept days now getmtime refused t n = true))
        as [[Hin' Hn']|Hno']; try done.
    + exfalso. apply Hno'. split; [by right|done].
    + exfalso. apply elem_of_cons in Hin' as [->|Hin']; [done|].
      by apply Hno.
Qed.

Lemma clean_loop_spec names :
  ∀ root t removed failed,
    NoDup names → (∀ n, n ∈ names → Fs.plain_name n) →
    ∃ t',
      clean_loop days now getmtime refused names removed failed
        (with_trash root t)
      = Ret ((removed ++ List.filter (swept days now getmtime refused t) names)%list,
             (failed ++ List.filter (stuck days now getmtime refused t) names)%list)
            (with_trash root t')
      ∧ ∀ n, t' !! n = if decide (n ∈ names ∧ swept days now getmtime refused t n = true)
                       then None else t !! n.
Proof.
  induction names as [|name rest IH]; intros root t removed failed Hnd Hpl.
  - exists t. cbn. rewrite !app_nil_r. split; [done|].
    intros n. case_decide as Hn; [|done]. destruct Hn as [Hn _].
    by apply elem_of_nil in Hn.
  - apply NoDup_cons in Hnd as [Hnotin Hnd].
    assert (Hp : Fs.plain_name name) by (apply Hpl; left).
    assert (Hpl' : ∀ n, n ∈ rest → Fs.plain_name n)
      by (intros n Hn; apply Hpl; by right).
    assert (Hsw : List.filter (swept days now getmtime refused (delete name t)) rest
                  = List.filter (swept days now getmtime refused t) rest).
    { apply List.filter_ext_in. intros n Hn%list_elem_of_In.
      unfold swept. rewrite lookup_delete_ne; [done|by intros ->]. }
    assert (Hst : List.filter (stuck days now getmtime refused (delete name t)) rest
                  = List.filter (stuck days now getmtime refused t) rest).
    { apply List.filter_ext_in. intros n Hn%list_elem_of_In.
      unfold stuck. rewrite lookup_delete_ne; [done|by intros ->]. }
    cbn [clean_loop List.filter]. unfold bind at 1.
    unfold Os.path_exists at 1. rewrite stat_with_trash by done.
    destruct (t !! name) as [n0|] eqn:Hn0; cbn [Fs.is_some_node negb].
    + destruct (due days now getmtime name) eqn:Hdue.
      * unfold due in Hdue. rewrite Hdue.
        unfold bind at 1. rewrite (remove_due_entry _ _ _ _ Hp Hn0).
        destruct (refused name) eqn:Hre.
        -- assert (swept days now getmtime refused t name = false) as Hs
             by (unfold swept; by rewrite Hre, andb_false_r).
           assert (stuck days now getmtime refused t name = true) as Hk
             by (unfold stuck, due; by rewrite Hn0, Hdue, Hre).
           rewrite Hs, Hk.
           destruct (IH root t removed (failed ++ [name])%list Hnd Hpl')
             as (t' & Hrun & Hlook).
           exists t'. rewrite Hrun. split.
           ++ by rewrite <- app_assoc.
           ++ intros n. rewrite Hlook. by apply lookup_kept.
        -- assert (swept days now getmtime refused t name = true) as Hs
             by (unfold swept, due; by rewrite Hn0, Hdue, Hre).
           assert (stuck days now getmtime refused t name = false) as Hk
             by (unfold stuck; by rewrite Hre, andb_false_r).
           rewrite Hs, Hk.
           destruct (IH root (delete name t) (removed ++ [name])%list
                       failed Hnd Hpl') as (t' & Hrun & Hlook).
           exists t'. rewrite Hrun, Hsw, Hst. split.
           ++ by rewrite <- app_assoc.
           ++ intros n. rewrite Hlook. by apply lookup_gone.
      * assert (swept days now getmtime refused t name = false) as Hs
          by (unfold swept; by rewrite Hdue, andb_false_r).
        assert (stuck days now getmtime refused t name = false) as Hk
          by (unfold stuck; by rewrite Hdue, andb_false_r).
        rewrite Hs, Hk. unfold due in Hdue. rewrite Hdue.
        destruct (IH root t removed failed Hnd Hpl') as (t' & Hrun & Hlook).
        exists t'. rewrite Hrun. split; [done|].
        intros n. rewrite Hlook. by apply lookup_kept.
    + assert (swept days now getmtime refused t name = false) as Hs
        by (unfold swept; by rewrite Hn0).
      assert (stuck days now getmtime refused t name = false) as Hk
        by (unfold stuck; by rewrite Hn0).
      rewrite Hs, Hk.
      destruct (IH root t removed failed Hnd Hpl') as (t' & Hrun & Hlook).
      exists t'. rewrite Hrun. split; [done|].
      intros n. rewrite Hlook. by apply lookup_kept.
Qed.

End Sweep.

Section SweepTheorem.

Lemma initialised_with_trash fs :
  initialised fs →
  ∃ root t, fs = with_trash root t ∧ root !! "trash" = Some (Dir t)
            ∧ Fs.is_dir (root !! "docs") = true.
Proof.
  intros (root & d & u & t & -> & Hd & Hu & Ht)%initialised_inv.
  exists root, t. unfold with_trash. rewrite insert_id by done.
  by rewrite Hd.
Qed.

Lemma stat_trash_dir root t :
  Fs.stat (with_trash root t) TRASH_DIR = Some (Dir t).
Proof. unfold Fs.stat. cbn. by rewrite lookup_insert_eq. Qed.

Lemma entries_with_trash root t :
  entries (with_trash root t) TRASH_DIR = t.
Proof. unfold entries, Fs.stat. cbn. by rewrite lookup_insert_eq. Qed.

Lemma docs_with_trash root t t' :
  entries (with_trash root t') DOCS_DIR = entries (with_trash root t) DOCS_DIR.
Proof. unfold entries, Fs.stat. cbn. by rewrite !lookup_insert_ne. Qed.

Lemma elsewhere_with_trash root t t' :
  elsewhere (with_trash root t') = elsewhere (with_trash root t).
Proof.
  unfold elsewhere, entries, Fs.stat. cbn. by rewrite !delete_insert_eq.
Qed.

Lemma elem_of_filter_bool (f : string → bool) (l : list string) x :
  x ∈ List.filter f l ↔ x ∈ l ∧ f x = true.
Proof. rewrite !list_elem_of_In. apply List.filter_In. Qed.

End SweepTheorem.

(** C7.  The sweep of the trash holding area.  For every initialised
    store and every threshold, [clean_trash] returns; the names it returns
    are exactly the entries whose age in whole days, counted from the
    last-modified instant, reaches the threshold and whose removal the
    operating system does not refuse; the refused ones are printed and the
    loop goes on with the remaining entries; exactly the returned entries
    are gone from the trash and nothing else changes.  An entry that is 8
    days old is removed by a sweep with threshold 7 and an entry that is 6
    days old stays. *)
Theorem clean_trash_sweeps (fs : node) (days now : Z)
    (getmtime : string → Z) (refused : string → bool) :
  initialised fs →
  proper_names (entries fs TRASH_DIR) →
  ∃ removed failed fs',
    clean_trash_run days now getmtime refused fs = Ret (removed, failed) fs'
    ∧ clean_trash days now getmtime refused fs = Ret removed fs'
    ∧ (∀ name, name ∈ removed ↔
         is_Some (entries fs TRASH_DIR !! name)
         ∧ (days ≤ age_days now (getmtime name))%Z
         ∧ refused name = false)
    ∧ (∀ name, name ∈ failed ↔
         is_Some (entries fs TRASH_DIR !! name)
         ∧ (days ≤ age_days now (getmtime name))%Z
         ∧ refused name = true)
    ∧ (∀ name, entries fs' TRASH_DIR !! name
               = if decide (name ∈ removed) then None
                 else entries fs TRASH_DIR !! name)
    ∧ entries fs' DOCS_DIR = entries fs DOCS_DIR
    ∧ elsewhere fs' = elsewhere fs
    ∧ (∀ name, days = 7%Z → refused name = false →
         is_Some (entries fs TRASH_DIR !! name) →
         ((now - getmtime name = 8 * 86400000000)%Z → name ∈ removed)
         ∧ ((now - getmtime name = 6 * 86400000000)%Z → name ∉ removed)).
Proof.
  intros Hinit Hproper.
  destruct (initialised_with_trash fs Hinit) as (root & t & -> & Ht & Hd).
  rewrite entries_with_trash in Hproper.
  assert (Hnames : ∀ n, n ∈ elements (dom t) → Fs.plain_name n).
  { intros n Hn. apply elem_of_elements, elem_of_dom in Hn as [x Hx].
    by apply (Hproper n x). }
  destruct (clean_loop_spec days now getmtime refused (elements (dom t))
              root t [] [] (NoDup_elements _) Hnames) as (t' & Hrun & Hlook).
  assert (Hmem : ∀ name (f : string → bool),
             name ∈ List.filter (λ n, Fs.is_some_node (t !! n) && due days now getmtime n && f n)
                                (elements (dom t))
             ↔ is_Some (t !! name)
               ∧ (days ≤ age_days now (getmtime name))%Z ∧ f name = true).
  { intros name f. rewrite elem_of_filter_bool, elem_of_elements, elem_of_dom.
    unfold due. rewrite !andb_true_iff, Z.leb_le.
    split.
    - intros (Hs & (_ & Hdue) & Hf); done.
    - intros (Hs & Hdue & Hf). repeat split; try done.
      by destruct Hs as [x ->]. }
  assert (Hrun' : clean_trash_run days now getmtime refused (with_trash root t)
                  = Ret (List.filter (swept days now getmtime refused t) (elements (dom t)),
                         List.filter (stuck days now getmtime refused t) (elements (dom t)))
                        (with_trash root t')).
  { unfold clean_trash_run, bind.
    rewrite ensure_dirs_and_repo_id by done.
    unfold Os.path_isdir, Os.listdir. rewrite stat_trash_dir.
    cbn [Fs.is_dir negb]. cbv beta. rewrite stat_trash_dir.
    exact Hrun. }
  set (removed := List.filter (swept days now getmtime refused t) (elements (dom t))) in *.
  set (failed := List.filter (stuck days now getmtime refused t) (elements (dom t))) in *.
  assert (Hrem : ∀ name, name ∈ removed ↔
             is_Some (t !! name) ∧ (days ≤ age_days now (getmtime name))%Z
             ∧ refused name = false).
  { intros name. unfold removed, swept.
    rewrite (Hmem name (λ n, negb (refused n))).
    by rewrite negb_true_iff. }
  exists removed, failed, (with_trash root t').
  rewrite !entries_with_trash.
  split; [exact Hrun'|].
  split; [unfold clean_trash, bind; by rewrite Hrun'|].
  split; [exact Hrem|].
  split; [intros name; unfold failed, stuck; apply (Hmem name refused)|].
  split.
  { intros name. rewrite Hlook.
    destruct (decide (name ∈ elements (dom t)
                      ∧ swept days now getmtime refused t name = true))
      as [Hyes|Hno]; destruct (decide (name ∈ removed)) as [Hin|Hnin];
      try done.
    - exfalso. apply Hnin. unfold removed. by apply elem_of_filter_bool.
    - exfalso. apply Hno. unfold removed in Hin.
      by apply elem_of_filter_bool in Hin. }
  split; [apply docs_with_trash|].
  split; [apply elsewhere_with_trash|].
  intros name -> Href Hsome. split.
  - intros Hage. apply Hrem. repeat split; try done.
    unfold age_days. rewrite Hage. by vm_compute.
  - intros Hage (_ & Hle & _)%Hrem. unfold age_days in Hle.
    rewrite Hage in Hle. by vm_compute in Hle.
Qed.

(** A sweep with threshold 7 on a trash that holds an entry of 8 days
    and an entry of 1 day. *)
Lemma clean_trash_sweeps_witness :
  initialised Sample.swept_trash
  ∧ proper_names (entries Sample.swept_trash TRASH_DIR)
  ∧ ∃ removed failed fs',
      clean_trash_run 7 (8 * Sample.day_us) Sample.swept_mtime (λ _, false)
        Sample.swept_trash = Ret (removed, failed) fs'
      ∧ "guia_2025-10-20_09-00-00" ∈ removed
      ∧ "nota_2025-10-27_09-00-00.md" ∉ removed.
Proof.
  assert (H1 : initialised Sample.swept_trash) by by vm_compute.
  assert (H2 : proper_names (entries Sample.swept_trash TRASH_DIR))
    by (apply (bool_decide_unpack _); by vm_compute).
  split; [done|]. split; [done|].
  destruct (clean_trash_sweeps Sample.swept_trash 7 (8 * Sample.day_us)
              Sample.swept_mtime (λ _, false) H1 H2)
    as (removed & failed & fs' & Hrun & _ & Hrem & _).
  exists removed, failed, fs'. split; [done|]. split.
  - apply Hrem. split; [|split; [by vm_compute|done]].
    apply (bool_decide_unpack _). by vm_compute.
  - intros (_ & Hage & _)%Hrem. vm_compute in Hage. exact (Hage eq_refl).
Defined.

(** ** Moves between [docs] and [trash] *)

Section TreeOps.
Implicit Types (root d t es : gmap string node) (n : node).

Lemma initialised_tree fs :
  initialised fs →
  ∃ root d t, fs = tree root d t ∧ initialised (tree root d t).
Proof.
  intros Hinit.
  destruct (initialised_inv fs Hinit) as (root & d & u & t & -> & Hd & Hu & Ht).
  exists root, d, t. unfold tree.
  rewrite (insert_id root "trash") by done.
  by rewrite (insert_id root "docs") by done.
Qed.

Lemma lookup_tree_docs root d t :
  (<["docs" := Dir d]> (<["trash" := Dir t]> root) : gmap string node) !! "docs"
  = Some (Dir d).
Proof. by rewrite lookup_insert_eq. Qed.

Lemma lookup_tree_trash root d t :
  (<["docs" := Dir d]> (<["trash" := Dir t]> root) : gmap string node) !! "trash"
  = Some (Dir t).
Proof. by rewrite lookup_insert_ne, lookup_insert_eq. Qed.

Lemma tree_set_docs root d d' t :
  Dir (<["docs" := Dir d']> (<["docs" := Dir d]> (<["trash" := Dir t]> root)))
  = tree root d' t.
Proof. unfold tree. by rewrite insert_insert_eq. Qed.

Lemma tree_set_trash root d t t' :
  Dir (<["trash" := Dir t']> (<["docs" := Dir d]> (<["trash" := Dir t]> root)))
  = tree root d t'.
Proof.
  unfold tree. rewrite (insert_insert_ne _ "trash" "docs") by done.
  by rewrite insert_insert_eq.
Qed.

Lemma entries_docs_tree root d t : entries (tree root d t) DOCS_DIR = d.
Proof.
  unfold entries, Fs.stat, tree. cbn [Fs.resolve DOCS_DIR foldl Fs.lookup_node].
  cbn. by rewrite lookup_tree_docs.
Qed.

Lemma entries_trash_tree root d t : entries (tree root d t) TRASH_DIR = t.
Proof. unfold entries, Fs.stat, tree. cbn. by rewrite lookup_tree_trash. Qed.

Lemma elsewhere_tree root d t :
  elsewhere (tree root d t) = delete "docs" (delete "trash" root).
Proof.
  unfold elsewhere, entries, Fs.stat, tree. cbn.
  rewrite (delete_delete _ "docs" "trash").
  rewrite delete_insert_eq. rewrite (delete_delete _ "trash" "docs").
  by rewrite delete_insert_eq.
Qed.

Lemma lookup_docs_entry root d t k :
  Fs.lookup_node (tree root d t) ["docs"; k] = d !! k.
Proof.
  unfold tree. cbn [Fs.lookup_node]. rewrite lookup_tree_docs.
  by destruct (d !! k).
Qed.

Lemma lookup_trash_entry root d t k :
  Fs.lookup_node (tree root d t) ["trash"; k] = t !! k.
Proof.
  unfold tree. cbn [Fs.lookup_node]. rewrite lookup_tree_trash.
  by destruct (t !! k).
Qed.

Lemma lookup_doc_md root d t k :
  Fs.lookup_node (tree root d t) ["docs"; k; "doc.md"]
  = match d !! k with
    | Some (Dir es) => es !! "doc.md"
    | _ => None
    end.
Proof.
  unfold tree. cbn [Fs.lookup_node]. rewrite lookup_tree_docs.
  destruct (d !! k) as [[|es]|]; try done. by destruct (es !! "doc.md").
Qed.

Lemma put_docs_entry root d t k n :
  Fs.put_node (tree root d t) ["docs"; k] n = Some (tree root (<[k := n]> d) t).
Proof.
  unfold tree at 1. cbn [Fs.put_node]. rewrite lookup_tree_docs.
  by rewrite tree_set_docs.
Qed.

Lemma put_trash_entry root d t k n :
  Fs.put_node (tree root d t) ["trash"; k] n = Some (tree root d (<[k := n]> t)).
Proof.
  unfold tree at 1. cbn [Fs.put_node]. rewrite lookup_tree_trash.
  by rewrite tree_set_trash.
Qed.

Lemma put_doc_md root d t k es n :
  d !! k = Some (Dir es) →
  Fs.put_node (tree root d t) ["docs"; k; "doc.md"] n
  = Some (tree root (<[k := Dir (<["doc.md" := n]> es)]> d) t).
Proof.
  intros Hk. unfold tree at 1. cbn [Fs.put_node]. rewrite lookup_tree_docs.
  rewrite Hk. by rewrite tree_set_docs.
Qed.

Lemma del_docs_entry root d t k n :
  d !! k = Some n →
  Fs.del_node (tree root d t) ["docs"; k] = Some (tree root (delete k d) t).
Proof.
  intros Hk. unfold tree at 1. cbn [Fs.del_node]. rewrite lookup_tree_docs.
  rewrite Hk. by rewrite tree_set_docs.
Qed.

Lemma del_trash_entry root d t k n :
  t !! k = Some n →
  Fs.del_node (tree root d t) ["trash"; k] = Some (tree root d (delete k t)).
Proof.
  intros Hk. unfold tree at 1. cbn [Fs.del_node]. rewrite lookup_tree_trash.
  rewrite Hk. by rewrite tree_set_trash.
Qed.

Lemma mkdirs_docs_entry root d t k :
  (∀ data, d !! k ≠ Some (File data)) →
  Fs.mkdirs (tree root d t) ["docs"; k]
  = Some (tree root (<[k := default (Dir ∅) (d !! k)]> d) t).
Proof.
  intros Hk. unfold tree at 1. cbn [Fs.mkdirs]. rewrite lookup_tree_docs.
  unfold default. cbn [from_option id Fs.mkdirs].
  destruct (d !! k) as [[data|es]|] eqn:E; cbn [from_option id Fs.mkdirs].
  - by destruct (Hk data).
  - by rewrite tree_set_docs.
  - by rewrite tree_set_docs.
Qed.

(** A move from [docs] to a free name of [trash], and back. *)
Lemma move_docs_to_trash root d t src dst k name n :
  Fs.resolve src = ["docs"; k] → Fs.resolve dst = ["trash"; name] →
  d !! k = Some n → t !! name = None →
  Os.move src dst (tree root d t)
  = Ret () (tree root (delete k d) (<[name := n]> t)).
Proof.
  intros Hs Hd Hk Hname.
  unfold Os.move, bind, Os.path_isdir, Fs.stat. rewrite Hd.
  rewrite lookup_trash_entry, Hname. cbn [Fs.is_dir].
  unfold Os.rename. rewrite Hs, Hd, lookup_docs_entry, Hk.
  destruct (decide (["docs"; k] = ["trash"; name])) as [E|_]; [done|].
  cbn [Fs.is_prefix]. rewrite (proj2 (String.eqb_neq "docs" "trash")) by done.
  cbn [andb]. rewrite lookup_trash_entry, Hname.
  rewrite (del_docs_entry _ _ _ _ _ Hk). by rewrite put_trash_entry.
Qed.

Lemma move_trash_to_docs root d t src dst k name n :
  Fs.resolve src = ["trash"; name] → Fs.resolve dst = ["docs"; k] →
  t !! name = Some n → d !! k = None →
  Os.move src dst (tree root d t)
  = Ret () (tree root (<[k := n]> d) (delete name t)).
Proof.
  intros Hs Hd Hname Hk.
  unfold Os.move, bind, Os.path_isdir, Fs.stat. rewrite Hd.
  rewrite lookup_docs_entry, Hk. cbn [Fs.is_dir].
  unfold Os.rename. rewrite Hs, Hd, lookup_trash_entry, Hname.
  destruct (decide (["trash"; name] = ["docs"; k])) as [E|_]; [done|].
  cbn [Fs.is_prefix]. rewrite (proj2 (String.eqb_neq "trash" "docs")) by done.
  cbn [andb]. rewrite lookup_docs_entry, Hk.
  rewrite (del_trash_entry _ _ _ _ _ Hname). by rewrite put_docs_entry.
Qed.

End TreeOps.

Section Names.

Lemma plain_not_special c : Fs.plain_name c → not_special c.
Proof. intros (? & ? & ? & _). by repeat split. Qed.

Lemma long_not_special c : (3 ≤ String.length c)%nat → not_special c.
Proof. intros Hlen. repeat split; intros ->; cbn in Hlen; lia. Qed.

Lemma resolve_step_keep acc c :
  not_special c → Fs.resolve_step acc c = (acc ++ [c])%list.
Proof.
  intros (H1 & H2 & H3). unfold Fs.resolve_step.
  destruct (String.eqb_spec c ""); [done|].
  destruct (String.eqb_spec c "."); [done|].
  by destruct (String.eqb_spec c "..").
Qed.

Lemma resolve_docs_child c :
  not_special c → Fs.resolve (DOCS_DIR ++ [c])%list = ["docs"; c].
Proof.
  intros Hc. unfold Fs.resolve, DOCS_DIR. cbn. by rewrite resolve_step_keep.
Qed.

Lemma resolve_trash_child c :
  not_special c → Fs.resolve (TRASH_DIR ++ [c])%list = ["trash"; c].
Proof.
  intros Hc. unfold Fs.resolve, TRASH_DIR. cbn. by rewrite resolve_step_keep.
Qed.

Lemma resolve_doc_md c :
  not_special c → Fs.resolve (_doc_md_path_new c) = ["docs"; c; "doc.md"].
Proof.
  intros Hc. unfold Fs.resolve, _doc_md_path_new, _doc_dir, DOCS_DIR. cbn.
  by rewrite resolve_step_keep.
Qed.

Lemma trash_stamp_length t : (5 ≤ String.length (Fmt.trash_stamp t))%nat.
Proof. unfold Fmt.trash_stamp. rewrite !length_append. cbn. lia. Qed.

Lemma trash_name_not_special slug tail :
  slug ≠ "" → (1 ≤ String.length tail)%nat →
  not_special (slug ++ "_" ++ tail).
Proof.
  intros Hslug Hlen. apply long_not_special. rewrite !length_append. cbn.
  destruct slug; [done|]. cbn. lia.
Qed.

Lemma legacy_not_special slug : not_special (slug ++ ".md").
Proof. apply long_not_special. rewrite length_append. cbn. lia. Qed.

End Names.



(** ** Restoring a trash entry *)

Section Restore.

Lemma admin_only_admin s (handler : M response) :
  is_admin s → admin_only s handler = handler.
Proof.
  intros [[u Hu] Hn]. unfold admin_only. rewrite Hu.
  by destruct (decide (nivel s = Some "n3")).
Qed.


End Restore.




(** ** Reading and the migration of a legacy file *)

Section Read.
Context `{Lib}.

Lemma tree_initialised root d t d' t' :
  initialised (tree root d t) → initialised (tree root d' t').
Proof.
  unfold initialised, Fs.stat, tree. cbn.
  rewrite !lookup_tree_docs, !lookup_tree_trash.
  by rewrite !lookup_insert_ne.
Qed.

Lemma legacy_name_ne slug : slug ++ ".md" ≠ slug.
Proof.
  intros E. apply (f_equal String.length) in E.
  rewrite length_append in E. cbn in E. lia.
Qed.

Lemma frontmatter_load_file fs p text :
  Fs.stat fs p = Some (File text) →
  frontmatter_load p fs
  = match frontmatter_loads text with
    | Some post => Ret post fs
    | None => Exc fs
    end.
Proof.
  intros Hp. unfold frontmatter_load, bind, Os.read_text. rewrite Hp.
  by destruct (frontmatter_loads text).
Qed.

(** The guarded block of [read_doc] that copies the legacy file. *)
Lemma migrate_block root d t slug text :
  Fs.plain_name slug →
  d !! (slug ++ ".md") = Some (File text) →
  (∀ data, d !! slug ≠ Some (File data)) →
  (∀ es, dir_entries d slug !! "doc.md" ≠ Some (Dir es)) →
  let d' := <[slug := Dir (<["doc.md" := File text]> (dir_entries d slug))]> d in
  (Os.makedirs (Fs.dirname (_doc_md_path_new slug));;
   Os.copy2 (_doc_md_path_legacy slug) (_doc_md_path_new slug);;
   do post <- frontmatter_load (_doc_md_path_new slug);
   ret (Some post)) (tree root d t)
  = match frontmatter_loads text with
    | Some post => Ret (Some post) (tree root d' t)
    | None => Exc (tree root d' t)
    end.
Proof.
  intros Hplain Hleg Hnofile Hnodir d'.
  assert (Hns : not_special slug) by by apply plain_not_special.
  set (es0 := dir_entries d slug) in *.
  set (d1 := <[slug := Dir es0]> d).
  assert (Hmk : Os.makedirs (Fs.dirname (_doc_md_path_new slug)) (tree root d t)
                = Ret () (tree root d1 t)).
  { unfold Os.makedirs.
    replace (Fs.dirname (_doc_md_path_new slug)) with (DOCS_DIR ++ [slug])%list
      by done.
    rewrite resolve_docs_child, mkdirs_docs_entry by done.
    do 3 f_equal. unfold d1, es0, dir_entries.
    destruct (d !! slug) as [[data|es]|] eqn:E; try done.
    by destruct (Hnofile data). }
  assert (Hd1_leg : d1 !! (slug ++ ".md") = Some (File text)).
  { unfold d1. rewrite lookup_insert_ne; [done|]. apply not_eq_sym, legacy_name_ne. }
  assert (Hd1_slug : d1 !! slug = Some (Dir es0))
    by (unfold d1; by rewrite lookup_insert_eq).
  assert (Hcp : Os.copy2 (_doc_md_path_legacy slug) (_doc_md_path_new slug)
                  (tree root d1 t) = Ret () (tree root d' t)).
  { unfold Os.copy2, bind, Os.read_text, Os.path_isdir.
    rewrite stat_doc_md_legacy, lookup_docs_entry, Hd1_leg.
    rewrite stat_doc_md_new, lookup_doc_md, Hd1_slug by done.
    assert (Fs.is_dir (es0 !! "doc.md") = false) as ->.
    { destruct (es0 !! "doc.md") as [[|es]|] eqn:E; try done.
      by destruct (Hnodir es). }
    destruct (decide (Fs.resolve (_doc_md_path_legacy slug)
                      = Fs.resolve (_doc_md_path_new slug))) as [E|_].
    { unfold _doc_md_path_legacy in E.
      rewrite resolve_docs_child, resolve_doc_md in E by
        (done || apply legacy_not_special). done. }
    unfold Os.write_text.
    rewrite stat_doc_md_new, lookup_doc_md, Hd1_slug by done.
    rewrite resolve_doc_md, (put_doc_md _ _ _ _ _ _ Hd1_slug) by done.
    unfold d1, d'. rewrite insert_insert_eq.
    destruct (es0 !! "doc.md") as [[|es]|] eqn:E; try done.
    by destruct (Hnodir es). }
  assert (Hnew : Fs.stat (tree root d' t) (_doc_md_path_new slug)
                 = Some (File text)).
  { rewrite stat_doc_md_new, lookup_doc_md by done. unfold d'.
    by rewrite lookup_insert_eq, lookup_insert_eq. }
  unfold bind at 1. rewrite Hmk. unfold bind at 1. rewrite Hcp.
  unfold bind. rewrite (frontmatter_load_file _ _ _ Hnew).
  by destruct (frontmatter_loads text).
Qed.

End Read.

(** C4.  Idempotent legacy migration.  On an initialised store, for a
    slug that is a proper path component without surrounding white space
    and of which only the legacy file exists: the first [read_doc] returns
    what the parser makes of the legacy text, and leaves the canonical
    file [docs/<slug>/doc.md] holding a copy of that text, nothing else
    being changed; a second [read_doc] returns the same result and leaves
    the store as the first call left it. *)
Theorem read_doc_migrates_once `{Lib} (fs : node) (slug text : string) :
  initialised fs →
  Fs.plain_name slug →
  Py.strip slug = slug →
  only_legacy fs slug text →
  ∃ fs1,
    read_doc slug fs = Ret (frontmatter_loads text) fs1
    ∧ Fs.stat fs1 (_doc_md_path_new slug) = Some (File text)
    ∧ entries fs1 DOCS_DIR
      = <[slug := Dir (<["doc.md" := File text]>
                         (dir_entries (entries fs DOCS_DIR) slug))]>
          (entries fs DOCS_DIR)
    ∧ entries fs1 TRASH_DIR = entries fs TRASH_DIR
    ∧ elsewhere fs1 = elsewhere fs
    ∧ read_doc slug fs1 = Ret (frontmatter_loads text) fs1.
Proof.
  intros Hinit Hplain Hstrip (Hleg & Hnonew & Hnofile).
  destruct (initialised_tree fs Hinit) as (root & d & t & -> & Hinit').
  rewrite entries_docs_tree in *. rewrite entries_trash_tree.
  rewrite stat_doc_md_new, lookup_doc_md in Hnonew by done.
  assert (Hnofile' : ∀ data, d !! slug ≠ Some (File data)).
  { intros data. specialize (Hnofile data).
    by rewrite stat_doc_dir, lookup_docs_entry in Hnofile. }
  set (es0 := dir_entries d slug).
  set (d' := <[slug := Dir (<["doc.md" := File text]> es0)]> d).
  assert (Hes0 : es0 !! "doc.md" = None).
  { unfold es0, dir_entries. by destruct (d !! slug) as [[|es]|]. }
  assert (Hleg' : d' !! (slug ++ ".md") = Some (File text)).
  { unfold d'. rewrite lookup_insert_ne; [done|]. apply not_eq_sym, legacy_name_ne. }
  assert (Hnew' : Fs.stat (tree root d' t) (_doc_md_path_new slug)
                  = Some (File text)).
  { rewrite stat_doc_md_new, lookup_doc_md by done. unfold d'.
    by rewrite lookup_insert_eq, lookup_insert_eq. }
  assert (Hlegstat : ∀ dd, Fs.stat (tree root dd t) (_doc_md_path_legacy slug)
                           = dd !! (slug ++ ".md")).
  { intros dd. by rewrite stat_doc_md_legacy, lookup_docs_entry. }
  exists (tree root d' t).
  rewrite entries_docs_tree, entries_trash_tree, !elsewhere_tree.
  split; [|split; [done|split; [done|split; [done|split; [done|]]]]].
  - (* the first call: nothing canonical, the legacy file is copied *)
    unfold read_doc. unfold bind at 1.
    rewrite ensure_dirs_and_repo_id by done. rewrite Hstrip.
    unfold bind at 1, Os.path_exists at 1.
    rewrite stat_doc_md_new, lookup_doc_md, Hnonew by done.
    cbn [Fs.is_some_node]. unfold bind at 1. unfold ret at 1.
    unfold bind at 1, Os.path_exists at 1. rewrite Hlegstat, Hleg.
    cbn [Fs.is_some_node]. unfold try_except at 1.
    rewrite (migrate_block root d t slug text); try done.
    + fold es0 d'. destruct (frontmatter_loads text) eqn:Eload; [done|].
      unfold try_except, bind.
      rewrite (frontmatter_load_file _ _ text) by by rewrite Hlegstat.
      by rewrite Eload.
    + intros es. fold es0. by rewrite Hes0.
  - (* the second call: the canonical file is read *)
    assert (Hinit2 : initialised (tree root d' t))
      by by apply (tree_initialised root d t).
    unfold read_doc. unfold bind at 1.
    rewrite ensure_dirs_and_repo_id by done. rewrite Hstrip.
    unfold bind at 1, Os.path_exists at 1. rewrite Hnew'.
    cbn [Fs.is_some_node]. unfold bind at 1, try_except at 1, bind at 1.
    rewrite (frontmatter_load_file _ _ _ Hnew').
    destruct (frontmatter_loads text) eqn:Eload; [done|].
    unfold ret at 1.
    unfold bind at 1, Os.path_exists at 1. rewrite Hlegstat, Hleg'.
    cbn [Fs.is_some_node]. unfold try_except at 1.
    assert (Hsame : <[slug := Dir (<["doc.md" := File text]>
                                     (dir_entries d' slug))]> d' = d').
    { unfold dir_entries, d'. rewrite lookup_insert_eq.
      by rewrite !insert_insert_eq. }
    rewrite (migrate_block root d' t slug text); try done.
    + rewrite Hsame, Eload. unfold try_except, bind.
      rewrite (frontmatter_load_file _ _ text) by by rewrite Hlegstat.
      by rewrite Eload.
    + intros data. unfold d'. by rewrite lookup_insert_eq.
    + intros es. unfold dir_entries, d'.
      by rewrite lookup_insert_eq, lookup_insert_eq.
Qed.

(** Two readings of a document that is stored in the legacy form. *)
Lemma read_doc_migrates_once_witness :
  initialised Sample.one_legacy
  ∧ Fs.plain_name "guia"
  ∧ Py.strip "guia" = "guia"
  ∧ only_legacy Sample.one_legacy "guia" Sample.guia_text
  ∧ ∃ fs1, read_doc (H := Sample.lib) "guia" Sample.one_legacy
           = Ret (Sample.block_loads Sample.guia_text) fs1
      ∧ read_doc (H := Sample.lib) "guia" fs1
        = Ret (Sample.block_loads Sample.guia_text) fs1.
Proof.
  assert (H1 : initialised Sample.one_legacy) by by vm_compute.
  assert (H2 : Fs.plain_name "guia") by by vm_compute.
  assert (H3 : Py.strip "guia" = "guia") by by vm_compute.
  assert (H4 : only_legacy Sample.one_legacy "guia" Sample.guia_text)
    by (repeat split; by vm_compute).
  split; [done|]. split; [done|]. split; [done|]. split; [done|].
  destruct (read_doc_migrates_once (H := Sample.lib) Sample.one_legacy "guia"
              Sample.guia_text H1 H2 H3 H4)
    as (fs1 & Hfirst & _ & _ & _ & _ & Hsecond).
  exists fs1. split; [exact Hfirst|exact Hsecond].
Defined.

(** ** Writing a document *)

Section MetadataFacts.
Implicit Types (m : gmap string value).

Lemma lookup_set_missing_ne k k' v m :
  k ≠ k' → set_missing k v m !! k' = m !! k'.
Proof.
  intros Hne. unfold set_missing. destruct (m !! k); [done|].
  by rewrite lookup_insert_ne.
Qed.

Lemma lookup_set_missing_eq k v m :
  set_missing k v m !! k = Some (default v (m !! k)).
Proof.
  unfold set_missing. destruct (m !! k) eqn:E; [done|].
  by rewrite lookup_insert_eq.
Qed.

Lemma lookup_set_opt_ne k k' arg m :
  k ≠ k' → set_opt k arg m !! k' = m !! k'.
Proof.
  intros Hne. unfold set_opt. destruct arg; [|done].
  by rewrite lookup_insert_ne.
Qed.

Lemma lookup_set_opt_eq k arg m :
  set_opt k arg m !! k
  = match arg with Some v => Some (VStr v) | None => m !! k end.
Proof. unfold set_opt. destruct arg; [|done]. by rewrite lookup_insert_eq. Qed.

End MetadataFacts.

(** Rewriting a lookup through the updates of [updated_post]. *)
Ltac through_updates :=
  repeat first
    [ rewrite lookup_insert_eq
    | rewrite lookup_insert_ne by discriminate
    | rewrite lookup_set_missing_ne by discriminate
    | rewrite lookup_set_opt_ne by discriminate
    | rewrite lookup_set_missing_eq
    | rewrite lookup_set_opt_eq ].

Section UpdatedPost.
Variables (old : Post) (slug : string) (title : option string)
  (body author now : string) (icon description : option string)
  (tags_list : option (list string)) (category cover access : option string).

Let post : Post :=
  updated_post old slug title body author now icon description tags_list
    category cover access.

Lemma updated_content : content post = body.
Proof. done. Qed.

Lemma updated_created_at v :
  metadata old !! "created_at" = Some v →
  metadata post !! "created_at" = Some v.
Proof.
  intros Hv. subst post. unfold updated_post. cbn [metadata].
  destruct tags_list, description, access;
    try destruct (Fmt.truthy _); through_updates; by rewrite Hv.
Qed.

Lemma updated_created_by v :
  metadata old !! "created_by" = Some v →
  metadata post !! "created_by" = Some v.
Proof.
  intros Hv. subst post. unfold updated_post. cbn [metadata].
  destruct tags_list, description, access;
    try destruct (Fmt.truthy _); through_updates; by rewrite Hv.
Qed.

Lemma updated_first_created :
  metadata old !! "created_at" = None →
  metadata post !! "created_at" = Some (VStr now).
Proof.
  intros Hv. subst post. unfold updated_post. cbn [metadata].
  destruct tags_list, description, access;
    try destruct (Fmt.truthy _); through_updates; by rewrite Hv.
Qed.

Lemma updated_last_edited :
  metadata post !! "last_edited_at" = Some (VStr now)
  ∧ metadata post !! "last_edited_by" = Some (VStr author).
Proof.
  subst post. unfold updated_post. cbn [metadata].
  split; destruct tags_list, description, access;
    try destruct (Fmt.truthy _); by through_updates.
Qed.

Lemma updated_tags :
  metadata post !! "tags"
  = match tags_list with
    | Some l => Some (VList l)
    | None => metadata old !! "tags"
    end.
Proof.
  subst post. unfold updated_post. cbn [metadata].
  destruct tags_list, description, access;
    try destruct (Fmt.truthy _); by through_updates.
Qed.

Lemma updated_icon_url :
  metadata post !! "icon_url"
  = match icon with
    | Some v => Some (VStr v)
    | None => metadata old !! "icon_url"
    end.
Proof.
  subst post. unfold updated_post. cbn [metadata].
  destruct tags_list, description, access, icon;
    try destruct (Fmt.truthy _); by through_updates.
Qed.

Lemma updated_cover_url :
  metadata post !! "cover_url"
  = match cover with
    | Some v => Some (VStr v)
    | None => metadata old !! "cover_url"
    end.
Proof.
  subst post. unfold updated_post. cbn [metadata].
  destruct tags_list, description, access, cover;
    try destruct (Fmt.truthy _); by through_updates.
Qed.

Lemma updated_access_level :
  metadata post !! "access_level"
  = match access with
    | Some v => Some (VStr v)
    | None => Some (default (VStr "d1") (metadata old !! "access_level"))
    end.
Proof.
  subst post. unfold updated_post. cbn [metadata].
  destruct tags_list, description, access;
    try destruct (Fmt.truthy _); by through_updates.
Qed.

Lemma updated_description :
  metadata post !! "description"
  = match description with
    | Some v => Some (VStr v)
    | None =>
        if Fmt.truthy (metadata old !! "description")
        then metadata old !! "description"
        else Some (VStr (Py.take 300 (Py.strip body)))
    end.
Proof.
  subst post. unfold updated_post. cbn [metadata].
  destruct description as [v|].
  - destruct tags_list, access; by through_updates.
  - destruct tags_list, access;
      match goal with
      | |- context [Fmt.truthy ?x] =>
          replace x with (metadata old !! "description")
            by (symmetry; by through_updates);
          destruct (Fmt.truthy (metadata old !! "description"))
      end; by through_updates.
Qed.

End UpdatedPost.

Section Write.
Context `{Lib}.

Lemma makedirs_doc_dir root d t slug :
  Fs.plain_name slug →
  (∀ data, d !! slug ≠ Some (File data)) →
  Os.makedirs (_doc_dir slug) (tree root d t)
  = Ret () (tree root (<[slug := Dir (dir_entries d slug)]> d) t).
Proof.
  intros Hplain Hnofile. unfold Os.makedirs, _doc_dir.
  rewrite resolve_docs_child, mkdirs_docs_entry
    by (done || by apply plain_not_special).
  do 3 f_equal. unfold dir_entries.
  destruct (d !! slug) as [[data|es]|] eqn:E; try done.
  by destruct (Hnofile data).
Qed.

(** What a successful [save_doc] does to the store. *)
Lemma save_doc_run root d t now title body author email slug icon
    description tags category cover access old :
  let target := resolved_slug title slug in
  initialised (tree root d t) →
  Fs.plain_name target →
  (∀ data, d !! target ≠ Some (File data)) →
  starting_post (tree root d t) target = Some old →
  save_doc now title body author email slug icon description tags category
    cover access (tree root d t)
  = Ret target
      (tree root
         (<[target :=
              Dir (<["doc.md" :=
                       File (frontmatter_dumps
                               (updated_post old target title
                                  (default "" body) author
                                  (Fmt.edit_stamp now) icon description
                                  (split_tags tags) category cover access))]>
                     (dir_entries d target))]> d) t).
Proof.
  intros target Hinit Hplain Hnofile Hstart.
  set (es0 := dir_entries d target).
  set (d1 := <[target := Dir es0]> d).
  assert (Hd1 : d1 !! target = Some (Dir es0))
    by (unfold d1; by rewrite lookup_insert_eq).
  assert (Hnew : ∀ dd, Fs.stat (tree root dd t) (_doc_md_path_new target)
                       = dir_entries dd target !! "doc.md").
  { intros dd. rewrite stat_doc_md_new, lookup_doc_md by done.
    unfold dir_entries. by destruct (dd !! target) as [[|es]|]. }
  assert (Hleg : ∀ dd, Fs.stat (tree root dd t) (_doc_md_path_legacy target)
                       = dd !! (target ++ ".md")).
  { intros dd. by rewrite stat_doc_md_legacy, lookup_docs_entry. }
  assert (Hes1 : dir_entries d1 target = es0)
    by (unfold dir_entries at 1; by rewrite Hd1).
  assert (Hleg1 : d1 !! (target ++ ".md") = d !! (target ++ ".md")).
  { unfold d1. rewrite lookup_insert_ne; [done|]. apply not_eq_sym, legacy_name_ne. }
  unfold starting_post in Hstart. rewrite Hnew, Hleg in Hstart. fold es0 in Hstart.
  unfold save_doc. fold (resolved_slug title slug). fold target.
  unfold bind at 1. rewrite ensure_dirs_and_repo_id by done.
  unfold bind at 1. rewrite makedirs_doc_dir by done. fold es0 d1.
  unfold bind at 1, Os.path_exists at 1. rewrite Hnew, Hes1.
  assert (Hwrite : ∀ post,
             (Os.write_text (_doc_md_path_new target) (frontmatter_dumps post);;
              ret target) (tree root d1 t)
             = Ret target
                 (tree root
                    (<[target := Dir (<["doc.md" := File (frontmatter_dumps post)]> es0)]> d) t)).
  { intros post. unfold bind, Os.write_text.
    rewrite Hnew, Hes1.
    assert (Hput : Fs.put_node (tree root d1 t) (Fs.resolve (_doc_md_path_new target))
                     (File (frontmatter_dumps post))
                   = Some (tree root
                             (<[target := Dir (<["doc.md" := File (frontmatter_dumps post)]> es0)]> d) t)).
    { rewrite resolve_doc_md by by apply plain_not_special.
      rewrite (put_doc_md _ _ _ _ _ _ Hd1). unfold d1.
      by rewrite insert_insert_eq. }
    rewrite Hput.
    destruct (es0 !! "doc.md") as [[raw|es]|]; try done. }
  destruct (es0 !! "doc.md") as [[raw|es]|] eqn:Edoc; try done.
  - (* the canonical file is loaded *)
    cbn [Fs.is_some_node]. unfold bind at 1.
    rewrite (frontmatter_load_file _ _ raw)
      by (by rewrite Hnew, Hes1). rewrite Hstart.
    apply Hwrite.
  - cbn [Fs.is_some_node]. unfold bind at 1.
    unfold bind at 1, Os.path_exists at 1. cbv beta.
    rewrite Hleg, Hleg1.
    destruct (d !! (target ++ ".md")) as [[raw|es]|] eqn:Eleg; try done.
    + (* the legacy file is loaded *)
      cbn [Fs.is_some_node].
      rewrite (frontmatter_load_file _ _ raw)
        by (by rewrite Hleg, Hleg1). rewrite Hstart.
      apply Hwrite.
    + (* a new document *)
      cbn [Fs.is_some_node]. unfold ret at 1.
      injection Hstart as <-. apply Hwrite.
Qed.

End Write.

(** ** Edits keep the creation fields *)

(** C5, as the code has it.  A write addressed at the slug of a stored
    document that parses succeeds and writes the canonical file; in the
    metadata it writes, [created_at] and [created_by] are the stored ones
    when the stored document has them, [last_edited_at] is the current
    time and [last_edited_by] the current author; [tags], [icon_url] and
    [cover_url] that are omitted keep their stored values; an omitted
    [access_level] keeps its stored value, or becomes [d1] when there is
    none; an omitted [description] keeps its stored value when that value
    is not empty, and is otherwise the first 300 characters of the
    trimmed new body. *)
Theorem save_doc_edit_frame `{Lib} (fs : node) (now : datetime)
    (title body : option string) (author email slug : string)
    (icon description : option string) (tags : option tags_arg)
    (category cover access : option string) (raw : string) (old : Post) :
  initialised fs →
  Fs.plain_name slug →
  stored_as fs slug raw →
  frontmatter_loads raw = Some old →
  ∃ fs' post,
    save_doc now title body author email (Some slug) icon description tags
      category cover access fs = Ret slug fs'
    ∧ Fs.stat fs' (_doc_md_path_new slug)
      = Some (File (frontmatter_dumps post))
    ∧ content post = default "" body
    ∧ (∀ v, metadata old !! "created_at" = Some v →
            metadata post !! "created_at" = Some v)
    ∧ (∀ v, metadata old !! "created_by" = Some v →
            metadata post !! "created_by" = Some v)
    ∧ metadata post !! "last_edited_at" = Some (VStr (Fmt.edit_stamp now))
    ∧ metadata post !! "last_edited_by" = Some (VStr author)
    ∧ (tags = None → metadata post !! "tags" = metadata old !! "tags")
    ∧ (icon = None →
       metadata post !! "icon_url" = metadata old !! "icon_url")
    ∧ (cover = None →
       metadata post !! "cover_url" = metadata old !! "cover_url")
    ∧ (access = None →
       metadata post !! "access_level"
       = Some (default (VStr "d1") (metadata old !! "access_level")))
    ∧ (description = None →
       metadata post !! "description"
       = if Fmt.truthy (metadata old !! "description")
         then metadata old !! "description"
         else Some (VStr (Py.take 300 (Py.strip (default "" body))))).
Proof.
  intros Hinit Hplain Hstored Hload.
  destruct (initialised_tree fs Hinit) as (root & d & t & -> & Hinit').
  assert (Hslug : resolved_slug title (Some slug) = slug).
  { unfold resolved_slug. cbn [default from_option id].
    destruct slug; [by destruct Hplain|done]. }
  assert (Hnofile : ∀ data, d !! slug ≠ Some (File data)).
  { intros data Hd. destruct Hstored as [Hnew|(_ & _ & Hno)].
    - rewrite stat_doc_md_new, lookup_doc_md, Hd in Hnew by done. done.
    - apply (Hno data). by rewrite stat_doc_dir, lookup_docs_entry. }
  assert (Hstart : starting_post (tree root d t) slug = Some old).
  { unfold starting_post. destruct Hstored as [Hnew|(Hleg & Hnonew & _)].
    - by rewrite Hnew.
    - rewrite Hnonew, stat_doc_md_legacy, lookup_docs_entry.
      rewrite entries_docs_tree in Hleg. by rewrite Hleg. }
  pose proof (save_doc_run root d t now title body author email (Some slug)
                icon description tags category cover access old) as Hrun.
  cbv zeta in Hrun. rewrite Hslug in Hrun.
  specialize (Hrun Hinit' Hplain Hnofile Hstart).
  eexists. eexists. split; [exact Hrun|].
  split.
  { rewrite stat_doc_md_new, lookup_doc_md by done.
    by rewrite lookup_insert_eq, lookup_insert_eq. }
  split; [apply updated_content|].
  split; [apply updated_created_at|].
  split; [apply updated_created_by|].
  split; [apply updated_last_edited|].
  split; [apply updated_last_edited|].
  split; [intros ->; by rewrite updated_tags|].
  split; [intros ->; by rewrite updated_icon_url|].
  split; [intros ->; by rewrite updated_cover_url|].
  split; [intros ->; by rewrite updated_access_level|].
  intros ->. by rewrite updated_description.
Qed.

(** An edit of a stored note. *)
Lemma save_doc_edit_frame_witness :
  initialised Sample.one_nota
  ∧ Fs.plain_name "nota"
  ∧ stored_as Sample.one_nota "nota" Sample.nota_text
  ∧ is_Some (Sample.block_loads Sample.nota_text)
  ∧ ∃ fs', save_doc (H := Sample.lib) Sample.clock (Some "Nota")
             (Some "depois") "ana" "ana@local" (Some "nota") None
             (Some "resumo") None None None None Sample.one_nota
           = Ret "nota" fs'.
Proof.
  assert (H1 : initialised Sample.one_nota) by by vm_compute.
  assert (H2 : Fs.plain_name "nota") by by vm_compute.
  assert (H3 : stored_as Sample.one_nota "nota" Sample.nota_text)
    by (left; by vm_compute).
  destruct (Sample.block_loads Sample.nota_text) as [old|] eqn:H4;
    [|by vm_compute in H4].
  split; [done|]. split; [done|]. split; [done|]. split; [by eexists|].
  destruct (save_doc_edit_frame (H := Sample.lib) Sample.one_nota Sample.clock
              (Some "Nota") (Some "depois") "ana" "ana@local" "nota" None
              (Some "resumo") None None None None Sample.nota_text old
              H1 H2 H3 H4) as (fs' & post & Hrun & _).
  exists fs'. exact Hrun.
Defined.

(** The claim C5 fails for an omitted description when the stored one is
    empty: the stored description [''] of the sample document is replaced
    by the start of the new body. *)
Lemma save_doc_description_counterexample :
  Sample.stored_value Sample.one_nota "nota" "description" = Some (VStr "")
  ∧ eval (save_doc (H := Sample.lib) Sample.clock (Some "Nota")
            (Some "depois") "ana" "ana@local" (Some "nota") None None None
            None None None) Sample.one_nota = Some "nota"
  ∧ Sample.stored_value
      (tree_after
         (save_doc (H := Sample.lib) Sample.clock (Some "Nota")
            (Some "depois") "ana" "ana@local" (Some "nota") None None None
            None None None Sample.one_nota))
      "nota" "description"
    = Some (VStr "depois").
Proof. by vm_compute. Qed.

(** ** Creation and the missing title *)




(** C9, as the code has it.  With the slug omitted and the title missing
    or empty, [save_doc] is the write addressed at the slug of
    [documento]: on an initialised store where nothing is stored under
    that slug it creates the document and returns the slug.  The title is
    checked by the handlers: for an administrator and a blank title,
    [new_doc] and [edit_doc] answer that the title is required and leave
    the store as it is. *)
Theorem missing_title_is_checked_by_handlers `{Lib} (now : datetime) :
  (∀ title body author email icon description tags category cover access,
     Py.is_empty (default "" title) = true →
     save_doc now title body author email None icon description tags
       category cover access
     = save_doc now title body author email (Some (slugify "documento"))
         icon description tags category cover access)
  ∧ (∀ fs title body author email icon description tags category cover
       access,
       Py.is_empty (default "" title) = true →
       initialised fs →
       Fs.plain_name (slugify "documento") →
       entries fs DOCS_DIR !! slugify "documento" = None →
       entries fs DOCS_DIR !! (slugify "documento" ++ ".md") = None →
       ∃ fs', save_doc now title body author email None icon description
                tags category cover access fs
              = Ret (slugify "documento") fs'
         ∧ Fs.is_some_node
             (Fs.stat fs' (_doc_md_path_new (slugify "documento"))) = true)
  ∧ (∀ fs s slug form,
       is_admin s →
       Py.is_empty (Py.strip (default "" (f_title form))) = true →
       new_doc now s form fs = Ret (mkResponse [TitleRequired] ToNewDoc) fs
       ∧ edit_doc now s slug form fs
         = Ret (mkResponse [TitleRequired] (ToEditDoc slug)) fs).
Proof.
  assert (Hslug : ∀ title, Py.is_empty (default "" title) = true →
                    resolved_slug title None = slugify "documento").
  { intros title Ht. unfold resolved_slug. cbn [default from_option id Py.is_empty].
    by destruct title as [[|c t]|]. }
  split; [|split].
  - intros title body author email icon description tags category cover
      access Ht.
    unfold save_doc. cbn [default from_option id Py.is_empty].
    assert (Fmt.opt_or title "documento" = "documento") as ->
      by by destruct title as [[|c t]|].
    by destruct (slugify "documento").
  - intros fs title body author email icon description tags category cover
      access Ht Hinit Hplain Hnone Hnoleg.
    destruct (initialised_tree fs Hinit) as (root & d & t & -> & Hinit').
    rewrite entries_docs_tree in Hnone, Hnoleg.
    pose proof (save_doc_run root d t now title body author email None
                  icon description tags category cover access
                  (mkPost ∅ "")) as Hrun.
    cbv zeta in Hrun. rewrite (Hslug title Ht) in Hrun.
    rewrite Hrun; try done.
    + eexists. split; [reflexivity|].
      rewrite stat_doc_md_new, lookup_doc_md by done.
      by rewrite lookup_insert_eq, lookup_insert_eq.
    + intros data. by rewrite Hnone.
    + unfold starting_post.
      rewrite stat_doc_md_new, lookup_doc_md, Hnone by done.
      by rewrite stat_doc_md_legacy, lookup_docs_entry, Hnoleg.
  - intros fs s slug form Hadmin Hblank.
    unfold new_doc, edit_doc. rewrite !admin_only_admin by done.
    by rewrite Hblank.
Qed.

(** A write without title on an empty store, and the creation form
    submitted with a blank title. *)
Lemma missing_title_is_checked_by_handlers_witness :
  Py.is_empty (default "" (None : option string)) = true
  ∧ initialised Sample.empty_store
  ∧ Fs.plain_name (slugify (Lib := Sample.lib) "documento")
  ∧ is_admin Sample.root_session
  ∧ Py.is_empty (Py.strip (default "" (f_title (Sample.form_of "   " "x"))))
    = true
  ∧ (∃ fs', save_doc (H := Sample.lib) Sample.clock None (Some "x") "ana"
              "ana@local" None None None None None None None
              Sample.empty_store
            = Ret "documento" fs')
  ∧ new_doc (H := Sample.lib) Sample.clock Sample.root_session
      (Sample.form_of "   " "x") Sample.empty_store
    = Ret (mkResponse [TitleRequired] ToNewDoc) Sample.empty_store.
Proof.
  assert (H1 : Py.is_empty (default "" (None : option string)) = true) by done.
  assert (H2 : initialised Sample.empty_store) by by vm_compute.
  assert (H3 : Fs.plain_name (slugify (Lib := Sample.lib) "documento"))
    by by vm_compute.
  assert (H4 : is_admin Sample.root_session) by (split; [by eexists|done]).
  assert (H5 : Py.is_empty
                 (Py.strip (default "" (f_title (Sample.form_of "   " "x"))))
               = true) by by vm_compute.
  destruct (missing_title_is_checked_by_handlers (H := Sample.lib) Sample.clock)
    as (_ & Hcreate & Hcheck).
  repeat (split; [done|]). split.
  - destruct (Hcreate Sample.empty_store None (Some "x") "ana" "ana@local"
                None None None None None None H1 H2 H3)
      as (fs' & Hrun & _); [by vm_compute|by vm_compute|].
    exists fs'. exact Hrun.
  - apply (Hcheck Sample.empty_store Sample.root_session "x"
             (Sample.form_of "   " "x") H4 H5).
Defined.

(** The claim C9 fails for the write operation: without a slug and
    without a title, [save_doc] returns the slug [documento] and creates
    that document. *)
Lemma save_doc_missing_title_counterexample :
  Fs.stat Sample.empty_store ["docs"; "documento"; "doc.md"] = None
  ∧ eval (save_doc (H := Sample.lib) Sample.clock None (Some "x") "ana"
            "ana@local" None None None None None None None)
      Sample.empty_store = Some "documento"
  ∧ Fs.is_some_node
      (Fs.stat
         (tree_after
            (save_doc (H := Sample.lib) Sample.clock None (Some "x") "ana"
               "ana@local" None None None None None None None
               Sample.empty_store))
         ["docs"; "documento"; "doc.md"]) = true
  ∧ Sample.stored_value
      (tree_after
         (save_doc (H := Sample.lib) Sample.clock None (Some "x") "ana"
            "ana@local" None None None None None None None
            Sample.empty_store))
      "documento" "title"
    = Some (VStr "documento").
Proof. by vm_compute. Qed.

(** ** The listing does not look at the access tier *)

(** C10.  Two runs of [list_docs] on the same store, with the same query
    and the same tags, give the same outcome whatever the tier argument
    of each: [list_docs] never reads it. *)
Theorem list_docs_tier_blind `{Lib} (fs : node) (query : string)
    (tags : option (list string)) (nivel1 nivel2 : string) :
  list_docs query tags nivel1 fs = list_docs query tags nivel2 fs.
Proof. reflexivity. Qed.

(** ** The listing and its tag filter *)

Section StringFacts.

Lemma drop_length_app a b : Py.drop (String.length a) (a ++ b) = b.
Proof. induction a as [|c a IH]; [done|]. exact IH. Qed.

Lemma take_length_app a b : Py.take (String.length a) (a ++ b) = a.
Proof.
  induction a as [|c a IH]; [done|].
  change (String c (Py.take (String.length a) (a ++ b)) = String c a).
  f_equal. exact IH.
Qed.

Lemma take_drop n s : Py.take n s ++ Py.drop n s = s.
Proof.
  revert s. induction n as [|n IH]; intros s; [done|].
  destruct s as [|c s]; [done|].
  change (String c (Py.take n s ++ Py.drop n s) = String c s).
  f_equal. apply IH.
Qed.

Lemma endswith_md_split f :
  Py.endswith ".md" f = true → f = Py.drop_last 3 f ++ ".md".
Proof.
  unfold Py.endswith, Py.drop_last. intros [_ He]%andb_true_iff.
  apply String.eqb_eq in He. cbn [String.length] in *.
  transitivity (Py.take (String.length f - 3) f
                ++ Py.drop (String.length f - 3) f).
  - symmetry. apply take_drop.
  - by rewrite He.
Qed.

Lemma endswith_md_app slug : Py.endswith ".md" (slug ++ ".md") = true.
Proof.
  unfold Py.endswith. rewrite length_append. cbn [String.length].
  apply andb_true_iff. split; [apply Nat.leb_le; lia|].
  replace (String.length slug + 3 - 3)%nat with (String.length slug) by lia.
  rewrite drop_length_app. apply String.eqb_refl.
Qed.

Lemma drop_last_md_app slug : Py.drop_last 3 (slug ++ ".md") = slug.
Proof.
  unfold Py.drop_last. rewrite length_append. cbn [String.length].
  replace (String.length slug + 3 - 3)%nat with (String.length slug) by lia.
  apply take_length_app.
Qed.

End StringFacts.

Section Listing.
Context `{Lib}.
Variables (fs : node) (q : string) (want : gset string).


Lemma safe_load_returns p :
  ∃ o, eval (_safe_frontmatter_load p) fs = Some o.
Proof.
  unfold eval, _safe_frontmatter_load, try_except.
  destruct ((do post <- frontmatter_load p; ret (Some post)) fs)
    as [o fs1|fs1]; [by eexists|].
  destruct ((do raw <- Os.read_text p;
             ret (Some (fallback_post p (Py.universal_newlines raw)))) fs1)
    as [o fs2|fs2]; by eexists.
Qed.

Lemma canonical_step_post slug :
  canonical_step fs q want slug
  = match canonical_post fs slug with
    | Some post => canonical_entry q want slug post
    | None => Some None
    end.
Proof.
  unfold canonical_step, canonical_post.
  destruct (Fs.is_dir (Fs.stat fs (_doc_dir slug)));
    destruct (Fs.is_some_node (Fs.stat fs (_doc_md_path_new slug)));
    cbn [negb orb andb]; try done.
  destruct (safe_load_returns (_doc_md_path_new slug)) as [o ->].
  by destruct o.
Qed.

Lemma canonical_entry_slug slug post d :
  canonical_entry q want slug post = Some (Some d) → s_slug d = slug.
Proof.
  unfold canonical_entry.
  destruct (text_pass _ _ _ _ _) as [[|]|]; try done.
  destruct (tags_pass _ _); cbn [negb]; try done.
  destruct (text_of _); try done. by intros [= <-].
Qed.

Lemma canonical_entry_passes slug post :
  (∃ d, canonical_entry q want slug post = Some (Some d))
  ↔ passes_text q slug post ∧ tags_pass want (post_tags post) = true
    ∧ canonical_entry q want slug post ≠ None.
Proof.
  unfold passes_text, canonical_entry.
  destruct (text_pass _ _ _ _ _) as [[|]|]; try by naive_solver.
  destruct (tags_pass _ _); cbn [negb]; try by naive_solver.
  destruct (text_of _); naive_solver.
Qed.

Lemma legacy_entry_slug slug post d :
  legacy_entry q want slug post = Some (Some d) → s_slug d = slug.
Proof.
  unfold legacy_entry.
  destruct (text_pass _ _ _ _ _) as [[|]|]; try done.
  destruct (tags_pass _ _); cbn [negb]; try done. by intros [= <-].
Qed.

Lemma legacy_entry_passes slug post :
  (∃ d, legacy_entry q want slug post = Some (Some d))
  ↔ passes_text q slug post ∧ tags_pass want (post_tags post) = true.
Proof.
  unfold passes_text, legacy_entry.
  destruct (text_pass _ _ _ _ _) as [[|]|]; try by naive_solver.
  destruct (tags_pass _ _); cbn [negb]; naive_solver.
Qed.

Lemma canonical_scan_spec names :
  ∀ acc rs,
    canonical_scan fs q want acc names = Some rs →
    ∃ new, rs = (acc ++ new)%list
      ∧ (∀ n, n ∈ names → canonical_step fs q want n ≠ None)
      ∧ (∀ d, d ∈ new ↔
           ∃ n, n ∈ names ∧ canonical_step fs q want n = Some (Some d)).
Proof.
  induction names as [|name rest IH]; intros acc rs Hscan.
  - injection Hscan as <-. exists []. rewrite app_nil_r.
    split; [done|]. split.
    + intros n Hn. by apply elem_of_nil in Hn.
    + intros d. split; [intros Hd; by apply elem_of_nil in Hd|].
      intros (n & Hn & _). by apply elem_of_nil in Hn.
  - cbn [canonical_scan] in Hscan.
    destruct (canonical_step fs q want name) as [[d0|]|] eqn:Estep; [| |done].
    + destruct (IH _ _ Hscan) as (new & -> & Hsome & Hnew).
      exists (d0 :: new). rewrite <- app_assoc. split; [done|]. split.
      * intros n [->|Hn]%elem_of_cons; [by rewrite Estep|by apply Hsome].
      * intros d. rewrite elem_of_cons, Hnew. split.
        -- intros [->|(n & Hn & Hd)].
           ++ exists name. split; [left|done].
           ++ exists n. split; [by right|done].
        -- intros (n & [->|Hn]%elem_of_cons & Hd).
           ++ left. congruence.
           ++ right. by exists n.
    + destruct (IH _ _ Hscan) as (new & -> & Hsome & Hnew).
      exists new. split; [done|]. split.
      * intros n [->|Hn]%elem_of_cons; [by rewrite Estep|by apply Hsome].
      * intros d. rewrite Hnew. split.
        -- intros (n & Hn & Hd). exists n. split; [by right|done].
        -- intros (n & [->|Hn]%elem_of_cons & Hd); [congruence|].
           by exists n.
Qed.

Lemma slug_listed_spec results slug :
  slug_listed results slug = true ↔ slug ∈ (s_slug <$> results).
Proof.
  unfold slug_listed. rewrite existsb_exists, list_elem_of_fmap.
  split.
  - intros (d & Hd%list_elem_of_In & He%String.eqb_eq). by exists d.
  - intros (d & -> & Hd%list_elem_of_In). exists d.
    split; [done|apply String.eqb_refl].
Qed.

Lemma slug_listed_app base extra slug :
  slug ∉ (s_slug <$> extra) →
  slug_listed (base ++ extra) slug = slug_listed base slug.
Proof.
  intros Hno. apply eq_true_iff_eq. rewrite !slug_listed_spec.
  rewrite fmap_app, elem_of_app. tauto.
Qed.

Lemma legacy_step_post results f :
  legacy_step fs q want results f
  = if negb (Py.endswith ".md" f) then Some None
    else if slug_listed results (Py.drop_last 3 f) then Some None
    else match legacy_post fs (Py.drop_last 3 f) with
         | Some post => legacy_entry q want (Py.drop_last 3 f) post
         | None => Some None
         end.
Proof.
  unfold legacy_step, legacy_post.
  destruct (negb (Py.endswith ".md" f)); [done|].
  destruct (slug_listed results (Py.drop_last 3 f)); [done|].
  destruct (safe_load_returns (_doc_md_path_legacy (Py.drop_last 3 f)))
    as [o ->].
  by destruct o.
Qed.

Lemma legacy_step_slug results f d :
  legacy_step fs q want results f = Some (Some d) →
  Py.endswith ".md" f = true ∧ s_slug d = Py.drop_last 3 f.
Proof.
  rewrite legacy_step_post.
  destruct (Py.endswith ".md" f); cbn [negb]; [|done].
  destruct (slug_listed _ _); [done|].
  destruct (legacy_post _ _); [|done].
  intros Hd%legacy_entry_slug. done.
Qed.

Lemma legacy_scan_spec names :
  ∀ base extra rs,
    NoDup names →
    (∀ f d, f ∈ names → d ∈ extra → Py.endswith ".md" f = true →
            s_slug d ≠ Py.drop_last 3 f) →
    legacy_scan fs q want (base ++ extra) names = Some rs →
    ∃ new, rs = (base ++ extra ++ new)%list
      ∧ (∀ d, d ∈ new ↔
           ∃ f, f ∈ names ∧ legacy_step fs q want base f = Some (Some d)).
Proof.
  induction names as [|name rest IH]; intros base extra rs Hnd Hfresh Hscan.
  - injection Hscan as <-. exists []. rewrite !app_nil_r.
    split; [done|]. intros d. split; [intros Hd; by apply elem_of_nil in Hd|].
    intros (n & Hn & _). by apply elem_of_nil in Hn.
  - apply NoDup_cons in Hnd as [Hnotin Hnd].
    assert (Hstep : legacy_step fs q want (base ++ extra) name
                    = legacy_step fs q want base name).
    { rewrite !legacy_step_post.
      destruct (Py.endswith ".md" name) eqn:Eend; cbn [negb]; [|done].
      rewrite slug_listed_app; [done|].
      intros (d & Hd & Hin)%list_elem_of_fmap.
      apply (Hfresh name d); [left|done|done|done]. }
    cbn [legacy_scan] in Hscan. rewrite Hstep in Hscan.
    destruct (legacy_step fs q want base name) as [[d0|]|] eqn:Estep;
      [| |done].
    + rewrite <- app_assoc in Hscan.
      destruct (legacy_step_slug _ _ _ Estep) as [Hend0 Hslug0].
      destruct (IH base (extra ++ [d0])%list rs Hnd) as (new & -> & Hnew);
        [|done|].
      * intros f d Hf [Hd|Hd%list_elem_of_singleton]%elem_of_app Hend.
        -- apply Hfresh; [by right|done|done].
        -- subst d. rewrite Hslug0. intros Heq.
           apply Hnotin.
           pose proof (endswith_md_split name Hend0) as E1.
           pose proof (endswith_md_split f Hend) as E2.
           rewrite Heq in E1. by replace name with f by congruence.
      * exists (d0 :: new). split; [by rewrite <- !app_assoc|].
        intros d. rewrite elem_of_cons, Hnew. split.
        -- intros [->|(f & Hf & Hd)].
           ++ exists name. split; [left|done].
           ++ exists f. split; [by right|done].
        -- intros (f & [->|Hf]%elem_of_cons & Hd).
           ++ left. congruence.
           ++ right. by exists f.
    + destruct (IH base extra rs Hnd) as (new & -> & Hnew); [|done|].
      * intros f d Hf Hd Hend. apply Hfresh; [by right|done|done].
      * exists new. split; [done|].
        intros d. rewrite Hnew. split.
        -- intros (f & Hf & Hd). exists f. split; [by right|done].
        -- intros (f & [->|Hf]%elem_of_cons & Hd); [congruence|].
           by exists f.
Qed.






End Listing.

Section ListingRun.
Context `{Lib}.

Lemma safe_load_file fs p post :
  eval (_safe_frontmatter_load p) fs = Some (Some post) →
  ∃ data, Fs.stat fs p = Some (File data).
Proof.
  unfold _safe_frontmatter_load, frontmatter_load.
  unfold eval, try_except, bind, Os.read_text, ret, raise. cbv beta.
  destruct (Fs.stat fs p) as [[data|es]|] eqn:E; [by eexists| |];
    cbv beta iota; rewrite ?E; done.
Qed.

Lemma sorted_elem (l : list string) n : n ∈ Py.sorted l ↔ n ∈ l.
Proof. unfold Py.sorted. by rewrite merge_sort_Permutation. Qed.

Lemma sorted_NoDup (l : list string) : NoDup l → NoDup (Py.sorted l).
Proof. unfold Py.sorted. by rewrite merge_sort_Permutation. Qed.

Lemma list_docs_run root d t query tags nivel :
  initialised (tree root d t) →
  list_docs query tags nivel (tree root d t)
  = let fs := tree root d t in
    let q := Py.lower (Py.strip query) in
    let names := Py.sorted (elements (dom d)) in
    match canonical_scan fs q (want_tags tags) [] names with
    | Some rs1 =>
        match legacy_scan fs q (want_tags tags) rs1 names with
        | Some rs => Ret rs fs
        | None => Exc fs
        end
    | None => Exc fs
    end.
Proof.
  intros Hinit. cbv zeta.
  assert (Hdocs : Fs.stat (tree root d t) DOCS_DIR = Some (Dir d)).
  { unfold Fs.stat, tree. cbn. by rewrite lookup_tree_docs. }
  unfold list_docs. unfold bind at 1. rewrite ensure_dirs_and_repo_id by done.
  unfold bind at 1, Os.path_isdir at 1. rewrite Hdocs. cbn [Fs.is_dir].
  unfold bind at 1, bind at 1, Os.listdir at 1. rewrite Hdocs.
  unfold observe at 1.
  destruct (canonical_scan _ _ _ _ _) as [rs1|]; [|done].
  unfold bind at 1, Os.path_isdir at 1. rewrite Hdocs. cbn [Fs.is_dir].
  unfold bind at 1, Os.listdir at 1. rewrite Hdocs.
  unfold observe. by destruct (legacy_scan _ _ _ _ _).
Qed.

(** Which slugs the listing shows. *)
Lemma listed_slugs root d t query tags nivel results fs' slug :
  initialised (tree root d t) →
  list_docs query tags nivel (tree root d t) = Ret results fs' →
  Fs.plain_name slug →
  let fs := tree root d t in
  let q := Py.lower (Py.strip query) in
  let want := want_tags tags in
  let shown post :=
    passes_text q slug post ∧ tags_pass want (post_tags post) = true in
  fs' = fs
  ∧ (slug ∈ (s_slug <$> results) ↔
       (∃ post, canonical_post fs slug = Some post ∧ shown post)
       ∨ (¬ (∃ post, canonical_post fs slug = Some post ∧ shown post)
          ∧ ∃ post, legacy_post fs slug = Some post ∧ shown post)).
Proof.
  intros Hinit Hrun Hplain fs q want shown.
  rewrite list_docs_run in Hrun by done. cbv zeta in Hrun.
  fold fs q want in Hrun.
  set (names := Py.sorted (elements (dom d))) in *.
  destruct (canonical_scan fs q want [] names) as [rs1|] eqn:Escan1; [|done].
  destruct (legacy_scan fs q want rs1 names) as [rs|] eqn:Escan2; [|done].
  injection Hrun as Hrs Hfs. subst results fs'. split; [done|].
  destruct (canonical_scan_spec fs q want names [] rs1 Escan1)
    as (new1 & Hrs1 & Hsome & Hnew1).
  cbn [app] in Hrs1. subst new1.
  assert (Hnd : NoDup names) by apply sorted_NoDup, NoDup_elements.
  destruct (legacy_scan_spec fs q want names rs1 [] rs Hnd) as (new2 & -> & Hnew2).
  { intros f dd _ Hdd. by apply elem_of_nil in Hdd. }
  { by rewrite app_nil_r. }
  cbn [app].
  assert (Hnames : ∀ n, n ∈ names ↔ is_Some (d !! n)).
  { intros n. unfold names. by rewrite sorted_elem, elem_of_elements, elem_of_dom. }
  (* the canonical entries *)
  assert (HA : slug ∈ (s_slug <$> rs1) ↔
               ∃ post, canonical_post fs slug = Some post ∧ shown post).
  { rewrite list_elem_of_fmap. split.
    - intros (dd & Hslug & (n & Hn & Hstep)%Hnew1).
      rewrite canonical_step_post in Hstep.
      destruct (canonical_post fs n) as [post|] eqn:Epost; [|done].
      pose proof (canonical_entry_slug _ _ _ _ _ Hstep) as Hn'.
      assert (n = slug) as -> by congruence.
      exists post. split; [done|].
      destruct (proj1 (canonical_entry_passes q want slug post))
        as (Ht & Hg & _); [by eexists|by split].
    - intros (post & Epost & Htext & Htags).
      assert (Hin : slug ∈ names).
      { apply Hnames. unfold canonical_post in Epost.
        destruct (Fs.is_dir (Fs.stat fs (_doc_dir slug))) eqn:Edir; [|done].
        unfold fs in Edir. rewrite stat_doc_dir, lookup_docs_entry in Edir by done.
        by destruct (d !! slug). }
      pose proof (Hsome slug Hin) as Hne.
      rewrite canonical_step_post, Epost in Hne.
      destruct (proj2 (canonical_entry_passes q want slug post)) as [dd Hdd];
        [done|].
      exists dd. split; [by rewrite (canonical_entry_slug _ _ _ _ _ Hdd)|].
      apply Hnew1. exists slug. split; [done|].
      by rewrite canonical_step_post, Epost. }
  (* the legacy entries *)
  assert (HB : slug ∈ (s_slug <$> new2) ↔
               (slug ∉ (s_slug <$> rs1))
               ∧ ∃ post, legacy_post fs slug = Some post ∧ shown post).
  { rewrite list_elem_of_fmap. split.
    - intros (dd & Hslug & (f & Hf & Hstep)%Hnew2).
      destruct (legacy_step_slug _ _ _ _ _ _ Hstep) as [Hend Hslug'].
      rewrite legacy_step_post, Hend in Hstep. cbn [negb] in Hstep.
      rewrite <- Hslug', <- Hslug in Hstep.
      destruct (slug_listed rs1 slug) eqn:Elisted; [done|].
      split.
      { intros Hin%slug_listed_spec. congruence. }
      destruct (legacy_post fs slug) as [post|]; [|done].
      exists post. split; [done|].
      apply (proj1 (legacy_entry_passes q want slug post)). by eexists.
    - intros (Hnot & post & Epost & Hshown).
      destruct (proj2 (legacy_entry_passes q want slug post) Hshown)
        as [dd Hdd].
      exists dd. split; [by rewrite (legacy_entry_slug _ _ _ _ _ Hdd)|].
      apply Hnew2. exists (slug ++ ".md"). split.
      + apply Hnames. unfold legacy_post in Epost.
        destruct (eval (_safe_frontmatter_load (_doc_md_path_legacy slug)) fs)
          as [[post'|]|] eqn:Eload; try done.
        apply safe_load_file in Eload as [data Hdata].
        unfold fs in Hdata.
        rewrite stat_doc_md_legacy, lookup_docs_entry in Hdata.
        by rewrite Hdata.
      + rewrite legacy_step_post, endswith_md_app, drop_last_md_app.
        cbn [negb].
        destruct (slug_listed rs1 slug) eqn:Elisted;
          [by apply slug_listed_spec in Elisted|].
        by rewrite Epost. }
  rewrite fmap_app, elem_of_app, HB, HA. tauto.
Qed.


End ListingRun.



(** * Further properties of the code *)

Section Gate.
Context `{Lib}.

Lemma admin_only_other s (handler : M response) fs :
  ¬ is_admin s → admin_only s handler fs = Ret (turned_away s) fs.
Proof.
  unfold is_admin, admin_only, turned_away. intros Hno.
  destruct (user s) as [u|] eqn:Hu; [|done].
  destruct (decide (nivel s = Some "n3")) as [Hn|Hn]; [|done].
  exfalso. apply Hno. by split; [eexists|].
Qed.

End Gate.

(** X1.  The handlers that create, edit, delete, sweep, restore and
    purge answer a session that is not an administrator's (no user, or a
    tier other than [n3]) with the redirection to the login page or with
    the no-permission message, and leave the store as it is. *)
Theorem handlers_turn_others_away `{Lib} (s : session) (fs : node)
    (now : datetime) (form : doc_form) (slug : string)
    (form_name : option string) (instant : Z) (getmtime : string → Z)
    (refused : string → bool) :
  ¬ is_admin s →
  new_doc now s form fs = Ret (turned_away s) fs
  ∧ edit_doc now s slug form fs = Ret (turned_away s) fs
  ∧ remove_doc now s slug fs = Ret (turned_away s) fs
  ∧ admin_clean_trash instant getmtime refused s fs = Ret (turned_away s) fs
  ∧ restore_doc s form_name fs = Ret (turned_away s) fs
  ∧ purge_doc s form_name fs = Ret (turned_away s) fs.
Proof.
  intros Hno.
  unfold new_doc, edit_doc, remove_doc, admin_clean_trash, restore_doc,
    purge_doc.
  by rewrite !admin_only_other.
Qed.

Lemma handlers_turn_others_away_witness :
  ¬ is_admin Sample.reader_session
  ∧ remove_doc Sample.clock Sample.reader_session "api-usuarios"
      Sample.one_doc
    = Ret (mkResponse [NoPermission] ToDocs) Sample.one_doc.
Proof.
  assert (Hno : ¬ is_admin Sample.reader_session) by (by intros [_ [=]]).
  split; [exact Hno|].
  exact (proj1 (proj2 (proj2
    (handlers_turn_others_away (H := Sample.lib) Sample.reader_session
       Sample.one_doc Sample.clock (Sample.form_of "" "") "api-usuarios"
       None 0%Z (λ _, 0%Z) (λ _, false) Hno)))).
Defined.

Section TrashHandlers.

Lemma stat_trash_tree root d t name :
  Fs.plain_name name →
  Fs.stat (tree root d t) (TRASH_DIR ++ [name])%list = t !! name.
Proof.
  intros Hp. by rewrite stat_trash_entry, lookup_trash_entry.
Qed.

Lemma purge_entry root d t name entry :
  Fs.plain_name name → t !! name = Some entry →
  try_except
    (do is_dir <- Os.path_isdir (TRASH_DIR ++ [name])%list;
     (if is_dir then Os.rmtree true (TRASH_DIR ++ [name])%list
      else Os.remove true (TRASH_DIR ++ [name])%list);;
     ret (mkResponse [Purged name] ToTrash))
    (ret (mkResponse [PurgeError] ToTrash)) (tree root d t)
  = Ret (mkResponse [Purged name] ToTrash) (tree root d (delete name t)).
Proof.
  intros Hp Hn.
  unfold try_except, bind, Os.path_isdir, Os.rmtree, Os.remove, ret.
  cbv beta. rewrite stat_trash_tree, Hn by done.
  rewrite resolve_trash_child by by apply plain_not_special.
  destruct entry as [data|es]; cbn [Fs.is_dir];
    rewrite stat_trash_tree, Hn by done;
    by rewrite (del_trash_entry _ _ _ _ _ Hn).
Qed.

End TrashHandlers.



(** X3.  For an administrator and the name of a trash entry, [purge_doc]
    removes that entry, a file or a directory with all it holds, answers
    that it was deleted for good, and changes nothing else. *)
Theorem purge_doc_removes_entry (fs : node) (s : session)
    (form_name : option string) (entry : node) :
  initialised fs →
  is_admin s →
  let name := Py.strip (default "" form_name) in
  Fs.plain_name name →
  entries fs TRASH_DIR !! name = Some entry →
  ∃ fs',
    purge_doc s form_name fs = Ret (mkResponse [Purged name] ToTrash) fs'
    ∧ entries fs' TRASH_DIR = delete name (entries fs TRASH_DIR)
    ∧ entries fs' DOCS_DIR = entries fs DOCS_DIR
    ∧ elsewhere fs' = elsewhere fs.
Proof.
  intros Hinit Hadmin name Hp Hentry.
  destruct (initialised_tree fs Hinit) as (root & d & t & -> & _).
  rewrite entries_trash_tree in Hentry.
  exists (tree root d (delete name t)).
  rewrite !entries_trash_tree, !entries_docs_tree, !elsewhere_tree.
  split; [|done].
  unfold purge_doc. rewrite admin_only_admin by done. fold name.
  assert (Py.is_empty name = false) as ->.
  { destruct name; [by destruct Hp|done]. }
  unfold bind at 1. unfold Os.path_exists at 1. cbv beta.
  rewrite stat_trash_tree, Hentry by done. cbn [Fs.is_some_node negb].
  by apply (purge_entry _ _ _ _ entry).
Qed.

Lemma purge_doc_removes_entry_witness :
  initialised Sample.one_trashed
  ∧ is_admin Sample.root_session
  ∧ ∃ fs', purge_doc Sample.root_session (Some " guia_2025-10-29_14-03-05")
             Sample.one_trashed
           = Ret (mkResponse [Purged "guia_2025-10-29_14-03-05"] ToTrash) fs'
      ∧ entries fs' TRASH_DIR = ∅.
Proof.
  assert (Hi : initialised Sample.one_trashed) by by vm_compute.
  assert (Ha : is_admin Sample.root_session) by (split; [by eexists|done]).
  split; [exact Hi|]. split; [exact Ha|].
  destruct (purge_doc_removes_entry Sample.one_trashed Sample.root_session
              (Some " guia_2025-10-29_14-03-05")
              (Sample.doc_dir Sample.guia_text) Hi Ha)
    as (fs' & Hrun & Ht & _).
  - by apply (bool_decide_unpack _).
  - by vm_compute.
  - exists fs'. split; [exact Hrun|]. rewrite Ht. by vm_compute.
Defined.

Section SweepAgain.
Variables (days now : Z) (getmtime : string → Z) (refused : string → bool).

Lemma with_trash_initialised root t t' :
  initialised (with_trash root t) → initialised (with_trash root t').
Proof.
  unfold initialised, with_trash, Fs.stat. cbn.
  by rewrite !lookup_insert_eq, !lookup_insert_ne.
Qed.

Lemma clean_trash_run_tree root t :
  initialised (with_trash root t) →
  proper_names t →
  ∃ t',
    clean_trash_run days now getmtime refused (with_trash root t)
    = Ret (List.filter (swept days now getmtime refused t) (elements (dom t)),
           List.filter (stuck days now getmtime refused t) (elements (dom t)))
          (with_trash root t')
    ∧ ∀ n, t' !! n
           = if decide (n ∈ elements (dom t)
                        ∧ swept days now getmtime refused t n = true)
             then None else t !! n.
Proof.
  intros Hinit Hproper.
  assert (Hnames : ∀ n, n ∈ elements (dom t) → Fs.plain_name n).
  { intros n Hn. apply elem_of_elements, elem_of_dom in Hn as [x Hx].
    by apply (Hproper n x). }
  destruct (clean_loop_spec days now getmtime refused (elements (dom t))
              root t [] [] (NoDup_elements _) Hnames) as (t' & Hrun & Hlook).
  exists t'. split; [|exact Hlook].
  unfold clean_trash_run, bind.
  rewrite ensure_dirs_and_repo_id by done.
  unfold Os.path_isdir, Os.listdir. rewrite stat_trash_dir.
  cbn [Fs.is_dir negb]. cbv beta. rewrite stat_trash_dir.
  exact Hrun.
Qed.

Lemma filter_none (f : string → bool) (l : list string) :
  (∀ x, f x = false) → List.filter f l = [].
Proof.
  intros Hf. induction l as [|x l IH]; [done|].
  cbn [List.filter]. by rewrite Hf.
Qed.

Lemma swept_after_sweep t t' :
  (∀ n, t' !! n
        = if decide (n ∈ elements (dom t)
                     ∧ swept days now getmtime refused t n = true)
          then None else t !! n) →
  ∀ n, swept days now getmtime refused t' n = false.
Proof.
  intros Hlook n. unfold swept at 1. rewrite Hlook.
  destruct (decide _) as [Hyes|Hno]; [done|].
  destruct (swept days now getmtime refused t n) eqn:Hs; [|exact Hs].
  exfalso. apply Hno. split; [|done].
  apply elem_of_elements, elem_of_dom.
  unfold swept in Hs. by destruct (t !! n).
Qed.

End SweepAgain.

(** X4.  A second sweep right after a sweep, with the same clock, the
    same threshold and the same refusals, removes nothing and leaves the
    store as the first sweep left it. *)
Theorem clean_trash_again_removes_nothing (fs : node) (days now : Z)
    (getmtime : string → Z) (refused : string → bool) :
  initialised fs →
  proper_names (entries fs TRASH_DIR) →
  ∃ removed fs',
    clean_trash days now getmtime refused fs = Ret removed fs'
    ∧ clean_trash days now getmtime refused fs' = Ret [] fs'.
Proof.
  intros Hinit Hproper.
  destruct (initialised_with_trash fs Hinit) as (root & t & -> & Ht & Hd).
  rewrite entries_with_trash in Hproper.
  destruct (clean_trash_run_tree days now getmtime refused root t Hinit
              Hproper) as (t' & Hrun & Hlook).
  pose proof (swept_after_sweep days now getmtime refused t t' Hlook)
    as Hnone.
  assert (Hproper' : proper_names t').
  { intros n x Hx. rewrite Hlook in Hx.
    destruct (decide _); [done|]. by apply (Hproper n x). }
  destruct (clean_trash_run_tree days now getmtime refused root t'
              (with_trash_initialised root t t' Hinit) Hproper')
    as (t'' & Hrun' & Hlook').
  assert (t'' = t') as ->.
  { apply map_eq. intros n. rewrite Hlook', Hnone.
    by destruct (decide _) as [[_ ?]|]. }
  rewrite (filter_none _ _ Hnone) in Hrun'.
  eexists _, (with_trash root t'). unfold clean_trash, bind.
  by rewrite Hrun, Hrun'.
Qed.

Lemma clean_trash_again_removes_nothing_witness :
  initialised Sample.swept_trash
  ∧ proper_names (entries Sample.swept_trash TRASH_DIR)
  ∧ ∃ fs', clean_trash 7 (8 * Sample.day_us) Sample.swept_mtime (λ _, false)
             Sample.swept_trash = Ret ["guia_2025-10-20_09-00-00"] fs'
      ∧ clean_trash 7 (8 * Sample.day_us) Sample.swept_mtime (λ _, false) fs'
        = Ret [] fs'.
Proof.
  assert (H1 : initialised Sample.swept_trash) by by vm_compute.
  assert (H2 : proper_names (entries Sample.swept_trash TRASH_DIR)).
  { apply (bool_decide_unpack _). by vm_compute. }
  split; [exact H1|]. split; [exact H2|].
  destruct (clean_trash_again_removes_nothing Sample.swept_trash 7
              (8 * Sample.day_us) Sample.swept_mtime (λ _, false) H1 H2)
    as (removed & fs' & Hrun & Hagain).
  exists fs'. split; [|exact Hagain].
  rewrite Hrun. f_equal.
  assert (Hv : eval (clean_trash 7 (8 * Sample.day_us) Sample.swept_mtime
                       (λ _, false)) Sample.swept_trash
               = Some ["guia_2025-10-20_09-00-00"]) by by vm_compute.
  unfold eval in Hv. rewrite Hrun in Hv. by injection Hv.
Defined.

(** X5.  Reading without migration.  On an initialised store and for a
    slug that is a proper path component without surrounding white space:
    when the canonical file parses, [read_doc] returns its post, whether a
    legacy file exists or not; when there is neither a canonical nor a
    legacy file, and when the canonical file does not parse and there is
    no legacy file, it returns nothing.  In the three cases the store is
    left as it is. *)
Theorem read_doc_reads_canonical_first `{Lib} (fs : node) (slug : string) :
  initialised fs →
  Fs.plain_name slug →
  Py.strip slug = slug →
  (∀ raw post,
     Fs.stat fs (_doc_md_path_new slug) = Some (File raw) →
     frontmatter_loads raw = Some post →
     read_doc slug fs = Ret (Some post) fs)
  ∧ (Fs.stat fs (_doc_md_path_new slug) = None →
     entries fs DOCS_DIR !! (slug ++ ".md") = None →
     read_doc slug fs = Ret None fs)
  ∧ (∀ raw,
       Fs.stat fs (_doc_md_path_new slug) = Some (File raw) →
       frontmatter_loads raw = None →
       entries fs DOCS_DIR !! (slug ++ ".md") = None →
       read_doc slug fs = Ret None fs).
Proof.
  intros Hinit Hplain Hstrip.
  destruct (initialised_tree fs Hinit) as (root & d & t & -> & Hinit').
  rewrite entries_docs_tree.
  assert (Hlegstat : Fs.stat (tree root d t) (_doc_md_path_legacy slug)
                     = d !! (slug ++ ".md"))
    by by rewrite stat_doc_md_legacy, lookup_docs_entry.
  split; [|split].
  - intros raw post Hnew Hload.
    unfold read_doc. unfold bind at 1.
    rewrite ensure_dirs_and_repo_id by done. rewrite Hstrip.
    unfold bind at 1, Os.path_exists at 1. rewrite Hnew.
    cbn [Fs.is_some_node]. unfold bind at 1, try_except at 1, bind at 1.
    rewrite (frontmatter_load_file _ _ _ Hnew). by rewrite Hload.
  - intros Hnew Hleg.
    unfold read_doc. unfold bind at 1.
    rewrite ensure_dirs_and_repo_id by done. rewrite Hstrip.
    unfold bind at 1, Os.path_exists at 1. rewrite Hnew.
    cbn [Fs.is_some_node]. unfold bind at 1. unfold ret at 1.
    unfold bind at 1, Os.path_exists at 1. by rewrite Hlegstat, Hleg.
  - intros raw Hnew Hload Hleg.
    unfold read_doc. unfold bind at 1.
    rewrite ensure_dirs_and_repo_id by done. rewrite Hstrip.
    unfold bind at 1, Os.path_exists at 1. rewrite Hnew.
    cbn [Fs.is_some_node]. unfold bind at 1, try_except at 1, bind at 1.
    rewrite (frontmatter_load_file _ _ _ Hnew). rewrite Hload.
    unfold ret at 1.
    unfold bind at 1, Os.path_exists at 1. by rewrite Hlegstat, Hleg.
Qed.

Lemma read_doc_reads_canonical_first_witness :
  initialised Sample.one_doc
  ∧ Fs.plain_name "api-usuarios"
  ∧ read_doc (H := Sample.lib) "api-usuarios" Sample.one_doc
    = Ret (Sample.block_loads Sample.api_text) Sample.one_doc
  ∧ read_doc (H := Sample.lib) "guia" Sample.one_doc
    = Ret None Sample.one_doc.
Proof.
  assert (H1 : initialised Sample.one_doc) by by vm_compute.
  assert (H2 : Fs.plain_name "api-usuarios")
    by by apply (bool_decide_unpack _).
  assert (H3 : Fs.plain_name "guia") by by apply (bool_decide_unpack _).
  split; [exact H1|]. split; [exact H2|]. split.
  - destruct (Sample.block_loads Sample.api_text) as [post|] eqn:E;
      [|by vm_compute in E].
    exact (proj1 (read_doc_reads_canonical_first (H := Sample.lib)
                    Sample.one_doc "api-usuarios" H1 H2 eq_refl)
             Sample.api_text post eq_refl E).
  - exact (proj1 (proj2 (read_doc_reads_canonical_first (H := Sample.lib)
                           Sample.one_doc "guia" H1 H3 eq_refl))
             eq_refl eq_refl).
Defined.

(** X6.  A canonical file that does not parse gives way to the legacy
    file.  On an initialised store, for a slug that is a proper path
    component without surrounding white space, whose canonical file does
    not parse and whose legacy file exists: [read_doc] overwrites the
    canonical file with the text of the legacy file and returns what the
    parser makes of that text; nothing else changes. *)
Theorem read_doc_replaces_broken_canonical `{Lib} (fs : node)
    (slug raw text : string) (es : gmap string node) :
  initialised fs →
  Fs.plain_name slug →
  Py.strip slug = slug →
  entries fs DOCS_DIR !! slug = Some (Dir es) →
  es !! "doc.md" = Some (File raw) →
  frontmatter_loads raw = None →
  entries fs DOCS_DIR !! (slug ++ ".md") = Some (File text) →
  ∃ fs1,
    read_doc slug fs = Ret (frontmatter_loads text) fs1
    ∧ entries fs1 DOCS_DIR
      = <[slug := Dir (<["doc.md" := File text]> es)]> (entries fs DOCS_DIR)
    ∧ entries fs1 TRASH_DIR = entries fs TRASH_DIR
    ∧ elsewhere fs1 = elsewhere fs.
Proof.
  intros Hinit Hplain Hstrip Hdir Hmd Hload Hleg.
  destruct (initialised_tree fs Hinit) as (root & d & t & -> & Hinit').
  rewrite entries_docs_tree in *. rewrite entries_trash_tree.
  set (d' := <[slug := Dir (<["doc.md" := File text]> es)]> d).
  assert (Hlegstat : ∀ dd, Fs.stat (tree root dd t) (_doc_md_path_legacy slug)
                           = dd !! (slug ++ ".md")).
  { intros dd. by rewrite stat_doc_md_legacy, lookup_docs_entry. }
  assert (Hnew : Fs.stat (tree root d t) (_doc_md_path_new slug)
                 = Some (File raw)).
  { rewrite stat_doc_md_new, lookup_doc_md by done. by rewrite Hdir. }
  assert (Hleg' : d' !! (slug ++ ".md") = Some (File text)).
  { unfold d'. rewrite lookup_insert_ne; [done|].
    apply not_eq_sym, legacy_name_ne. }
  exists (tree root d' t).
  rewrite entries_docs_tree, entries_trash_tree, !elsewhere_tree.
  split; [|done].
  unfold read_doc. unfold bind at 1.
  rewrite ensure_dirs_and_repo_id by done. rewrite Hstrip.
  unfold bind at 1, Os.path_exists at 1. rewrite Hnew.
  cbn [Fs.is_some_node]. unfold bind at 1, try_except at 1, bind at 1.
  rewrite (frontmatter_load_file _ _ _ Hnew). rewrite Hload.
  unfold ret at 1.
  unfold bind at 1, Os.path_exists at 1. rewrite Hlegstat, Hleg.
  cbn [Fs.is_some_node]. unfold try_except at 1.
  rewrite (migrate_block root d t slug text); try done.
  - unfold dir_entries. rewrite Hdir. fold d'.
    destruct (frontmatter_loads text) eqn:Eload; [done|].
    unfold try_except, bind.
    rewrite (frontmatter_load_file _ _ text) by by rewrite Hlegstat.
    by rewrite Eload.
  - intros data. by rewrite Hdir.
  - intros es'. unfold dir_entries. by rewrite Hdir, Hmd.
Qed.

Lemma read_doc_replaces_broken_canonical_witness :
  initialised Sample.broken_beside_legacy
  ∧ Fs.plain_name "guia"
  ∧ Sample.block_loads Sample.broken_text = None
  ∧ ∃ fs1, read_doc (H := Sample.lib) "guia" Sample.broken_beside_legacy
           = Ret (Sample.block_loads Sample.guia_text) fs1
      ∧ Fs.stat fs1 ["docs"; "guia"; "doc.md"]
        = Some (File Sample.guia_text).
Proof.
  assert (H1 : initialised Sample.broken_beside_legacy) by by vm_compute.
  assert (H2 : Fs.plain_name "guia") by by apply (bool_decide_unpack _).
  assert (H3 : Sample.block_loads Sample.broken_text = None)
    by by vm_compute.
  split; [exact H1|]. split; [exact H2|]. split; [exact H3|].
  destruct (read_doc_replaces_broken_canonical (H := Sample.lib)
              Sample.broken_beside_legacy "guia" Sample.broken_text
              Sample.guia_text (<["doc.md" := File Sample.broken_text]> ∅)
              H1 H2 eq_refl)
    as (fs1 & Hrun & Hdocs & _);
    [vm_compute; reflexivity..|].
  exists fs1. split; [exact Hrun|].
  destruct (initialised_tree fs1) as (root & d & t & -> & _).
  { assert (Hv : initialised
                   (tree_after (read_doc (H := Sample.lib) "guia"
                                  Sample.broken_beside_legacy)))
      by by vm_compute.
    by rewrite Hrun in Hv. }
  rewrite entries_docs_tree in Hdocs.
  change (Fs.lookup_node (tree root d t) ["docs"; "guia"; "doc.md"]
          = Some (File Sample.guia_text)).
  rewrite lookup_doc_md, Hdocs. by vm_compute.
Defined.

Section UpdatedPostMore.
Variables (old : Post) (slug : string) (title : option string)
  (body author now : string) (icon description : option string)
  (tags_list : option (list string)) (category cover access : option string).

Let post : Post :=
  updated_post old slug title body author now icon description tags_list
    category cover access.

Lemma updated_first_author :
  metadata old !! "created_by" = None →
  metadata post !! "created_by" = Some (VStr author).
Proof.
  intros Hv. subst post. unfold updated_post. cbn [metadata].
  destruct tags_list, description, access;
    try destruct (Fmt.truthy _); through_updates; by rewrite Hv.
Qed.

Lemma updated_title :
  metadata post !! "title"
  = Some (if Py.is_empty (default "" title)
          then default (VStr slug) (metadata old !! "title")
          else VStr (default "" title)).
Proof.
  subst post. unfold updated_post. cbn [metadata].
  destruct tags_list, description, access;
    try destruct (Fmt.truthy _); through_updates;
    try done; by destruct (metadata old !! "access_level").
Qed.

Lemma updated_category :
  metadata post !! "category"
  = match category with
    | Some v => Some (VStr v)
    | None => metadata old !! "category"
    end.
Proof.
  subst post. unfold updated_post. cbn [metadata].
  destruct tags_list, description, access;
    try destruct (Fmt.truthy _); by through_updates.
Qed.

End UpdatedPostMore.

(** X7.  What a write touches.  On an initialised store, when the slug
    that [save_doc] resolves is a proper path component, no file sits at
    the place of its directory and the post to start from loads:
    [save_doc] returns the slug, and of the whole store only the file
    [doc.md] of that slug is new or changed: the other entries of its
    directory, the other entries of [docs] (among them the legacy file of
    the slug), the trash and the rest are as before. *)
Theorem save_doc_writes_one_file `{Lib} (fs : node) (now : datetime)
    (title body : option string) (author email : string)
    (slug icon description : option string) (tags : option tags_arg)
    (category cover access : option string) (old : Post) :
  let target := resolved_slug title slug in
  initialised fs →
  Fs.plain_name target →
  (∀ data, entries fs DOCS_DIR !! target ≠ Some (File data)) →
  starting_post fs target = Some old →
  ∃ fs' text,
    save_doc now title body author email slug icon description tags
      category cover access fs = Ret target fs'
    ∧ entries fs' DOCS_DIR !! target
      = Some (Dir (<["doc.md" := File text]>
                     (dir_entries (entries fs DOCS_DIR) target)))
    ∧ (∀ k, k ≠ target →
            entries fs' DOCS_DIR !! k = entries fs DOCS_DIR !! k)
    ∧ (∀ k, k ≠ "doc.md" →
            dir_entries (entries fs' DOCS_DIR) target !! k
            = dir_entries (entries fs DOCS_DIR) target !! k)
    ∧ entries fs' TRASH_DIR = entries fs TRASH_DIR
    ∧ elsewhere fs' = elsewhere fs.
Proof.
  intros target Hinit Hplain Hnofile Hstart.
  destruct (initialised_tree fs Hinit) as (root & d & t & -> & Hinit').
  rewrite entries_docs_tree in *. rewrite entries_trash_tree.
  pose proof (save_doc_run root d t now title body author email slug icon
                description tags category cover access old) as Hrun.
  cbv zeta in Hrun. fold target in Hrun.
  specialize (Hrun Hinit' Hplain Hnofile Hstart).
  eexists. eexists. split; [exact Hrun|].
  rewrite entries_docs_tree, entries_trash_tree, !elsewhere_tree.
  split; [by rewrite lookup_insert_eq|].
  split; [by intros k Hk; rewrite lookup_insert_ne|].
  split; [|done].
  intros k Hk. unfold dir_entries at 1. rewrite lookup_insert_eq.
  by rewrite lookup_insert_ne.
Qed.

Lemma save_doc_writes_one_file_witness :
  initialised Sample.one_nota
  ∧ Fs.plain_name "nota"
  ∧ ∃ fs', save_doc (H := Sample.lib) Sample.clock (Some "Nota")
             (Some "depois") "ana" "ana@local" (Some "nota") None None None
             None None None Sample.one_nota = Ret "nota" fs'
      ∧ entries fs' TRASH_DIR = ∅.
Proof.
  assert (H1 : initialised Sample.one_nota) by by vm_compute.
  assert (H2 : Fs.plain_name "nota") by by apply (bool_decide_unpack _).
  split; [exact H1|]. split; [exact H2|].
  destruct (Sample.block_loads Sample.nota_text) as [old|] eqn:H4;
    [|by vm_compute in H4].
  destruct (save_doc_writes_one_file (H := Sample.lib) Sample.one_nota
              Sample.clock (Some "Nota") (Some "depois") "ana" "ana@local"
              (Some "nota") None None None None None None old H1 H2)
    as (fs' & text & Hrun & _ & _ & _ & Htrash & _).
  - intros data. by vm_compute.
  - exact H4.
  - exists fs'. split; [exact Hrun|]. rewrite Htrash. by vm_compute.
Defined.

(** X8.  The first write of a document.  On an initialised store where
    nothing is stored under the slug that [save_doc] resolves, neither a
    canonical directory nor a legacy file: the metadata written has
    [created_at] and [last_edited_at] equal to the current time,
    [created_by] and [last_edited_by] equal to the author, the title
    given or else the slug, the access level given or else [d1], the
    description given or else the first 300 characters of the trimmed
    body, the tags given or none, and the body given. *)
Theorem save_doc_first_write `{Lib} (fs : node) (now : datetime)
    (title body : option string) (author email : string)
    (slug icon description : option string) (tags : option tags_arg)
    (category cover access : option string) :
  let target := resolved_slug title slug in
  initialised fs →
  Fs.plain_name target →
  entries fs DOCS_DIR !! target = None →
  entries fs DOCS_DIR !! (target ++ ".md") = None →
  ∃ fs' post,
    save_doc now title body author email slug icon description tags
      category cover access fs = Ret target fs'
    ∧ entries fs' DOCS_DIR !! target
      = Some (Dir (<["doc.md" := File (frontmatter_dumps post)]> ∅))
    ∧ content post = default "" body
    ∧ metadata post !! "created_at" = Some (VStr (Fmt.edit_stamp now))
    ∧ metadata post !! "last_edited_at" = Some (VStr (Fmt.edit_stamp now))
    ∧ metadata post !! "created_by" = Some (VStr author)
    ∧ metadata post !! "last_edited_by" = Some (VStr author)
    ∧ metadata post !! "title"
      = Some (VStr (Fmt.opt_or title target))
    ∧ metadata post !! "access_level" = Some (VStr (default "d1" access))
    ∧ metadata post !! "description"
      = Some (VStr (default (Py.take 300 (Py.strip (default "" body)))
                      description))
    ∧ metadata post !! "tags" = VList <$> split_tags tags.
Proof.
  intros target Hinit Hplain Hnone Hnoleg.
  destruct (initialised_tree fs Hinit) as (root & d & t & -> & Hinit').
  rewrite entries_docs_tree in *.
  pose proof (save_doc_run root d t now title body author email slug icon
                description tags category cover access (mkPost ∅ ""))
    as Hrun.
  cbv zeta in Hrun. fold target in Hrun.
  rewrite Hrun; try done.
  - eexists. eexists. split; [reflexivity|].
    rewrite entries_docs_tree.
    split.
    { rewrite lookup_insert_eq. unfold dir_entries. by rewrite Hnone. }
    split; [apply updated_content|].
    split; [by apply updated_first_created|].
    split; [apply updated_last_edited|].
    split; [by apply updated_first_author|].
    split; [apply updated_last_edited|].
    split.
    { rewrite updated_title. cbn [metadata]. rewrite lookup_empty.
      by destruct title as [[|c s]|]. }
    split.
    { rewrite updated_access_level. cbn [metadata]. rewrite lookup_empty.
      by destruct access. }
    split.
    { rewrite updated_description. cbn [metadata]. rewrite lookup_empty.
      by destruct description. }
    rewrite updated_tags. cbn [metadata]. rewrite lookup_empty.
    by destruct (split_tags tags).
  - intros data. by rewrite Hnone.
  - unfold starting_post.
    rewrite stat_doc_md_new, lookup_doc_md, Hnone by done.
    by rewrite stat_doc_md_legacy, lookup_docs_entry, Hnoleg.
Qed.

Lemma save_doc_first_write_witness :
  initialised Sample.empty_store
  ∧ Fs.plain_name "guia-nova"
  ∧ ∃ fs', save_doc (H := Sample.lib) Sample.clock (Some "Guia Nova")
             (Some "  corpo  ") "ana" "ana@local" None None None None None
             None None Sample.empty_store = Ret "guia-nova" fs'
      ∧ Sample.stored_value fs' "guia-nova" "description"
        = Some (VStr "corpo").
Proof.
  assert (H1 : initialised Sample.empty_store) by by vm_compute.
  assert (H2 : Fs.plain_name "guia-nova") by by apply (bool_decide_unpack _).
  split; [exact H1|]. split; [exact H2|].
  destruct (save_doc_first_write (H := Sample.lib) Sample.empty_store
              Sample.clock (Some "Guia Nova") (Some "  corpo  ") "ana"
              "ana@local" None None None None None None None H1 H2
              eq_refl eq_refl) as (fs' & post & Hrun & _).
  exists fs'. split; [exact Hrun|].
  assert (Hv : Sample.stored_value
                 (tree_after
                    (save_doc (H := Sample.lib) Sample.clock
                       (Some "Guia Nova") (Some "  corpo  ") "ana"
                       "ana@local" None None None None None None None
                       Sample.empty_store)) "guia-nova" "description"
               = Some (VStr "corpo")) by by vm_compute.
  change (resolved_slug (H := Sample.lib) (Some "Guia Nova") None)
    with "guia-nova" in Hrun.
  by rewrite Hrun in Hv.
Defined.

(** X9.  A document that does not parse cannot be written over.  On an
    initialised store, when the canonical file of the slug exists and
    does not parse, [save_doc] raises and leaves the store as it is; so
    does [edit_doc], which does not guard the call, for an administrator
    who submits a title and no icon. *)
Theorem save_doc_raises_on_broken_document `{Lib} (fs : node)
    (now : datetime) (slug raw : string) (es : gmap string node) :
  initialised fs →
  Fs.plain_name slug →
  entries fs DOCS_DIR !! slug = Some (Dir es) →
  es !! "doc.md" = Some (File raw) →
  frontmatter_loads raw = None →
  (∀ title body author email icon description tags category cover access,
     save_doc now title body author email (Some slug) icon description tags
       category cover access fs = Exc fs)
  ∧ (∀ s form,
       is_admin s →
       Py.is_empty (Py.strip (default "" (f_title form))) = false →
       f_icon form = None →
       edit_doc now s slug form fs = Exc fs).
Proof.
  intros Hinit Hplain Hdir Hmd Hload.
  destruct (initialised_tree fs Hinit) as (root & d & t & -> & Hinit').
  rewrite entries_docs_tree in Hdir.
  assert (Hsave : ∀ title body author email icon description tags category
                    cover access,
             save_doc now title body author email (Some slug) icon
               description tags category cover access (tree root d t)
             = Exc (tree root d t)).
  { intros. unfold save_doc. cbn [default from_option id].
    assert (Py.is_empty slug = false) as ->.
    { destruct slug; [by destruct Hplain|done]. }
    unfold bind at 1. rewrite ensure_dirs_and_repo_id by done.
    unfold bind at 1. rewrite makedirs_doc_dir; [|done|by rewrite Hdir].
    assert (<[slug := Dir (dir_entries d slug)]> d = d) as ->.
    { unfold dir_entries. rewrite Hdir. by apply insert_id. }
    assert (Hnew : Fs.stat (tree root d t) (_doc_md_path_new slug)
                   = Some (File raw)).
    { rewrite stat_doc_md_new, lookup_doc_md by done. by rewrite Hdir. }
    unfold bind at 1, Os.path_exists at 1. rewrite Hnew.
    cbn [Fs.is_some_node]. unfold bind at 1.
    rewrite (frontmatter_load_file _ _ _ Hnew). by rewrite Hload. }
  split; [exact Hsave|].
  intros s form Hadmin Htitle Hicon.
  unfold edit_doc. rewrite admin_only_admin by done. rewrite Htitle.
  unfold upload_icon. rewrite Hicon.
  unfold bind at 1. unfold ret at 1. unfold bind at 1.
  by rewrite Hsave.
Qed.

Lemma save_doc_raises_on_broken_document_witness :
  initialised Sample.broken_beside_legacy
  ∧ Fs.plain_name "guia"
  ∧ Sample.block_loads Sample.broken_text = None
  ∧ edit_doc (H := Sample.lib) Sample.clock Sample.root_session "guia"
      (Sample.form_of "Guia" "novo") Sample.broken_beside_legacy
    = Exc Sample.broken_beside_legacy.
Proof.
  assert (H1 : initialised Sample.broken_beside_legacy) by by vm_compute.
  assert (H2 : Fs.plain_name "guia") by by apply (bool_decide_unpack _).
  assert (H3 : Sample.block_loads Sample.broken_text = None)
    by by vm_compute.
  assert (Ha : is_admin Sample.root_session) by (split; [by eexists|done]).
  split; [exact H1|]. split; [exact H2|]. split; [exact H3|].
  exact (proj2 (save_doc_raises_on_broken_document (H := Sample.lib)
                  Sample.broken_beside_legacy Sample.clock "guia"
                  Sample.broken_text
                  (<["doc.md" := File Sample.broken_text]> ∅)
                  H1 H2 eq_refl eq_refl H3)
           Sample.root_session (Sample.form_of "Guia" "novo") Ha eq_refl
           eq_refl).
Defined.

Section ListingOrder.
Context `{Lib}.
Variables (fs : node) (q : string) (want : gset string).

Lemma canonical_step_slug n d :
  canonical_step fs q want n = Some (Some d) → s_slug d = n.
Proof.
  rewrite canonical_step_post.
  destruct (canonical_post fs n) as [post|]; [|done].
  apply canonical_entry_slug.
Qed.

Lemma canonical_scan_sublist names :
  ∀ acc rs,
    canonical_scan fs q want acc names = Some rs →
    ∃ new, rs = (acc ++ new)%list ∧ sublist (s_slug <$> new) names.
Proof.
  induction names as [|n names IH]; intros acc rs Hscan.
  - injection Hscan as <-. exists []. by rewrite app_nil_r.
  - cbn [canonical_scan] in Hscan.
    destruct (canonical_step fs q want n) as [[d|]|] eqn:E; [| |done].
    + destruct (IH _ _ Hscan) as (new & -> & Hsub).
      exists (d :: new). rewrite <- app_assoc. split; [done|].
      rewrite fmap_cons, (canonical_step_slug _ _ E).
      by apply sublist_skip.
    + destruct (IH _ _ Hscan) as (new & -> & Hsub).
      exists new. split; [done|]. by apply sublist_cons.
Qed.

Lemma legacy_scan_fresh names :
  ∀ acc rs,
    legacy_scan fs q want acc names = Some rs →
    ∃ new, rs = (acc ++ new)%list
      ∧ (NoDup (s_slug <$> acc) → NoDup (s_slug <$> rs))
      ∧ sublist ((λ r, s_slug r ++ ".md") <$> new) names
      ∧ ∀ r, r ∈ new → s_body r = None.
Proof.
  induction names as [|f names IH]; intros acc rs Hscan.
  - injection Hscan as <-. exists []. rewrite app_nil_r.
    repeat split; try done. intros r Hr. by apply elem_of_nil in Hr.
  - cbn [legacy_scan] in Hscan.
    destruct (legacy_step fs q want acc f) as [[d|]|] eqn:E; [| |done].
    + destruct (IH _ _ Hscan) as (new & Hrs & Hnd & Hsub & Hbody).
      destruct (legacy_step_slug _ _ _ _ _ _ E) as [Hend Hslug].
      exists (d :: new). split; [by rewrite Hrs, <- app_assoc|].
      split; [|split].
      * intros Hacc. apply Hnd. rewrite fmap_app. cbn [fmap list_fmap].
        apply NoDup_app. split; [done|]. split; [|apply NoDup_singleton].
        intros x Hx ->%list_elem_of_singleton.
        rewrite legacy_step_post, Hend in E. cbn [negb] in E.
        rewrite <- Hslug in E.
        apply slug_listed_spec in Hx. by rewrite Hx in E.
      * rewrite fmap_cons, Hslug, <- (endswith_md_split f Hend).
        by apply sublist_skip.
      * intros r [->|Hr]%elem_of_cons; [|by apply Hbody].
        rewrite legacy_step_post, Hend in E. cbn [negb] in E.
        destruct (slug_listed acc (Py.drop_last 3 f)); [done|].
        destruct (legacy_post fs (Py.drop_last 3 f)) as [post|]; [|done].
        unfold legacy_entry in E.
        destruct (text_pass _ _ _ _ _) as [[|]|]; try done.
        destruct (tags_pass _ _); cbn [negb] in E; [|done].
        by injection E as <-.
    + destruct (IH _ _ Hscan) as (new & -> & Hnd & Hsub & Hbody).
      exists new. split; [done|]. split; [done|].
      split; [by apply sublist_cons|done].
Qed.

Lemma canonical_step_body n d :
  canonical_step fs q want n = Some (Some d) → is_Some (s_body d).
Proof.
  rewrite canonical_step_post.
  destruct (canonical_post fs n) as [post|]; [|done].
  unfold canonical_entry.
  destruct (text_pass _ _ _ _ _) as [[|]|]; try done.
  destruct (tags_pass _ _); cbn [negb]; [|done].
  destruct (text_of _); [|done]. intros [= <-]. by eexists.
Qed.

End ListingOrder.

(** X10.  The listing shows each slug once.  When [list_docs] returns on
    an initialised store, no two of its results have the same slug, also
    when a slug is stored both in the canonical and in the legacy form;
    the results read from canonical files come first, their slugs in the
    order of the sorted directory names, and the results read from
    legacy files follow, in the order of the sorted file names. *)
Theorem list_docs_lists_each_slug_once `{Lib} (fs : node) (query : string)
    (tags : option (list string)) (nivel : string)
    (results : list summary) (fs' : node) :
  initialised fs →
  list_docs query tags nivel fs = Ret results fs' →
  NoDup (s_slug <$> results)
  ∧ ∃ canonical legacy,
      results = (canonical ++ legacy)%list
      ∧ sublist (s_slug <$> canonical)
          (Py.sorted (elements (dom (entries fs DOCS_DIR))))
      ∧ sublist ((λ r, s_slug r ++ ".md") <$> legacy)
          (Py.sorted (elements (dom (entries fs DOCS_DIR))))
      ∧ (∀ r, r ∈ canonical → is_Some (s_body r))
      ∧ (∀ r, r ∈ legacy → s_body r = None).
Proof.
  intros Hinit Hrun.
  destruct (initialised_tree fs Hinit) as (root & d & t & -> & Hinit').
  rewrite entries_docs_tree.
  rewrite list_docs_run in Hrun by done. cbv zeta in Hrun.
  set (q := Py.lower (Py.strip query)) in *.
  set (want := want_tags tags) in *.
  set (names := Py.sorted (elements (dom d))) in *.
  destruct (canonical_scan (tree root d t) q want [] names) as [rs1|]
    eqn:Escan1; [|done].
  destruct (legacy_scan (tree root d t) q want rs1 names) as [rs|]
    eqn:Escan2; [|done].
  injection Hrun as Hrs _. subst results.
  destruct (canonical_scan_sublist _ _ _ _ _ _ Escan1)
    as (new1 & Hnew1 & Hsub1).
  cbn [app] in Hnew1. subst new1.
  destruct (canonical_scan_spec _ _ _ _ _ _ Escan1)
    as (new1 & Hnew1 & _ & Hmem1).
  cbn [app] in Hnew1. subst new1.
  destruct (legacy_scan_fresh _ _ _ _ _ _ Escan2)
    as (new2 & -> & Hnd & Hsub2 & Hbody2).
  assert (Hnames : NoDup names) by apply sorted_NoDup, NoDup_elements.
  split.
  - apply Hnd. by apply (sublist_NoDup _ names).
  - exists rs1, new2. repeat split; try done.
    intros r (n & _ & Hstep)%Hmem1. by apply (canonical_step_body _ _ _ _ _ Hstep).
Qed.

Lemma list_docs_lists_each_slug_once_witness :
  initialised Sample.both_forms
  ∧ ∃ results,
      list_docs (H := Sample.lib) "" None "n1" Sample.both_forms
      = Ret results Sample.both_forms
      ∧ (s_slug <$> results) = ["guia"; "nota"].
Proof.
  assert (H1 : initialised Sample.both_forms) by by vm_compute.
  split; [exact H1|].
  destruct (list_docs (H := Sample.lib) "" None "n1" Sample.both_forms)
    as [results fs'|fs'] eqn:Hrun; [|by vm_compute in Hrun].
  pose proof (list_docs_lists_each_slug_once (H := Sample.lib)
                Sample.both_forms "" None "n1" results fs' H1 Hrun)
    as [Hnd _].
  exists results.
  assert (Hv : list_docs (H := Sample.lib) "" None "n1" Sample.both_forms
               = Ret results fs') by exact Hrun.
  vm_compute in Hrun. injection Hrun as <- <-. split; [exact Hv|].
  reflexivity.
Defined.

Section Unfiltered.
Context `{Lib}.

Lemma safe_load_of_file fs p raw :
  Fs.stat fs p = Some (File raw) →
  eval (_safe_frontmatter_load p) fs = Some (Some (loaded_post p raw)).
Proof.
  intros Hp. unfold eval, _safe_frontmatter_load, loaded_post.
  unfold try_except at 1. unfold bind at 1.
  rewrite (frontmatter_load_file _ _ _ Hp).
  destruct (frontmatter_loads raw) as [post|]; [done|].
  unfold try_except, bind, Os.read_text. by rewrite Hp.
Qed.

Lemma canonical_post_of_file root d t slug es raw :
  Fs.plain_name slug →
  d !! slug = Some (Dir es) → es !! "doc.md" = Some (File raw) →
  canonical_post (tree root d t) slug
  = Some (loaded_post (_doc_md_path_new slug) raw).
Proof.
  intros Hp Hd Hmd. unfold canonical_post.
  assert (Hnew : Fs.stat (tree root d t) (_doc_md_path_new slug)
                 = Some (File raw)).
  { rewrite stat_doc_md_new, lookup_doc_md by done. by rewrite Hd. }
  rewrite stat_doc_dir, lookup_docs_entry, Hd, Hnew by done.
  cbn [Fs.is_dir Fs.is_some_node andb].
  by rewrite (safe_load_of_file _ _ _ Hnew).
Qed.

Lemma legacy_post_of_file root d t slug raw :
  d !! (slug ++ ".md") = Some (File raw) →
  legacy_post (tree root d t) slug
  = Some (loaded_post (_doc_md_path_legacy slug) raw).
Proof.
  intros Hd. unfold legacy_post.
  assert (Hleg : Fs.stat (tree root d t) (_doc_md_path_legacy slug)
                 = Some (File raw))
    by by rewrite stat_doc_md_legacy, lookup_docs_entry.
  by rewrite (safe_load_of_file _ _ _ Hleg).
Qed.

Lemma unfiltered_shown slug post :
  passes_text "" slug post ∧ tags_pass ∅ (post_tags post) = true.
Proof. split; [done|]. unfold tags_pass. by destruct (decide _). Qed.

Lemma fallback_entry p raw slug :
  ∃ r, canonical_entry "" ∅ slug (fallback_post p raw) = Some (Some r)
       ∧ s_slug r = slug ∧ s_tags r = []
       ∧ Some (s_title r) = metadata (fallback_post p raw) !! "title".
Proof.
  unfold fallback_post. cbv zeta.
  generalize (Fmt.opt_or
                (if Py.is_empty
                      (Fmt.opt_or
                         match Fmt.FRONT_MATTER_RE_match raw with
                         | Some fm => Fmt.title_line (Py.splitlines fm)
                         | None => None
                         end "")
                 then Fmt.first_text_line (Py.splitlines raw)
                 else match Fmt.FRONT_MATTER_RE_match raw with
                      | Some fm => Fmt.title_line (Py.splitlines fm)
                      | None => None
                      end)
                (Fmt.str_or (Fs.basename (Fs.dirname p))
                   (Fmt.splitext_root (Fs.basename p)))).
  intros title.
  unfold canonical_entry, text_pass, tags_pass, post_tags, get. cbv zeta.
  cbn [metadata content Py.is_empty].
  destruct (decide (∅ = ∅)) as [_|]; [|done]. cbn [negb].
  repeat first [rewrite lookup_insert_eq
               |rewrite lookup_insert_ne by discriminate].
  cbn [default from_option id text_of].
  eexists. split; [reflexivity|]. cbn [s_slug s_tags s_title].
  by repeat split.
Qed.

End Unfiltered.

(** X11.  Without a filter every readable document is listed.  When
    [list_docs] returns on an initialised store for a blank query and no
    requested tag, every slug that is a proper path component and has a
    canonical file or a legacy file is among the results, whether the
    file parses or not; a canonical file that does not parse is listed
    under the title of the placeholder, with no tags. *)
Theorem list_docs_unfiltered_lists_all `{Lib} (fs : node)
    (query : string) (tags : option (list string)) (nivel : string)
    (results : list summary) (fs' : node) (slug : string) :
  initialised fs →
  Py.strip query = "" →
  want_tags tags = ∅ →
  list_docs query tags nivel fs = Ret results fs' →
  Fs.plain_name slug →
  (∀ es raw,
     entries fs DOCS_DIR !! slug = Some (Dir es) →
     es !! "doc.md" = Some (File raw) →
     slug ∈ (s_slug <$> results))
  ∧ (∀ raw,
       entries fs DOCS_DIR !! (slug ++ ".md") = Some (File raw) →
       slug ∈ (s_slug <$> results))
  ∧ (∀ es raw,
       entries fs DOCS_DIR !! slug = Some (Dir es) →
       es !! "doc.md" = Some (File raw) →
       frontmatter_loads raw = None →
       ∃ r, r ∈ results ∧ s_slug r = slug ∧ s_tags r = []
            ∧ Some (s_title r)
              = metadata (fallback_post (_doc_md_path_new slug)
                            (Py.universal_newlines raw)) !! "title").
Proof.
  intros Hinit Hq Hwant Hrun Hplain.
  destruct (initialised_tree fs Hinit) as (root & d & t & -> & Hinit').
  rewrite entries_docs_tree.
  destruct (listed_slugs root d t query tags nivel results fs' slug
              Hinit Hrun Hplain) as [_ Hlisted].
  cbv zeta in Hlisted. rewrite Hq, Hwant in Hlisted. cbn [Py.lower] in Hlisted.
  assert (Hcanon : ∀ es raw, d !! slug = Some (Dir es) →
                     es !! "doc.md" = Some (File raw) →
                     slug ∈ (s_slug <$> results)).
  { intros es raw Hd Hmd. apply Hlisted. left. eexists. split.
    - by apply (canonical_post_of_file root d t slug es raw).
    - apply unfiltered_shown. }
  split; [exact Hcanon|]. split.
  - intros raw Hleg. apply Hlisted.
    destruct (canonical_post (tree root d t) slug) as [p1|] eqn:Hc.
    + left. exists p1. split; [done|apply unfiltered_shown].
    + right. split; [by intros (? & ? & _)|].
      eexists. split; [by apply (legacy_post_of_file root d t slug raw)|].
      apply unfiltered_shown.
  - intros es raw Hd Hmd Hload.
    rewrite list_docs_run in Hrun by done. cbv zeta in Hrun.
    rewrite Hq, Hwant in Hrun. cbn [Py.lower] in Hrun.
    destruct (canonical_scan _ _ _ _ _) as [rs1|] eqn:Escan1; [|done].
    destruct (legacy_scan _ _ _ _ _) as [rs|] eqn:Escan2; [|done].
    injection Hrun as Hrs _. subst results.
    destruct (canonical_scan_spec _ _ _ _ _ _ Escan1)
      as (new1 & Hnew1 & _ & Hmem1).
    cbn [app] in Hnew1. subst new1.
    destruct (legacy_scan_fresh _ _ _ _ _ _ Escan2) as (new2 & -> & _).
    destruct (fallback_entry (_doc_md_path_new slug)
                (Py.universal_newlines raw) slug)
      as (r & Hentry & Hslug & Htags & Htitle).
    exists r. split; [|done].
    apply elem_of_app. left. apply Hmem1. exists slug. split.
    + apply sorted_elem, elem_of_elements, elem_of_dom. by eexists.
    + rewrite canonical_step_post.
      rewrite (canonical_post_of_file root d t slug es raw) by done.
      unfold loaded_post. by rewrite Hload.
Qed.

Lemma list_docs_unfiltered_lists_all_witness :
  initialised Sample.broken_beside_legacy
  ∧ Fs.plain_name "guia"
  ∧ Sample.block_loads Sample.broken_text = None
  ∧ ∃ results,
      list_docs (H := Sample.lib) "  " None "n1" Sample.broken_beside_legacy
      = Ret results Sample.broken_beside_legacy
      ∧ ∃ r, r ∈ results ∧ s_slug r = "guia" ∧ s_title r = VStr "title".
Proof.
  assert (H1 : initialised Sample.broken_beside_legacy) by by vm_compute.
  assert (H2 : Fs.plain_name "guia") by by apply (bool_decide_unpack _).
  assert (H3 : Sample.block_loads Sample.broken_text = None)
    by by vm_compute.
  split; [exact H1|]. split; [exact H2|]. split; [exact H3|].
  destruct (list_docs (H := Sample.lib) "  " None "n1"
              Sample.broken_beside_legacy) as [results fs'|fs'] eqn:Hrun;
    [|by vm_compute in Hrun].
  destruct (list_docs_unfiltered_lists_all (H := Sample.lib)
              Sample.broken_beside_legacy "  " None "n1" results fs' "guia"
              H1 eq_refl eq_refl Hrun H2) as (_ & _ & Hbroken).
  destruct (Hbroken (<["doc.md" := File Sample.broken_text]> ∅)
              Sample.broken_text eq_refl eq_refl H3)
    as (r & Hr & Hslug & _ & Htitle).
  assert (Hfs : fs' = Sample.broken_beside_legacy).
  { assert (Hv : tree_after (list_docs (H := Sample.lib) "  " None "n1"
                               Sample.broken_beside_legacy)
                 = Sample.broken_beside_legacy) by by vm_compute.
    by rewrite Hrun in Hv. }
  subst fs'. exists results. split; [done|].
  exists r. split; [exact Hr|]. split; [exact Hslug|].
  vm_compute in Htitle. by injection Htitle.
Defined.

(** X12.  What the edit form writes.  For an administrator who submits a
    title that is not blank and no icon, on an initialised store, for a
    slug that is a proper path component whose post to start from loads
    (an empty one when nothing is stored: the slug need not exist):
    [edit_doc] answers that the document was updated and writes its
    canonical file; the access level of the form (or [d1]) is written
    under the key [category], while the key [access_level] keeps its
    stored value (or becomes [d1]); the title, the description and the
    tags are those of the form. *)
Theorem edit_doc_writes_category `{Lib} (fs : node) (now : datetime)
    (s : session) (slug : string) (form : doc_form) (old : Post) :
  initialised fs →
  is_admin s →
  Fs.plain_name slug →
  Py.is_empty (Py.strip (default "" (f_title form))) = false →
  f_icon form = None →
  (∀ data, entries fs DOCS_DIR !! slug ≠ Some (File data)) →
  starting_post fs slug = Some old →
  ∃ fs' post,
    edit_doc now s slug form fs
    = Ret (mkResponse [Updated] (ToViewDoc slug)) fs'
    ∧ entries fs' DOCS_DIR !! slug
      = Some (Dir (<["doc.md" := File (frontmatter_dumps post)]>
                     (dir_entries (entries fs DOCS_DIR) slug)))
    ∧ metadata post !! "category"
      = Some (VStr (default "d1" (f_access_level form)))
    ∧ metadata post !! "access_level"
      = Some (default (VStr "d1") (metadata old !! "access_level"))
    ∧ metadata post !! "title"
      = Some (VStr (Py.strip (default "" (f_title form))))
    ∧ metadata post !! "description"
      = Some (VStr (Py.strip (default "" (f_description form))))
    ∧ metadata post !! "tags"
      = VList <$> split_tags (Some (TagsList (form_tags form)))
    ∧ content post = default "" (f_body form).
Proof.
  intros Hinit Hadmin Hplain Htitle Hicon Hnofile Hstart.
  destruct (initialised_tree fs Hinit) as (root & d & t & -> & Hinit').
  rewrite entries_docs_tree in *.
  assert (Hslug : ∀ ttl, resolved_slug ttl (Some slug) = slug).
  { intros ttl. unfold resolved_slug. cbn [default from_option id].
    destruct slug; [by destruct Hplain|done]. }
  set (title := Py.strip (default "" (f_title form))) in *.
  pose proof (save_doc_run root d t now (Some title)
                (Some (default "" (f_body form))) (default "" (user s))
                (default "" (user s) ++ "@local") (Some slug) None
                (Some (Py.strip (default "" (f_description form))))
                (Some (TagsList (form_tags form)))
                (Some (default "d1" (f_access_level form))) None None old)
    as Hrun.
  cbv zeta in Hrun. rewrite Hslug in Hrun.
  specialize (Hrun Hinit' Hplain Hnofile Hstart).
  eexists. eexists. split.
  { unfold edit_doc. rewrite admin_only_admin by done. fold title.
    rewrite Htitle. unfold upload_icon. rewrite Hicon.
    unfold bind at 1. unfold ret at 1. cbn [fst snd].
    unfold bind at 1. rewrite Hrun. reflexivity. }
  rewrite entries_docs_tree.
  split; [by rewrite lookup_insert_eq|].
  split; [by rewrite updated_category|].
  split; [by rewrite updated_access_level|].
  split.
  { rewrite updated_title. cbn [default from_option id]. by rewrite Htitle. }
  split; [by rewrite updated_description|].
  split; [by rewrite updated_tags|].
  apply updated_content.
Qed.

Lemma edit_doc_writes_category_witness :
  initialised Sample.one_nota
  ∧ is_admin Sample.root_session
  ∧ Fs.plain_name "nota"
  ∧ ∃ fs', edit_doc (H := Sample.lib) Sample.clock Sample.root_session "nota"
             (mkDocForm (Some "Nota") (Some "corpo") None None None
                (Some "d3") None) Sample.one_nota
           = Ret (mkResponse [Updated] (ToViewDoc "nota")) fs'
      ∧ Sample.stored_value fs' "nota" "category" = Some (VStr "d3")
      ∧ Sample.stored_value fs' "nota" "access_level" = Some (VStr "d1").
Proof.
  assert (H1 : initialised Sample.one_nota) by by vm_compute.
  assert (Ha : is_admin Sample.root_session) by (split; [by eexists|done]).
  assert (H2 : Fs.plain_name "nota") by by apply (bool_decide_unpack _).
  split; [exact H1|]. split; [exact Ha|]. split; [exact H2|].
  destruct (Sample.block_loads Sample.nota_text) as [old|] eqn:H4;
    [|by vm_compute in H4].
  destruct (edit_doc_writes_category (H := Sample.lib) Sample.one_nota
              Sample.clock Sample.root_session "nota"
              (mkDocForm (Some "Nota") (Some "corpo") None None None
                 (Some "d3") None) old H1 Ha H2 eq_refl eq_refl)
    as (fs' & post & Hrun & _).
  - intros data. by vm_compute.
  - exact H4.
  - exists fs'. split; [exact Hrun|].
    assert (Hv : ∀ key,
               Sample.stored_value
                 (tree_after
                    (edit_doc (H := Sample.lib) Sample.clock
                       Sample.root_session "nota"
                       (mkDocForm (Some "Nota") (Some "corpo") None None None
                          (Some "d3") None) Sample.one_nota)) "nota" key
               = Sample.stored_value fs' "nota" key)
      by (intros key; by rewrite Hrun).
    rewrite <- !Hv. split; by vm_compute.
Defined.

(** X13.  What the creation form writes.  For an administrator who
    submits a title that is not blank and no icon, on an initialised
    store where nothing is stored under the slug of the title, a proper
    path component: [new_doc] answers that the document was created,
    redirects to it and writes its canonical file, with the title, the
    description, the tags and the body of the form, the access level of
    the form (or [d1]) under the key [access_level], no [category], and
    the user as the author of the creation and of the last edit. *)
Theorem new_doc_creates `{Lib} (fs : node) (now : datetime)
    (s : session) (form : doc_form) :
  let title := Py.strip (default "" (f_title form)) in
  let slug := slugify title in
  initialised fs →
  is_admin s →
  Py.is_empty title = false →
  Fs.plain_name slug →
  f_icon form = None →
  entries fs DOCS_DIR !! slug = None →
  entries fs DOCS_DIR !! (slug ++ ".md") = None →
  ∃ fs' post,
    new_doc now s form fs = Ret (mkResponse [Created] (ToViewDoc slug)) fs'
    ∧ entries fs' DOCS_DIR !! slug
      = Some (Dir (<["doc.md" := File (frontmatter_dumps post)]> ∅))
    ∧ (∀ k, k ≠ slug → entries fs' DOCS_DIR !! k = entries fs DOCS_DIR !! k)
    ∧ metadata post !! "title" = Some (VStr title)
    ∧ metadata post !! "access_level"
      = Some (VStr (default "d1" (f_access_level form)))
    ∧ metadata post !! "category" = None
    ∧ metadata post !! "created_by" = (VStr <$> user s)
    ∧ metadata post !! "last_edited_by" = (VStr <$> user s)
    ∧ metadata post !! "description"
      = Some (VStr (Py.strip (default "" (f_description form))))
    ∧ content post = default "" (f_body form).
Proof.
  intros title slug Hinit Hadmin Htitle Hplain Hicon Hnone Hnoleg.
  destruct (initialised_tree fs Hinit) as (root & d & t & -> & Hinit').
  rewrite entries_docs_tree in *.
  assert (Hslug : ∀ ttl, resolved_slug ttl (Some slug) = slug).
  { intros ttl. unfold resolved_slug. cbn [default from_option id].
    destruct slug; [by destruct Hplain|done]. }
  pose proof (save_doc_run root d t now (Some title)
                (Some (default "" (f_body form))) (default "" (user s))
                (default "" (user s) ++ "@local") (Some slug) None
                (Some (Py.strip (default "" (f_description form))))
                (Some (TagsList (form_tags form))) None None
                (Some (default "d1" (f_access_level form)))
                (mkPost ∅ "")) as Hrun.
  cbv zeta in Hrun. rewrite Hslug in Hrun.
  assert (Hmd : Fs.stat (tree root d t) (_doc_md_path_new slug) = None).
  { rewrite stat_doc_md_new, lookup_doc_md by done. by rewrite Hnone. }
  assert (Hnofile : ∀ data, d !! slug ≠ Some (File data))
    by (intros data; by rewrite Hnone).
  assert (Hstart : starting_post (tree root d t) slug = Some (mkPost ∅ "")).
  { unfold starting_post. rewrite Hmd.
    by rewrite stat_doc_md_legacy, lookup_docs_entry, Hnoleg. }
  specialize (Hrun Hinit' Hplain Hnofile Hstart).
  destruct Hadmin as [[u Hu] Hn].
  eexists. eexists. split.
  { unfold new_doc. rewrite admin_only_admin by (split; [by eexists|done]).
    fold title. rewrite Htitle. fold slug.
    unfold bind at 1, Os.path_exists at 1.
    change (DOCS_DIR ++ [slug; "doc.md"])%list with (_doc_md_path_new slug).
    rewrite Hmd. cbn [Fs.is_some_node].
    unfold upload_icon. rewrite Hicon.
    unfold bind at 1. unfold ret at 1. cbn [fst snd].
    unfold try_except, bind. rewrite Hrun. reflexivity. }
  rewrite entries_docs_tree.
  split.
  { rewrite lookup_insert_eq. unfold dir_entries. by rewrite Hnone. }
  split; [by intros k Hk; rewrite lookup_insert_ne|].
  split.
  { rewrite updated_title. cbn [default from_option id]. by rewrite Htitle. }
  split; [by rewrite updated_access_level|].
  split; [by rewrite updated_category|].
  split; [rewrite Hu; by apply updated_first_author|].
  split; [rewrite Hu; apply updated_last_edited|].
  split; [by rewrite updated_description|].
  apply updated_content.
Qed.

Lemma new_doc_creates_witness :
  initialised Sample.empty_store
  ∧ is_admin Sample.root_session
  ∧ Fs.plain_name (slugify (Lib := Sample.lib) "Guia Nova")
  ∧ ∃ fs', new_doc (H := Sample.lib) Sample.clock Sample.root_session
             (Sample.form_of " Guia Nova " "corpo") Sample.empty_store
           = Ret (mkResponse [Created] (ToViewDoc "guia-nova")) fs'
      ∧ Sample.stored_value fs' "guia-nova" "created_by"
        = Some (VStr "root").
Proof.
  assert (H1 : initialised Sample.empty_store) by by vm_compute.
  assert (Ha : is_admin Sample.root_session) by (split; [by eexists|done]).
  assert (H2 : Fs.plain_name (slugify (Lib := Sample.lib) "Guia Nova"))
    by (apply (bool_decide_unpack _); vm_compute; exact I).
  split; [exact H1|]. split; [exact Ha|]. split; [exact H2|].
  destruct (new_doc_creates (H := Sample.lib) Sample.empty_store Sample.clock
              Sample.root_session (Sample.form_of " Guia Nova " "corpo")
              H1 Ha eq_refl H2 eq_refl eq_refl eq_refl)
    as (fs' & post & Hrun & _).
  exists fs'. split; [exact Hrun|].
  assert (Hv : Sample.stored_value
                 (tree_after
                    (new_doc (H := Sample.lib) Sample.clock
                       Sample.root_session
                       (Sample.form_of " Guia Nova " "corpo")
                       Sample.empty_store)) "guia-nova" "created_by"
               = Some (VStr "root")) by by vm_compute.
  by rewrite Hrun in Hv.
Defined.

Section TrashNames.

Lemma split_head (sep : ascii) (a b : string) :
  Py.contains (String sep "") a = false →
  List.hd "" (Py.split sep (a ++ String sep b)) = a.
Proof.
  induction a as [|c a IH]; intros Hno.
  - change ("" ++ String sep b) with (String sep b). cbn [Py.split].
    by rewrite Ascii.eqb_refl.
  - cbn [Py.contains Py.startswith] in Hno.
    apply orb_false_iff in Hno as [Hc Hno].
    rewrite andb_true_r in Hc. rewrite Ascii.eqb_sym in Hc.
    change (String c a ++ String sep b) with (String c (a ++ String sep b)).
    cbn [Py.split]. rewrite Hc.
    specialize (IH Hno).
    destruct (Py.split sep (a ++ String sep b)) as [|piece rest];
      cbn [List.hd] in *; by subst.
Qed.

Lemma contains_tail needle c s :
  Py.contains needle (String c s) = false → Py.contains needle s = false.
Proof.
  cbn [Py.contains]. by intros [_ ?]%orb_false_iff.
Qed.

Lemma contains_head needle s :
  Py.contains needle s = false → Py.startswith needle s = false.
Proof.
  destruct s; cbn [Py.contains]; by intros [? _]%orb_false_iff.
Qed.

Lemma replace_absent (old new s : string) :
  Py.contains old s = false → Py.replace old new s = s.
Proof.
  unfold Py.replace. generalize (String.length s) as fuel.
  intros fuel. revert s.
  induction fuel as [|fuel IH]; intros s Hno; [done|].
  destruct s as [|c s]; [done|].
  cbn [Py.replace_go]. rewrite (contains_head _ _ Hno).
  f_equal. apply IH. by apply (contains_tail _ c).
Qed.

Lemma rstrip_no_space s :
  no_space s = true → Py.rstrip_by Py.isspace s = s.
Proof.
  induction s as [|c s IH]; [done|].
  cbn [no_space]. intros [Hc Hs]%andb_true_iff.
  cbn [Py.rstrip_by]. rewrite (IH Hs).
  apply negb_true_iff in Hc. by rewrite Hc, andb_false_r.
Qed.

Lemma rstrip_app (p : ascii → bool) a b :
  b ≠ "" → Py.rstrip_by p b = b → Py.rstrip_by p (a ++ b) = a ++ b.
Proof.
  intros Hb Hr. induction a as [|c a IH]; [done|].
  change (String c a ++ b) with (String c (a ++ b)).
  cbn [Py.rstrip_by]. rewrite IH.
  destruct (a ++ b) eqn:E; [|done].
  destruct a; [by cbn in E|done].
Qed.

Lemma rstrip_length (p : ascii → bool) s :
  (String.length (Py.rstrip_by p s) ≤ String.length s)%nat.
Proof.
  induction s as [|c s IH]; [done|].
  cbn [Py.rstrip_by].
  destruct (Py.is_empty (Py.rstrip_by p s) && p c); cbn [String.length]; lia.
Qed.

Lemma lstrip_length (p : ascii → bool) s :
  (String.length (Py.lstrip_by p s) ≤ String.length s)%nat.
Proof.
  induction s as [|c s IH]; [done|].
  cbn [Py.lstrip_by]. destruct (p c); cbn [String.length]; lia.
Qed.

Lemma strip_fixed_head c s :
  Py.strip (String c s) = String c s → Py.isspace c = false.
Proof.
  unfold Py.strip, Py.strip_by. cbn [Py.lstrip_by].
  destruct (Py.isspace c); [|done]. intros E.
  pose proof (rstrip_length Py.isspace (Py.lstrip_by Py.isspace s)) as H1.
  pose proof (lstrip_length Py.isspace s) as H2.
  rewrite E in H1. cbn [String.length] in H1. lia.
Qed.

Lemma strip_app a b :
  a ≠ "" → Py.strip a = a → b ≠ "" → no_space b = true →
  Py.strip (a ++ b) = a ++ b.
Proof.
  intros Ha Hs Hb Hn. destruct a as [|c a]; [done|].
  pose proof (strip_fixed_head _ _ Hs) as Hc.
  unfold Py.strip, Py.strip_by.
  change (String c a ++ b) with (String c (a ++ b)).
  cbn [Py.lstrip_by]. rewrite Hc.
  change (String c (a ++ b)) with (String c a ++ b).
  apply rstrip_app; [done|by apply rstrip_no_space].
Qed.

Lemma no_space_app a b :
  no_space (a ++ b) = no_space a && no_space b.
Proof.
  induction a as [|c a IH]; [done|].
  change (String c a ++ b) with (String c (a ++ b)).
  cbn [no_space]. by rewrite IH, andb_assoc.
Qed.

Lemma no_space_uint d : no_space (NilEmpty.string_of_uint d) = true.
Proof. induction d; cbn [NilEmpty.string_of_uint no_space]; by try rewrite IHd. Qed.

Lemma no_space_pad2 n : no_space (Fmt.pad2 n) = true.
Proof.
  unfold Fmt.pad2, Fmt.dec. destruct (n <? 10)%nat;
    rewrite ?no_space_app, no_space_uint; done.
Qed.

Lemma no_space_pad4 n : no_space (Fmt.pad4 n) = true.
Proof.
  unfold Fmt.pad4, Fmt.dec.
  destruct (n <? 10)%nat; [by rewrite no_space_app, no_space_uint|].
  destruct (n <? 100)%nat; [by rewrite no_space_app, no_space_uint|].
  destruct (n <? 1000)%nat; [by rewrite no_space_app, no_space_uint|].
  apply no_space_uint.
Qed.

Lemma no_space_stamp t : no_space (Fmt.trash_stamp t) = true.
Proof.
  unfold Fmt.trash_stamp.
  by rewrite !no_space_app, no_space_pad4, !no_space_pad2.
Qed.

End TrashNames.

(** X14.  Deleting and restoring a canonical document gives the store
    back.  On an initialised store, for an administrator and a slug that
    is a proper path component without surrounding white space, without
    underscore and without [.md] in it, whose canonical directory exists,
    whose legacy file does not and whose trash name is free: [delete_doc]
    (and the handler [remove_doc]) moves the directory to the trash, and
    [restore_doc] on the name of that trash entry answers that the slug
    was restored and leaves exactly the store from before the deletion. *)
Theorem delete_then_restore_round_trip (fs : node) (utcnow : datetime)
    (s : session) (slug : string) (es : gmap string node) :
  let name := slug ++ "_" ++ Fmt.trash_stamp utcnow in
  initialised fs →
  is_admin s →
  Fs.plain_name slug →
  Py.strip slug = slug →
  Py.contains "_" slug = false →
  Py.contains ".md" slug = false →
  entries fs DOCS_DIR !! slug = Some (Dir es) →
  entries fs DOCS_DIR !! (slug ++ ".md") = None →
  entries fs TRASH_DIR !! name = None →
  ∃ fs1,
    delete_doc utcnow slug fs = Ret true fs1
    ∧ remove_doc utcnow s slug fs = Ret (mkResponse [Removed] ToDocs) fs1
    ∧ entries fs1 TRASH_DIR !! name = Some (Dir es)
    ∧ restore_doc s (Some name) fs1
      = Ret (mkResponse [Restored slug] ToTrash) fs.
Proof.
  intros name Hinit Hadmin Hplain Hstrip Hunder Hmd Hdir Hnoleg Hfree.
  destruct (initialised_tree fs Hinit) as (root & d & t & -> & Hinit').
  rewrite entries_docs_tree in *. rewrite entries_trash_tree in Hfree.
  assert (Hns : not_special slug) by by apply plain_not_special.
  assert (Hslug : slug ≠ "") by apply Hns.
  assert (Hname_ns : not_special name).
  { apply trash_name_not_special; [done|].
    pose proof (trash_stamp_length utcnow). lia. }
  set (fs1 := tree root (delete slug d) (<[name := Dir es]> t)).
  assert (Hdel : delete_doc utcnow slug (tree root d t) = Ret true fs1).
  { unfold delete_doc. unfold bind at 1.
    rewrite ensure_dirs_and_repo_id by done.
    unfold bind at 1, Os.path_isdir at 1.
    rewrite stat_doc_dir, lookup_docs_entry, Hdir by done.
    cbn [Fs.is_dir]. unfold bind at 1.
    rewrite (move_docs_to_trash root d t _ _ slug name (Dir es)); try done.
    - by apply resolve_docs_child.
    - by apply resolve_trash_child. }
  exists fs1. split; [exact Hdel|]. split.
  { unfold remove_doc. rewrite admin_only_admin by done.
    unfold bind. by rewrite Hdel. }
  split.
  { unfold fs1. by rewrite entries_trash_tree, lookup_insert_eq. }
  (* the trash name is read back as the slug *)
  assert (Hstripped : Py.strip name = name).
  { unfold name. apply strip_app; try done.
    cbn [no_space Py.isspace]. apply no_space_stamp. }
  assert (Hbase : restore_base_name name = slug).
  { unfold restore_base_name, name.
    change (slug ++ "_" ++ Fmt.trash_stamp utcnow)
      with (slug ++ String "_"%char (Fmt.trash_stamp utcnow)).
    rewrite split_head by done. by apply replace_absent. }
  assert (Hne : Py.is_empty name = false).
  { unfold name. destruct slug; [done|done]. }
  assert (Hstat : ∀ dd tt k,
             Fs.stat (tree root dd tt) (TRASH_DIR ++ [k])%list
             = Fs.lookup_node (tree root dd tt) (Fs.resolve (TRASH_DIR ++ [k])%list))
    by done.
  unfold restore_doc. rewrite admin_only_admin by done.
  cbn [default from_option id]. rewrite Hstripped, Hne.
  unfold bind at 1, Os.path_exists at 1. unfold fs1 at 1.
  unfold Fs.stat at 1. rewrite resolve_trash_child by done.
  rewrite lookup_trash_entry, lookup_insert_eq.
  cbn [Fs.is_some_node negb]. rewrite Hbase.
  unfold bind at 1, Os.path_exists at 1. unfold fs1 at 1.
  rewrite stat_doc_md_new, lookup_doc_md, lookup_delete_eq by done.
  cbn [Fs.is_some_node].
  unfold bind at 1, Os.path_exists at 1. unfold fs1 at 1.
  rewrite stat_doc_md_legacy, lookup_docs_entry.
  rewrite lookup_delete_ne by apply not_eq_sym, legacy_name_ne.
  rewrite Hnoleg. cbn [Fs.is_some_node].
  unfold bind at 1, Os.path_exists at 1. unfold fs1 at 1.
  unfold Fs.stat at 1. rewrite resolve_docs_child by done.
  rewrite lookup_docs_entry, lookup_delete_eq.
  cbn [Fs.is_some_node orb].
  unfold try_except, bind. unfold fs1.
  rewrite (move_trash_to_docs root (delete slug d) (<[name := Dir es]> t)
             _ _ slug name (Dir es)).
  - rewrite insert_delete_id by done. by rewrite delete_insert_id.
  - by apply resolve_trash_child.
  - by apply resolve_docs_child.
  - by rewrite lookup_insert_eq.
  - by rewrite lookup_delete_eq.
Qed.

Lemma delete_then_restore_round_trip_witness :
  initialised Sample.one_doc
  ∧ is_admin Sample.root_session
  ∧ Fs.plain_name "api-usuarios"
  ∧ ∃ fs1, delete_doc Sample.clock "api-usuarios" Sample.one_doc
           = Ret true fs1
      ∧ restore_doc Sample.root_session
          (Some "api-usuarios_2025-10-29_14-03-05") fs1
        = Ret (mkResponse [Restored "api-usuarios"] ToTrash) Sample.one_doc.
Proof.
  assert (H1 : initialised Sample.one_doc) by by vm_compute.
  assert (Ha : is_admin Sample.root_session) by (split; [by eexists|done]).
  assert (H2 : Fs.plain_name "api-usuarios")
    by by apply (bool_decide_unpack _).
  split; [exact H1|]. split; [exact Ha|]. split; [exact H2|].
  destruct (delete_then_restore_round_trip Sample.one_doc Sample.clock
              Sample.root_session "api-usuarios"
              (<["doc.md" := File Sample.api_text]> ∅)
              H1 Ha H2 eq_refl eq_refl eq_refl eq_refl eq_refl eq_refl)
    as (fs1 & Hdel & _ & _ & Hres).
  exists fs1. split; [exact Hdel|exact Hres].
Defined.

(** X15.  Deleting and restoring a legacy document does not give it
    back.  On an initialised store, for an administrator and a slug that
    is a proper path component without surrounding white space, without
    underscore and without [.md] in it, of which only the legacy file
    exists and whose trash name is free: [delete_doc] moves the file to
    the trash under [<slug>_<stamp>.md], and [restore_doc] on that name
    moves it to [docs/<slug>], without the extension; there it is neither
    a canonical directory nor a legacy file, and [read_doc] finds no
    document for the slug. *)
Theorem delete_then_restore_legacy `{Lib} (fs : node) (utcnow : datetime)
    (s : session) (slug data : string) :
  let name := slug ++ "_" ++ Fmt.trash_stamp utcnow ++ ".md" in
  initialised fs →
  is_admin s →
  Fs.plain_name slug →
  Py.strip slug = slug →
  Py.contains "_" slug = false →
  Py.contains ".md" slug = false →
  entries fs DOCS_DIR !! slug = None →
  entries fs DOCS_DIR !! (slug ++ ".md") = Some (File data) →
  entries fs TRASH_DIR !! name = None →
  ∃ fs1 fs2,
    delete_doc utcnow slug fs = Ret true fs1
    ∧ restore_doc s (Some name) fs1
      = Ret (mkResponse [Restored slug] ToTrash) fs2
    ∧ entries fs2 DOCS_DIR
      = <[slug := File data]> (delete (slug ++ ".md") (entries fs DOCS_DIR))
    ∧ entries fs2 TRASH_DIR = entries fs TRASH_DIR
    ∧ elsewhere fs2 = elsewhere fs
    ∧ read_doc slug fs2 = Ret None fs2.
Proof.
  intros name Hinit Hadmin Hplain Hstrip Hunder Hmd Hnodir Hleg Hfree.
  destruct (initialised_tree fs Hinit) as (root & d & t & -> & Hinit').
  rewrite entries_docs_tree in *. rewrite entries_trash_tree in *.
  assert (Hns : not_special slug) by by apply plain_not_special.
  assert (Hslug : slug ≠ "") by apply Hns.
  assert (Hname_ns : not_special name).
  { apply trash_name_not_special; [done|].
    rewrite length_append. pose proof (trash_stamp_length utcnow). lia. }
  assert (Hlegne : slug ++ ".md" ≠ slug) by apply legacy_name_ne.
  set (d1 := delete (slug ++ ".md") d).
  set (fs1 := tree root d1 (<[name := File data]> t)).
  set (fs2 := tree root (<[slug := File data]> d1) t).
  assert (Hdel : delete_doc utcnow slug (tree root d t) = Ret true fs1).
  { unfold delete_doc. unfold bind at 1.
    rewrite ensure_dirs_and_repo_id by done.
    unfold bind at 1, Os.path_isdir at 1.
    rewrite stat_doc_dir, lookup_docs_entry, Hnodir by done.
    cbn [Fs.is_dir].
    unfold bind at 1, Os.path_exists at 1.
    rewrite stat_doc_md_legacy, lookup_docs_entry, Hleg.
    cbn [Fs.is_some_node]. unfold bind at 1.
    rewrite (move_docs_to_trash root d t _ _ (slug ++ ".md") name
               (File data)); try done.
    - apply resolve_docs_child, legacy_not_special.
    - by apply resolve_trash_child. }
  exists fs1, fs2. split; [exact Hdel|].
  assert (Hstripped : Py.strip name = name).
  { unfold name. apply strip_app; try done.
    by rewrite !no_space_app, no_space_stamp. }
  assert (Hbase : restore_base_name name = slug).
  { unfold restore_base_name, name.
    change (slug ++ "_" ++ Fmt.trash_stamp utcnow ++ ".md")
      with (slug ++ String "_"%char (Fmt.trash_stamp utcnow ++ ".md")).
    rewrite split_head by done. by apply replace_absent. }
  assert (Hne : Py.is_empty name = false).
  { unfold name. destruct slug; [done|done]. }
  assert (Hd1slug : d1 !! slug = None).
  { unfold d1. by rewrite lookup_delete_ne. }
  assert (Hd1leg : d1 !! (slug ++ ".md") = None)
    by (unfold d1; by rewrite lookup_delete_eq).
  split.
  { unfold restore_doc. rewrite admin_only_admin by done.
    cbn [default from_option id]. rewrite Hstripped, Hne.
    unfold bind at 1, Os.path_exists at 1. unfold fs1 at 1.
    unfold Fs.stat at 1. rewrite resolve_trash_child by done.
    rewrite lookup_trash_entry, lookup_insert_eq.
    cbn [Fs.is_some_node negb]. rewrite Hbase.
    unfold bind at 1, Os.path_exists at 1. unfold fs1 at 1.
    rewrite stat_doc_md_new, lookup_doc_md, Hd1slug by done.
    cbn [Fs.is_some_node].
    unfold bind at 1, Os.path_exists at 1. unfold fs1 at 1.
    rewrite stat_doc_md_legacy, lookup_docs_entry, Hd1leg.
    cbn [Fs.is_some_node].
    unfold bind at 1, Os.path_exists at 1. unfold fs1 at 1.
    unfold Fs.stat at 1. rewrite resolve_docs_child by done.
    rewrite lookup_docs_entry, Hd1slug.
    cbn [Fs.is_some_node orb].
    unfold try_except, bind. unfold fs1.
    rewrite (move_trash_to_docs root d1 (<[name := File data]> t)
               _ _ slug name (File data)).
    - by rewrite delete_insert_id.
    - by apply resolve_trash_child.
    - by apply resolve_docs_child.
    - by rewrite lookup_insert_eq.
    - done. }
  unfold fs2.
  rewrite entries_docs_tree, entries_trash_tree, !elsewhere_tree.
  split; [done|]. split; [done|]. split; [done|].
  assert (Hinit2 : initialised (tree root (<[slug := File data]> d1) t))
    by by apply (tree_initialised root d t).
  unfold read_doc. unfold bind at 1.
  rewrite ensure_dirs_and_repo_id by done. rewrite Hstrip.
  unfold bind at 1, Os.path_exists at 1.
  rewrite stat_doc_md_new, lookup_doc_md, lookup_insert_eq by done.
  cbn [Fs.is_some_node]. unfold bind at 1. unfold ret at 1.
  unfold bind at 1, Os.path_exists at 1.
  rewrite stat_doc_md_legacy, lookup_docs_entry.
  rewrite lookup_insert_ne by by apply not_eq_sym.
  by rewrite Hd1leg.
Qed.

Lemma delete_then_restore_legacy_witness :
  initialised Sample.one_legacy
  ∧ is_admin Sample.root_session
  ∧ Fs.plain_name "guia"
  ∧ ∃ fs1 fs2,
      delete_doc Sample.clock "guia" Sample.one_legacy = Ret true fs1
      ∧ restore_doc Sample.root_session
          (Some "guia_2025-10-29_14-03-05.md") fs1
        = Ret (mkResponse [Restored "guia"] ToTrash) fs2
      ∧ read_doc (H := Sample.lib) "guia" fs2 = Ret None fs2.
Proof.
  assert (H1 : initialised Sample.one_legacy) by by vm_compute.
  assert (Ha : is_admin Sample.root_session) by (split; [by eexists|done]).
  assert (H2 : Fs.plain_name "guia") by by apply (bool_decide_unpack _).
  split; [exact H1|]. split; [exact Ha|]. split; [exact H2|].
  destruct (delete_then_restore_legacy (H := Sample.lib) Sample.one_legacy
              Sample.clock Sample.root_session "guia" Sample.guia_text
              H1 Ha H2 eq_refl eq_refl eq_refl eq_refl eq_refl eq_refl)
    as (fs1 & fs2 & Hdel & Hres & _ & _ & _ & Hread).
  exists fs1, fs2. split; [exact Hdel|]. split; [exact Hres|exact Hread].
Defined.

Section Attachments.
Context `{Lib}.

Lemma lookup_doc_file root d t k f :
  Fs.lookup_node (tree root d t) ["docs"; k; f]
  = match d !! k with
    | Some (Dir es) => es !! f
    | _ => None
    end.
Proof.
  unfold tree. cbn [Fs.lookup_node]. rewrite lookup_tree_docs.
  destruct (d !! k) as [[data|es]|]; try done.
  cbn [Fs.lookup_node]. by destruct (es !! f).
Qed.

Lemma resolve_doc_file k f :
  not_special k → not_special f →
  Fs.resolve (_doc_dir k ++ [f])%list = ["docs"; k; f].
Proof.
  intros Hk Hf. unfold Fs.resolve, _doc_dir, DOCS_DIR. cbn [app foldl].
  rewrite (resolve_step_keep [] "docs") by (by repeat split).
  cbn [app]. rewrite (resolve_step_keep ["docs"] k) by done.
  cbn [app]. by rewrite (resolve_step_keep ["docs"; k] f).
Qed.

Lemma put_doc_file root d t k es f n :
  d !! k = Some (Dir es) →
  Fs.put_node (tree root d t) ["docs"; k; f] n
  = Some (tree root (<[k := Dir (<[f := n]> es)]> d) t).
Proof.
  intros Hk. unfold tree. cbn [Fs.put_node]. rewrite lookup_tree_docs.
  cbn [Fs.put_node]. rewrite Hk. by rewrite tree_set_docs.
Qed.

Lemma del_doc_file root d t k es f n :
  d !! k = Some (Dir es) → es !! f = Some n →
  Fs.del_node (tree root d t) ["docs"; k; f]
  = Some (tree root (<[k := Dir (delete f es)]> d) t).
Proof.
  intros Hk Hf. unfold tree. cbn [Fs.del_node]. rewrite lookup_tree_docs.
  cbn [Fs.del_node]. rewrite Hk. cbn [Fs.del_node]. rewrite Hf.
  by rewrite tree_set_docs.
Qed.

Lemma upload_file_run root d t file_storage slug filename_override title :
  let base := upload_base slug title in
  let filename := upload_name file_storage filename_override in
  initialised (tree root d t) →
  Fs.plain_name base → Fs.plain_name filename →
  (∀ data, d !! base ≠ Some (File data)) →
  (∀ sub, dir_entries d base !! filename ≠ Some (Dir sub)) →
  upload_file file_storage slug filename_override title (tree root d t)
  = Ret ("/docs/" ++ base ++ "/" ++ filename)
      (tree root
         (<[base := Dir (<[filename := File (up_data file_storage)]>
                           (dir_entries d base))]> d) t).
Proof.
  intros base filename Hinit Hbase Hname Hnofile Hnodir.
  unfold upload_file. fold (upload_base slug title). fold base.
  fold (upload_name file_storage filename_override). fold filename.
  unfold bind at 1. rewrite ensure_dirs_and_repo_id by done.
  assert (Py.is_empty base = false) as ->.
  { destruct base; [by destruct Hbase|done]. }
  unfold bind at 1.
  change (DOCS_DIR ++ [base])%list with (_doc_dir base).
  rewrite makedirs_doc_dir by done.
  set (d1 := <[base := Dir (dir_entries d base)]> d).
  assert (Hd1 : d1 !! base = Some (Dir (dir_entries d base)))
    by (unfold d1; by rewrite lookup_insert_eq).
  unfold bind, Os.write_text. unfold Fs.stat.
  rewrite resolve_doc_file by by apply plain_not_special.
  rewrite lookup_doc_file, Hd1.
  rewrite (put_doc_file _ _ _ _ _ _ _ Hd1). unfold d1.
  rewrite insert_insert_eq.
  destruct (dir_entries d base !! filename) as [[data|sub]|] eqn:E;
    try done.
  by destruct (Hnodir sub).
Qed.

End Attachments.

(** X16.  An upload can be taken back.  On an initialised store, when the
    directory and the file name that [upload_file] computes are proper
    path components, the directory exists and has no entry of that name:
    [upload_file] saves the bytes there and returns the address
    [/docs/<directory>/<name>]; the directory is the slug of the title
    when a title is given and the slug argument otherwise; [delete_file]
    on that directory and name then returns true and leaves exactly the
    store from before the upload. *)
Theorem upload_file_then_delete_file `{Lib} (fs : node)
    (file_storage : upload) (slug : string)
    (filename_override title : option string) (es : gmap string node) :
  let base := upload_base slug title in
  let filename := upload_name file_storage filename_override in
  initialised fs →
  Fs.plain_name base →
  Fs.plain_name filename →
  entries fs DOCS_DIR !! base = Some (Dir es) →
  es !! filename = None →
  ∃ fs1,
    upload_file file_storage slug filename_override title fs
    = Ret ("/docs/" ++ base ++ "/" ++ filename) fs1
    ∧ entries fs1 DOCS_DIR
      = <[base := Dir (<[filename := File (up_data file_storage)]> es)]>
          (entries fs DOCS_DIR)
    ∧ entries fs1 TRASH_DIR = entries fs TRASH_DIR
    ∧ elsewhere fs1 = elsewhere fs
    ∧ delete_file base filename fs1 = Ret true fs.
Proof.
  intros base filename Hinit Hbase Hname Hdir Hfree.
  destruct (initialised_tree fs Hinit) as (root & d & t & -> & Hinit').
  rewrite entries_docs_tree in *. rewrite entries_trash_tree.
  assert (Hes : dir_entries d base = es)
    by (unfold dir_entries; by rewrite Hdir).
  pose proof (upload_file_run root d t file_storage slug filename_override
                title) as Hrun.
  cbv zeta in Hrun. fold base filename in Hrun. rewrite Hes in Hrun.
  eexists. split.
  { apply Hrun; try done.
    - intros data. by rewrite Hdir.
    - intros sub. by rewrite Hfree. }
  rewrite entries_docs_tree, entries_trash_tree, !elsewhere_tree.
  split; [done|]. split; [done|]. split; [done|].
  set (es1 := <[filename := File (up_data file_storage)]> es).
  assert (Hd1 : <[base := Dir es1]> d !! base = Some (Dir es1))
    by by rewrite lookup_insert_eq.
  unfold delete_file, bind, Os.path_exists, Os.remove. unfold Fs.stat.
  rewrite resolve_doc_file by by apply plain_not_special.
  rewrite lookup_doc_file, Hd1. unfold es1 at 1 2.
  rewrite lookup_insert_eq. cbn [Fs.is_some_node].
  rewrite (del_doc_file _ _ _ _ es1 _ (File (up_data file_storage)) Hd1)
    by (unfold es1; by rewrite lookup_insert_eq).
  unfold es1. rewrite delete_insert_id by done.
  rewrite insert_insert_eq.
  rewrite lookup_doc_file, lookup_insert_eq, lookup_insert_eq.
  by rewrite insert_id.
Qed.

Lemma upload_file_then_delete_file_witness :
  initialised Sample.one_doc
  ∧ Fs.plain_name (upload_base (H := Sample.lib) "api-usuarios" None)
  ∧ Fs.plain_name (upload_name (H := Sample.lib) Sample.logo None)
  ∧ ∃ fs1,
      upload_file (H := Sample.lib) Sample.logo "api-usuarios" None None
        Sample.one_doc
      = Ret "/docs/api-usuarios/logo-novo-a1b2c3.png" fs1
      ∧ delete_file "api-usuarios" "logo-novo-a1b2c3.png" fs1
        = Ret true Sample.one_doc.
Proof.
  assert (H1 : initialised Sample.one_doc) by by vm_compute.
  assert (H2 : Fs.plain_name (upload_base (H := Sample.lib) "api-usuarios"
                                None))
    by (apply (bool_decide_unpack _); vm_compute; exact I).
  assert (H3 : Fs.plain_name (upload_name (H := Sample.lib) Sample.logo
                                None))
    by (apply (bool_decide_unpack _); vm_compute; exact I).
  split; [exact H1|]. split; [exact H2|]. split; [exact H3|].
  destruct (upload_file_then_delete_file (H := Sample.lib) Sample.one_doc
              Sample.logo "api-usuarios" None None
              (<["doc.md" := File Sample.api_text]> ∅) H1 H2 H3 eq_refl
              eq_refl) as (fs1 & Hup & _ & _ & _ & Hdel).
  exists fs1. split; [exact Hup|exact Hdel].
Defined.

(** X17.  The edges of [upload_file] and [delete_file].  On an
    initialised store: [upload_file] raises, and changes nothing, when it
    is given neither a slug nor a title; for a slug and a file name that
    are proper path components, [delete_file] returns false and changes
    nothing when there is nothing of that name, and raises, changing
    nothing, when the name is that of a directory. *)
Theorem attachment_edge_cases `{Lib} (fs : node) :
  initialised fs →
  (∀ file_storage filename_override title,
     Py.is_empty (default "" title) = true →
     upload_file file_storage "" filename_override title fs = Exc fs)
  ∧ (∀ slug filename,
       Fs.plain_name slug → Fs.plain_name filename →
       dir_entries (entries fs DOCS_DIR) slug !! filename = None →
       delete_file slug filename fs = Ret false fs)
  ∧ (∀ slug filename sub,
       Fs.plain_name slug → Fs.plain_name filename →
       dir_entries (entries fs DOCS_DIR) slug !! filename = Some (Dir sub) →
       delete_file slug filename fs = Exc fs).
Proof.
  intros Hinit.
  destruct (initialised_tree fs Hinit) as (root & d & t & -> & Hinit').
  rewrite entries_docs_tree.
  assert (Hstat : ∀ slug filename,
             Fs.plain_name slug → Fs.plain_name filename →
             Fs.stat (tree root d t) (_doc_dir slug ++ [filename])%list
             = dir_entries d slug !! filename).
  { intros slug filename Hs Hf. unfold Fs.stat.
    rewrite resolve_doc_file by by apply plain_not_special.
    rewrite lookup_doc_file. unfold dir_entries.
    by destruct (d !! slug) as [[|]|]. }
  split; [|split].
  - intros file_storage filename_override title Ht.
    unfold upload_file. unfold bind at 1.
    rewrite ensure_dirs_and_repo_id by done. by rewrite Ht.
  - intros slug filename Hs Hf Hnone.
    unfold delete_file, bind, Os.path_exists.
    by rewrite Hstat, Hnone by done.
  - intros slug filename sub Hs Hf Hsub.
    unfold delete_file, bind, Os.path_exists, Os.remove.
    rewrite Hstat, Hsub by done. cbn [Fs.is_some_node].
    by rewrite Hstat, Hsub.
Qed.

Lemma attachment_edge_cases_witness :
  initialised Sample.one_doc
  ∧ upload_file (H := Sample.lib) Sample.logo "" None None Sample.one_doc
    = Exc Sample.one_doc
  ∧ delete_file "api-usuarios" "logo.png" Sample.one_doc
    = Ret false Sample.one_doc.
Proof.
  assert (H1 : initialised Sample.one_doc) by by vm_compute.
  split; [exact H1|].
  destruct (attachment_edge_cases (H := Sample.lib) Sample.one_doc H1)
    as (Hup & Hdel & _).
  split; [by apply Hup|].
  apply Hdel; [by apply (bool_decide_unpack _)..|done].
Defined.

Section PageFacts.

Lemma filter_sublist {A} (f : A → bool) (l : list A) :
  sublist (List.filter f l) l.
Proof.
  induction l as [|x l IH]; [done|].
  cbn [List.filter]. destruct (f x); by constructor.
Qed.

Lemma filter_sublist_mono {A} (f g : A → bool) (l : list A) :
  (∀ x, f x = true → g x = true) →
  sublist (List.filter f l) (List.filter g l).
Proof.
  intros Hfg. induction l as [|x l IH]; [done|].
  cbn [List.filter]. destruct (f x) eqn:Ef.
  - rewrite (Hfg x Ef). by constructor.
  - destruct (g x); [by constructor|done].
Qed.

Lemma filter_all {A} (f : A → bool) (l : list A) :
  (∀ x, f x = true) → List.filter f l = l.
Proof.
  intros Hf. induction l as [|x l IH]; [done|].
  cbn [List.filter]. by rewrite Hf, IH.
Qed.

Lemma tier_allows_n1 c :
  tier_allows "n1" c = true ↔ c = VStr "" ∨ c = VStr "d1".
Proof.
  unfold tier_allows. cbn [String.eqb Ascii.eqb Bool.eqb].
  rewrite orb_true_iff, !bool_decide_eq_true. done.
Qed.

Lemma tier_allows_n2 c :
  tier_allows "n2" c = true ↔ c = VStr "" ∨ c = VStr "d1" ∨ c = VStr "d2".
Proof.
  unfold tier_allows. cbn [String.eqb Ascii.eqb Bool.eqb].
  rewrite !orb_true_iff, !bool_decide_eq_true. tauto.
Qed.

Lemma tier_allows_other n c :
  n ≠ "n1" → n ≠ "n2" → tier_allows n c = true.
Proof.
  intros H1 H2. unfold tier_allows.
  apply String.eqb_neq in H1, H2. by rewrite H1, H2.
Qed.

End PageFacts.

(** X18.  What the listing page shows to each tier.  On an initialised
    store where [list_docs] returns for the trimmed query: [docs] sends a
    visitor without session to the login page; for readers of the tiers
    [n1] (also when the session names no tier), [n2] and any other tier,
    it leaves the store as it is and what the first sees is a sublist of
    what the second sees, itself a sublist of what the third sees, which
    is every listed document; the first sees exactly the listed documents
    whose category is empty or [d1], the second those whose category is
    empty, [d1] or [d2]. *)
Theorem docs_shows_more_to_higher_tiers `{Lib} (fs fs' : node)
    (arg_q : option string) (rs : list summary) (s1 s2 s3 : session) :
  let q := Py.strip (default "" arg_q) in
  initialised fs →
  list_docs q None "n1" fs = Ret rs fs' →
  is_Some (user s1) → is_Some (user s2) → is_Some (user s3) →
  default "n1" (nivel s1) = "n1" →
  nivel s2 = Some "n2" →
  default "n1" (nivel s3) ≠ "n1" → default "n1" (nivel s3) ≠ "n2" →
  fs' = fs
  ∧ docs (mkSession None (nivel s3)) arg_q fs = Ret PageToLogin fs
  ∧ ∃ i1 i2,
      docs s1 arg_q fs = Ret (DocsList i1 q) fs'
      ∧ docs s2 arg_q fs = Ret (DocsList i2 q) fs'
      ∧ docs s3 arg_q fs = Ret (DocsList (to_item <$> rs) q) fs'
      ∧ sublist i1 i2 ∧ sublist i2 (to_item <$> rs)
      ∧ (∀ i, i ∈ i1 ↔
           i ∈ (to_item <$> rs)
           ∧ (i_category i = VStr "" ∨ i_category i = VStr "d1"))
      ∧ (∀ i, i ∈ i2 ↔
           i ∈ (to_item <$> rs)
           ∧ (i_category i = VStr "" ∨ i_category i = VStr "d1"
              ∨ i_category i = VStr "d2")).
Proof.
  intros q Hinit Hrun [u1 Hu1] [u2 Hu2] [u3 Hu3] Hn1 Hn2 Hn3 Hn3'.
  split.
  { destruct (initialised_tree fs Hinit) as (root & d & t & -> & Hinit').
    destruct (listed_slugs root d t q None "n1" rs fs' "x" Hinit Hrun)
      as [Hfs _]; [by apply (bool_decide_unpack _)|exact Hfs]. }
  split; [done|].
  exists (List.filter (λ i, tier_allows "n1" (i_category i)) (to_item <$> rs)),
         (List.filter (λ i, tier_allows "n2" (i_category i)) (to_item <$> rs)).
  unfold docs. rewrite Hu1, Hu2, Hu3. fold q. unfold bind. rewrite Hrun.
  rewrite Hn1, Hn2. cbn [default from_option id].
  split; [done|]. split; [done|]. split.
  { unfold ret. f_equal. f_equal. apply filter_all.
    intros i. by apply tier_allows_other. }
  split.
  { apply filter_sublist_mono. intros i.
    rewrite tier_allows_n1, tier_allows_n2. tauto. }
  split; [apply filter_sublist|]. split.
  - intros i. rewrite list_elem_of_In, List.filter_In, <- list_elem_of_In.
    by rewrite tier_allows_n1.
  - intros i. rewrite list_elem_of_In, List.filter_In, <- list_elem_of_In.
    by rewrite tier_allows_n2.
Qed.

Lemma docs_shows_more_to_higher_tiers_witness :
  initialised Sample.tiered_docs
  ∧ Sample.shown_slugs
      (docs (H := Sample.lib) Sample.reader_session None Sample.tiered_docs)
    = ["aberto"]
  ∧ Sample.shown_slugs
      (docs (H := Sample.lib) Sample.staff_session None Sample.tiered_docs)
    = ["aberto"; "interno"]
  ∧ Sample.shown_slugs
      (docs (H := Sample.lib) Sample.root_session None Sample.tiered_docs)
    = ["aberto"; "interno"; "secreto"]
  ∧ ∃ i1 i2,
      docs (H := Sample.lib) Sample.reader_session None Sample.tiered_docs
      = Ret (DocsList i1 "") Sample.tiered_docs
      ∧ docs (H := Sample.lib) Sample.staff_session None Sample.tiered_docs
        = Ret (DocsList i2 "") Sample.tiered_docs
      ∧ sublist i1 i2.
Proof.
  assert (H1 : initialised Sample.tiered_docs) by by vm_compute.
  split; [exact H1|].
  split; [vm_compute; reflexivity|].
  split; [vm_compute; reflexivity|].
  split; [vm_compute; reflexivity|].
  destruct (list_docs (H := Sample.lib) "" None "n1" Sample.tiered_docs)
    as [rs fs'|fs'] eqn:Hrun; [|by vm_compute in Hrun].
  destruct (docs_shows_more_to_higher_tiers (H := Sample.lib)
              Sample.tiered_docs fs' None rs Sample.reader_session
              Sample.staff_session Sample.root_session H1 Hrun)
    as (-> & _ & i1 & i2 & Hd1 & Hd2 & _ & Hsub & _);
    [by eexists|by eexists|by eexists|done|done|done|done|].
  exists i1, i2. split; [exact Hd1|]. split; [exact Hd2|exact Hsub].
Defined.

Section Lines.

Lemma writelines_readlines s : writelines (readlines s) = s.
Proof.
  induction s as [|c s IH]; [done|].
  cbn [readlines]. destruct (Py.code c =? 10)%nat.
  - cbn [writelines foldr]. fold (writelines (readlines s)). by rewrite IH.
  - destruct (readlines s) as [|line rest] eqn:E.
    + cbn in IH. by subst s.
    + cbn [writelines foldr] in *. by rewrite <- IH.
Qed.

Lemma well_split_cons l rest :
  ended_line l = true → well_split rest → well_split (l :: rest).
Proof. intros Hl Hr. destruct rest; cbn [well_split]; auto. Qed.

Lemma well_split_tail l rest : well_split (l :: rest) → well_split rest.
Proof. destruct rest; cbn [well_split]; [done|]. by intros [_ ?]. Qed.

Lemma well_split_head l l' rest :
  well_split (l :: l' :: rest) → ended_line l = true.
Proof. cbn [well_split]. by intros [? _]. Qed.

Lemma ended_line_cons c l :
  l ≠ "" → ended_line (String c l) = negb (is_lf c) && ended_line l.
Proof. by destruct l. Qed.

Lemma open_line_cons c l :
  l ≠ "" → open_line (String c l) = negb (is_lf c) && open_line l.
Proof. by destruct l. Qed.

Lemma readlines_well_split s : well_split (readlines s).
Proof.
  induction s as [|c s IH]; [done|].
  cbn [readlines]. destruct (Py.code c =? 10)%nat eqn:Ec.
  - apply well_split_cons; [|done]. cbn [ended_line]. exact Ec.
  - destruct (readlines s) as [|line rest] eqn:E.
    + cbn [well_split open_line]. right. unfold is_lf. by rewrite Ec.
    + assert (Hline : line ≠ "").
      { destruct rest; cbn [well_split] in IH.
        - destruct IH as [H|H]; by destruct line.
        - destruct IH as [H _]; by destruct line. }
      assert (Hc : negb (is_lf c) = true) by (unfold is_lf; by rewrite Ec).
      destruct rest as [|l' rest'].
      * cbn [well_split] in *.
        rewrite ended_line_cons, open_line_cons, Hc by done.
        exact IH.
      * cbn [well_split] in IH. destruct IH as [H1 H2].
        split; [|exact H2].
        by rewrite ended_line_cons, Hc.
Qed.

Lemma readlines_cons c s :
  readlines (String c s) =
    if (Py.code c =? 10)%nat then String c "" :: readlines s
    else match readlines s with
         | [] => [String c ""]
         | line :: rest => String c line :: rest
         end.
Proof. done. Qed.

Lemma readlines_ended l s :
  ended_line l = true → readlines (l ++ s) = l :: readlines s.
Proof.
  induction l as [|c l IH]; [done|].
  destruct (decide (l = "")) as [->|Hl].
  - cbn [ended_line]. unfold is_lf. intros Hc.
    change (String c "" ++ s) with (String c s).
    by rewrite readlines_cons, Hc.
  - rewrite ended_line_cons by done.
    intros [Hc Hl']%andb_true_iff. apply negb_true_iff in Hc.
    unfold is_lf in Hc.
    change (String c l ++ s) with (String c (l ++ s)).
    by rewrite readlines_cons, Hc, (IH Hl').
Qed.

Lemma readlines_open l :
  open_line l = true → readlines l = [l].
Proof.
  induction l as [|c l IH]; [done|].
  destruct (decide (l = "")) as [->|Hl].
  - cbn [open_line]. unfold is_lf. intros Hc%negb_true_iff.
    by rewrite readlines_cons, Hc.
  - rewrite open_line_cons by done.
    intros [Hc Hl']%andb_true_iff. apply negb_true_iff in Hc.
    unfold is_lf in Hc.
    by rewrite readlines_cons, Hc, (IH Hl').
Qed.

Lemma append_empty_r (s : string) : s ++ "" = s.
Proof.
  induction s as [|c s IH]; [done|].
  change (String c s ++ "") with (String c (s ++ "")). by f_equal.
Qed.

Lemma readlines_writelines ls :
  well_split ls → readlines (writelines ls) = ls.
Proof.
  induction ls as [|l rest IH]; [done|].
  intros Hw. cbn [writelines foldr]. fold (writelines rest).
  destruct rest as [|l' rest'].
  - cbn [writelines foldr]. rewrite append_empty_r.
    cbn [well_split] in Hw. destruct Hw as [H|H].
    + rewrite <- (append_empty_r l) at 1. by rewrite readlines_ended.
    + by apply readlines_open.
  - rewrite readlines_ended by by apply (well_split_head _ _ _ Hw).
    f_equal. apply IH. by apply (well_split_tail l).
Qed.

Lemma filter_well_split (f : string → bool) ls :
  well_split ls → well_split (List.filter f ls).
Proof.
  induction ls as [|l rest IH]; [done|].
  intros Hw. pose proof (IH (well_split_tail _ _ Hw)) as IH'.
  cbn [List.filter]. destruct (f l); [|done].
  destruct rest as [|l' rest'].
  - exact Hw.
  - apply well_split_cons; [by apply (well_split_head _ _ _ Hw)|done].
Qed.

Lemma list_filter_again (f : string → bool) ls :
  List.filter f (List.filter f ls) = List.filter f ls.
Proof.
  induction ls as [|l rest IH]; [done|].
  cbn [List.filter]. destruct (f l) eqn:E; [|done].
  cbn [List.filter]. by rewrite E, IH.
Qed.

Lemma universal_newlines_no_cr s : no_cr (Py.universal_newlines s) = true.
Proof.
  remember (String.length s) as n eqn:Hn.
  revert s Hn. induction n as [n IH] using lt_wf_ind. intros s Hn.
  destruct s as [|c s]; [done|].
  cbn [Py.universal_newlines].
  destruct (Py.code c =? 13)%nat eqn:Ec.
  - destruct s as [|d s'].
    + done.
    + destruct (Py.code d =? 10)%nat eqn:Ed.
      * cbn [no_cr].
        assert ((Py.code d =? 13)%nat = false) as ->.
        { apply Nat.eqb_eq in Ed. apply Nat.eqb_neq. lia. }
        cbn [negb andb]. apply (IH (String.length s')); [|done].
        subst n. cbn [String.length]. lia.
      * cbn [no_cr]. change (Py.code (ascii_of_nat 10) =? 13)%nat with false.
        cbn [negb andb]. apply (IH (String.length (String d s'))); [|done].
        subst n. cbn [String.length]. lia.
  - cbn [no_cr]. rewrite Ec. cbn [negb andb].
    apply (IH (String.length s)); [|done].
    subst n. cbn [String.length]. lia.
Qed.

Lemma universal_newlines_id s :
  no_cr s = true → Py.universal_newlines s = s.
Proof.
  induction s as [|c s IH]; [done|].
  cbn [no_cr]. intros [Hc Hs]%andb_true_iff. apply negb_true_iff in Hc.
  cbn [Py.universal_newlines]. rewrite Hc. by rewrite IH.
Qed.

Lemma no_cr_app a b : no_cr (a ++ b) = no_cr a && no_cr b.
Proof.
  induction a as [|c a IH]; [done|].
  change (String c a ++ b) with (String c (a ++ b)).
  cbn [no_cr]. by rewrite IH, andb_assoc.
Qed.

Lemma no_cr_writelines ls :
  Forall (λ l, no_cr l = true) ls → no_cr (writelines ls) = true.
Proof.
  induction 1 as [|l rest Hl Hrest IH]; [done|].
  cbn [writelines foldr]. fold (writelines rest).
  by rewrite no_cr_app, Hl, IH.
Qed.

Lemma no_cr_readlines s :
  no_cr s = true → Forall (λ l, no_cr l = true) (readlines s).
Proof.
  induction s as [|c s IH]; [constructor|].
  cbn [no_cr]. intros [Hc Hs]%andb_true_iff. specialize (IH Hs).
  cbn [readlines]. destruct (Py.code c =? 10)%nat.
  - constructor; [|done]. cbn [no_cr]. by rewrite Hc.
  - destruct (readlines s) as [|line rest].
    + constructor; [|done]. cbn [no_cr]. by rewrite Hc.
    + apply Forall_cons in IH as [Hl Hr].
      constructor; [|done]. cbn [no_cr]. by rewrite Hc, Hl.
Qed.

Lemma Forall_filter_list {A} (P : A → Prop) (f : A → bool) (l : list A) :
  Forall P l → Forall P (List.filter f l).
Proof.
  induction 1 as [|x l Hx Hl IH]; [constructor|].
  cbn [List.filter]. destruct (f x); [by constructor|done].
Qed.

End Lines.

Section Icons.

Lemma remove_icons_run root d t slug names : ∀ es,
  not_special slug → Forall not_special names →
  remove_icons (_doc_dir slug) names (tree root (<[slug := Dir es]> d) t)
  = Ret () (tree root (<[slug := Dir (foldl sweep_step es names)]> d) t).
Proof.
  induction names as [|a names IH]; intros es Hslug Hnames; [done|].
  apply Forall_cons in Hnames as [Ha Hnames].
  cbn [remove_icons foldl]. unfold bind at 1.
  assert (Hstep :
    (if is_icon_file a
     then try_except (Os.remove true (_doc_dir slug ++ [a])%list) (ret ())
     else ret ()) (tree root (<[slug := Dir es]> d) t)
    = Ret () (tree root (<[slug := Dir (sweep_step es a)]> d) t)).
  { unfold sweep_step, icon_to_remove.
    destruct (is_icon_file a) eqn:Ei.
    - unfold try_except, Os.remove, Fs.stat.
      rewrite resolve_doc_file by done.
      rewrite lookup_doc_file, lookup_insert_eq.
      destruct (es !! a) as [[data|sub]|] eqn:Ea; cbn [andb]; try done.
      rewrite (del_doc_file _ _ _ slug es a (File data))
        by (by rewrite ?lookup_insert_eq).
      by rewrite insert_insert_eq.
    - by destruct (es !! a) as [[data|sub]|]. }
  rewrite Hstep. by apply IH.
Qed.

Lemma sweep_step_lookup es a k :
  sweep_step es a !! k
  = if decide (k = a)
    then es !! k ≫= λ n, if icon_to_remove k n then None else Some n
    else es !! k.
Proof.
  unfold sweep_step. destruct (decide (k = a)) as [->|Hne].
  - destruct (es !! a) as [n|] eqn:Ea; cbn; [|by rewrite Ea].
    destruct (icon_to_remove a n); [by rewrite lookup_delete_eq|done].
  - destruct (es !! a) as [n|]; [|done].
    destruct (icon_to_remove a n); [by rewrite lookup_delete_ne|done].
Qed.

Lemma sweep_lookup names : ∀ es k,
  NoDup names →
  foldl sweep_step es names !! k
  = if decide (k ∈ names)
    then es !! k ≫= λ n, if icon_to_remove k n then None else Some n
    else es !! k.
Proof.
  induction names as [|a names IH]; intros es k Hnd.
  - cbn [foldl]. destruct (decide (k ∈ [])) as [Hin|]; [|done].
    by apply elem_of_nil in Hin.
  - apply NoDup_cons in Hnd as [Ha Hnd]. cbn [foldl].
    rewrite IH by done. rewrite sweep_step_lookup.
    destruct (decide (k ∈ names)) as [Hin|Hnin].
    + destruct (decide (k = a)) as [->|Hne]; [done|].
      destruct (decide (k ∈ a :: names)) as [|Hn]; [done|].
      destruct Hn. by right.
    + destruct (decide (k = a)) as [->|Hne].
      * destruct (decide (a ∈ a :: names)) as [|Hn]; [done|].
        destruct Hn. by left.
      * destruct (decide (k ∈ a :: names)) as [Hin|]; [|done].
        apply elem_of_cons in Hin as [?|?]; done.
Qed.

Lemma without_icons_lookup es k :
  without_icons es !! k
  = es !! k ≫= λ n, if icon_to_remove k n then None else Some n.
Proof.
  unfold without_icons. rewrite map_lookup_filter.
  destruct (es !! k) as [n|]; [|done]. cbn.
  destruct (icon_to_remove k n); by case_guard.
Qed.

Lemma sweep_all es :
  foldl sweep_step es (elements (dom es)) = without_icons es.
Proof.
  apply map_eq. intros k.
  rewrite sweep_lookup by apply NoDup_elements.
  rewrite without_icons_lookup.
  destruct (decide (k ∈ elements (dom es))) as [|Hn]; [done|].
  destruct (es !! k) as [n|] eqn:Ek; [|done].
  destruct Hn. apply elem_of_elements, elem_of_dom. by rewrite Ek.
Qed.

Lemma without_icons_again es :
  without_icons (without_icons es) = without_icons es.
Proof.
  apply map_eq. intros k. rewrite !without_icons_lookup.
  destruct (es !! k) as [n|]; [|done]. cbn.
  destruct (icon_to_remove k n) eqn:E; [done|]. cbn. by rewrite E.
Qed.

Lemma without_icons_doc es data :
  without_icons es !! "doc.md" = Some (File data) ↔
  es !! "doc.md" = Some (File data).
Proof.
  rewrite without_icons_lookup.
  destruct (es !! "doc.md") as [n|]; [|done]. cbn.
  change (icon_to_remove "doc.md" n) with false. done.
Qed.

Lemma without_icon_lines_again raw :
  without_icon_lines (without_icon_lines raw) = without_icon_lines raw.
Proof.
  unfold without_icon_lines.
  set (keep := λ line, negb (is_icon_line line)).
  set (ls := List.filter keep (readlines (Py.universal_newlines raw))).
  assert (Hw : well_split ls)
    by apply filter_well_split, readlines_well_split.
  assert (Hcr : no_cr (writelines ls) = true).
  { apply no_cr_writelines, Forall_filter_list, no_cr_readlines,
      universal_newlines_no_cr. }
  rewrite (universal_newlines_id _ Hcr).
  rewrite (readlines_writelines _ Hw). unfold ls.
  by rewrite list_filter_again.
Qed.

Lemma without_icon_lines_clean raw line :
  line ∈ readlines (Py.universal_newlines (without_icon_lines raw)) →
  is_icon_line line = false.
Proof.
  unfold without_icon_lines.
  set (keep := λ line, negb (is_icon_line line)).
  set (ls := List.filter keep (readlines (Py.universal_newlines raw))).
  assert (Hw : well_split ls)
    by apply filter_well_split, readlines_well_split.
  assert (Hcr : no_cr (writelines ls) = true).
  { apply no_cr_writelines, Forall_filter_list, no_cr_readlines,
      universal_newlines_no_cr. }
  rewrite (universal_newlines_id _ Hcr).
  rewrite (readlines_writelines _ Hw). unfold ls.
  intros Hin%list_elem_of_In%filter_In. destruct Hin as [_ Hk].
  unfold keep in Hk. by apply negb_true_iff in Hk.
Qed.

Lemma delete_icon_run root d t s slug es raw :
  is_Some (user s) → Fs.plain_name slug →
  d !! slug = Some (Dir es) → proper_names es →
  es !! "doc.md" = Some (File raw) →
  delete_icon s slug (tree root d t)
  = Ret ApiOk
      (tree root
         (<[slug := Dir (without_icons
                           (<["doc.md" := File (without_icon_lines raw)]>
                              es))]> d) t).
Proof.
  intros [u Hu] Hslug Hd Hnames Hdoc.
  pose proof (plain_not_special _ Hslug) as Hslug'.
  assert (Hdocname : not_special "doc.md") by by repeat split.
  unfold delete_icon. rewrite Hu.
  unfold try_except, _doc_md_path_new.
  unfold bind at 1. unfold Os.path_exists at 1. unfold Fs.stat.
  rewrite resolve_doc_file by done.
  rewrite lookup_doc_file, Hd, Hdoc. cbn [Fs.is_some_node negb].
  unfold bind at 1. unfold Os.read_text at 1. unfold Fs.stat.
  rewrite resolve_doc_file by done.
  rewrite lookup_doc_file, Hd, Hdoc.
  fold (without_icon_lines raw).
  unfold bind at 1. unfold Os.write_text at 1. unfold Fs.stat.
  rewrite resolve_doc_file by done.
  rewrite lookup_doc_file, Hd, Hdoc.
  rewrite (put_doc_file _ _ _ _ _ _ _ Hd).
  set (es1 := <["doc.md" := File (without_icon_lines raw)]> es).
  unfold bind at 1. unfold Os.listdir at 1. unfold Fs.stat.
  assert (Hres : Fs.resolve (_doc_dir slug) = ["docs"; slug]).
  { unfold Fs.resolve, _doc_dir, DOCS_DIR. cbn [app foldl].
    rewrite (resolve_step_keep [] "docs") by (by repeat split).
    cbn [app]. by rewrite (resolve_step_keep ["docs"] slug). }
  rewrite Hres.
  assert (Hlook : Fs.lookup_node (tree root (<[slug := Dir es1]> d) t)
                    ["docs"; slug] = Some (Dir es1)).
  { unfold tree. cbn [Fs.lookup_node]. rewrite lookup_tree_docs.
    cbn [Fs.lookup_node]. by rewrite lookup_insert_eq. }
  rewrite Hlook.
  unfold bind at 1.
  rewrite remove_icons_run; [|done|].
  - by rewrite sweep_all.
  - apply Forall_forall. intros k Hk%elem_of_elements%elem_of_dom.
    destruct Hk as [n Hn]. apply plain_not_special.
    unfold es1 in Hn. destruct (decide (k = "doc.md")) as [->|Hne].
    + by repeat split.
    + rewrite lookup_insert_ne in Hn by done. by apply (Hnames k n).
Qed.

End Icons.

(** X19.  [delete_icon] removes the icon of a document, and a second call
    changes nothing.  On an initialised store, for a logged-in session and
    a slug that is a proper path component whose directory holds the file
    [doc.md] and entries with proper names: the handler answers with
    success; [doc.md] is rewritten without its lines that start, after
    surrounding space, with [icon_url:], wherever they stand, and with
    CR LF and CR line ends turned into LF; every file of the directory
    whose name starts with [logo] or contains [icon] is removed, while
    directories and the other files stay; nothing else changes.  Reading
    the new text gives no line that starts with [icon_url:], and the
    handler run again answers with success and leaves the store as it
    is. *)
Theorem delete_icon_removes_icons (fs : node) (s : session)
    (slug raw : string) (es : gmap string node) :
  initialised fs →
  is_Some (user s) →
  Fs.plain_name slug →
  entries fs DOCS_DIR !! slug = Some (Dir es) →
  proper_names es →
  es !! "doc.md" = Some (File raw) →
  ∃ fs1,
    delete_icon s slug fs = Ret ApiOk fs1
    ∧ entries fs1 DOCS_DIR
      = <[slug := Dir (without_icons
                         (<["doc.md" := File (without_icon_lines raw)]>
                            es))]> (entries fs DOCS_DIR)
    ∧ entries fs1 TRASH_DIR = entries fs TRASH_DIR
    ∧ elsewhere fs1 = elsewhere fs
    ∧ (∀ line,
         line ∈ readlines (Py.universal_newlines (without_icon_lines raw)) →
         is_icon_line line = false)
    ∧ delete_icon s slug fs1 = Ret ApiOk fs1.
Proof.
  intros Hinit Hu Hslug Hd Hnames Hdoc.
  destruct (initialised_tree fs Hinit) as (root & d & t & -> & Hinit').
  rewrite entries_docs_tree in *. rewrite entries_trash_tree.
  set (es1 := without_icons
                (<["doc.md" := File (without_icon_lines raw)]> es)).
  exists (tree root (<[slug := Dir es1]> d) t).
  split; [by apply delete_icon_run|].
  rewrite entries_docs_tree, entries_trash_tree, !elsewhere_tree.
  do 3 (split; [done|]).
  split; [apply without_icon_lines_clean|].
  assert (Hdoc1 : es1 !! "doc.md" = Some (File (without_icon_lines raw))).
  { unfold es1. apply without_icons_doc. by rewrite lookup_insert_eq. }
  assert (Hnames1 : proper_names es1).
  { intros k n Hk. unfold es1 in Hk.
    rewrite without_icons_lookup in Hk.
    destruct (decide (k = "doc.md")) as [->|Hne];
      [by apply (bool_decide_unpack _)|].
    rewrite lookup_insert_ne in Hk by done.
    destruct (es !! k) as [n'|] eqn:Ek; [|done].
    by apply (Hnames k n'). }
  rewrite (delete_icon_run root (<[slug := Dir es1]> d) t s slug es1
             (without_icon_lines raw)); try done;
    [|by rewrite lookup_insert_eq].
  rewrite without_icon_lines_again, insert_insert_eq.
  rewrite (insert_id es1) by done.
  unfold es1 at 1. by rewrite without_icons_again.
Qed.

Lemma delete_icon_removes_icons_witness :
  initialised Sample.with_icon
  ∧ delete_icon Sample.reader_session "guia" Sample.with_icon
    = Ret ApiOk Sample.without_icon
  ∧ delete_icon Sample.reader_session "guia" Sample.without_icon
    = Ret ApiOk Sample.without_icon.
Proof.
  assert (H1 : initialised Sample.with_icon) by by vm_compute.
  split; [exact H1|].
  destruct (delete_icon_removes_icons Sample.with_icon
              Sample.reader_session "guia" Sample.icon_text
              Sample.icon_entries H1)
    as (fs1 & Hrun & _ & _ & _ & _ & Hagain).
  - by eexists.
  - by apply (bool_decide_unpack _).
  - vm_compute; reflexivity.
  - apply map_Forall_to_list, (bool_decide_unpack _).
    vm_compute; exact I.
  - vm_compute; reflexivity.
  - assert (Hfs1 : fs1 = Sample.without_icon).
    { assert (Hc : delete_icon Sample.reader_session "guia"
                     Sample.with_icon = Ret ApiOk Sample.without_icon)
        by (vm_compute; reflexivity).
      rewrite Hc in Hrun. by injection Hrun as <-. }
    subst fs1. split; [exact Hrun|exact Hagain].
Defined.

(** X20.  The refusals of [delete_icon].  Without a session the handler
    sends to the login page and touches nothing.  With a session, on an
    initialised store and for a slug that is a proper path component: when
    there is no [doc.md] in the directory of the slug, the answer is the
    error 404 and nothing is removed, whatever icons the directory holds;
    when [doc.md] is a directory, the answer is the error 500 and nothing
    is changed. *)
Theorem delete_icon_refusals (fs : node) (s : session) (slug : string) :
  (user s = None → delete_icon s slug fs = Ret ApiToLogin fs)
  ∧ (is_Some (user s) → initialised fs → Fs.plain_name slug →
       (dir_entries (entries fs DOCS_DIR) slug !! "doc.md" = None →
        delete_icon s slug fs = Ret (ApiError 404) fs)
       ∧ (∀ sub,
            dir_entries (entries fs DOCS_DIR) slug !! "doc.md"
            = Some (Dir sub) →
            delete_icon s slug fs = Ret (ApiError 500) fs)).
Proof.
  split.
  { intros Hu. unfold delete_icon. by rewrite Hu. }
  intros [u Hu] Hinit Hslug.
  destruct (initialised_tree fs Hinit) as (root & d & t & -> & Hinit').
  rewrite entries_docs_tree.
  assert (Hstat : Fs.stat (tree root d t) (_doc_md_path_new slug)
                  = dir_entries d slug !! "doc.md").
  { unfold Fs.stat, _doc_md_path_new.
    rewrite resolve_doc_file by (by apply plain_not_special || by repeat split).
    rewrite lookup_doc_file. unfold dir_entries.
    by destruct (d !! slug) as [[|]|]. }
  split.
  - intros Hnone. unfold delete_icon. rewrite Hu.
    unfold try_except, bind, Os.path_exists. by rewrite Hstat, Hnone.
  - intros sub Hsub. unfold delete_icon. rewrite Hu.
    unfold try_except. unfold bind at 1. unfold Os.path_exists at 1.
    rewrite Hstat, Hsub. cbn [Fs.is_some_node negb].
    unfold bind at 1. unfold Os.read_text at 1. by rewrite Hstat, Hsub.
Qed.

Lemma delete_icon_refusals_witness :
  initialised Sample.icons_only
  ∧ delete_icon (mkSession None None) "guia" Sample.with_icon
    = Ret ApiToLogin Sample.with_icon
  ∧ delete_icon Sample.reader_session "guia" Sample.icons_only
    = Ret (ApiError 404) Sample.icons_only
  ∧ delete_icon Sample.reader_session "guia" Sample.doc_is_dir
    = Ret (ApiError 500) Sample.doc_is_dir.
Proof.
  assert (H1 : initialised Sample.icons_only) by by vm_compute.
  assert (H2 : initialised Sample.doc_is_dir) by by vm_compute.
  split; [exact H1|]. split; [|split].
  - by apply (delete_icon_refusals Sample.with_icon (mkSession None None)
                "guia").
  - destruct (delete_icon_refusals Sample.icons_only Sample.reader_session
                "guia") as [_ Hres].
    destruct Hres as [H404 _];
      [by eexists|exact H1|by apply (bool_decide_unpack _)|].
    apply H404. vm_compute; reflexivity.
  - destruct (delete_icon_refusals Sample.doc_is_dir Sample.reader_session
                "guia") as [_ Hres].
    destruct Hres as [_ H500];
      [by eexists|exact H2|by apply (bool_decide_unpack _)|].
    apply (H500 ∅). vm_compute; reflexivity.
Defined.

Section ListedEntry.
Context `{Lib}.

Lemma listed_canonical_entry root d t query tags nivel results fs' slug
    post r :
  let fs := tree root d t in
  let q := Py.lower (Py.strip query) in
  let want := want_tags tags in
  initialised fs →
  list_docs query tags nivel fs = Ret results fs' →
  Fs.plain_name slug →
  canonical_post fs slug = Some post →
  passes_text q slug post → tags_pass want (post_tags post) = true →
  r ∈ results → s_slug r = slug →
  canonical_entry q want slug post = Some (Some r).
Proof.
  intros fs q want Hinit Hrun Hplain Epost Htext Htags Hr Hslug.
  unfold fs in Hrun. rewrite list_docs_run in Hrun by done. cbv zeta in Hrun.
  fold fs q want in Hrun.
  set (names := Py.sorted (elements (dom d))) in *.
  destruct (canonical_scan fs q want [] names) as [rs1|] eqn:Escan1; [|done].
  destruct (legacy_scan fs q want rs1 names) as [rs|] eqn:Escan2; [|done].
  injection Hrun as Hrs Hfs. subst results fs'.
  destruct (canonical_scan_spec fs q want names [] rs1 Escan1)
    as (new1 & Hrs1 & Hsome & Hnew1).
  cbn [app] in Hrs1. subst new1.
  assert (Hnd : NoDup names) by apply sorted_NoDup, NoDup_elements.
  destruct (legacy_scan_spec fs q want names rs1 [] rs Hnd)
    as (new2 & -> & Hnew2).
  { intros f dd _ Hdd. by apply elem_of_nil in Hdd. }
  { by rewrite app_nil_r. }
  cbn [app] in Hr.
  assert (Hin : slug ∈ names).
  { unfold names. rewrite sorted_elem, elem_of_elements, elem_of_dom.
    unfold canonical_post in Epost.
    destruct (Fs.is_dir (Fs.stat fs (_doc_dir slug))) eqn:Edir; [|done].
    unfold fs in Edir.
    rewrite stat_doc_dir, lookup_docs_entry in Edir by done.
    by destruct (d !! slug). }
  assert (Hlisted : ∃ r0, canonical_entry q want slug post = Some (Some r0)).
  { apply canonical_entry_passes. split; [done|]. split; [done|].
    pose proof (Hsome slug Hin) as Hne.
    by rewrite canonical_step_post, Epost in Hne. }
  apply elem_of_app in Hr as [Hr|Hr].
  - apply Hnew1 in Hr as (n & Hn & Hstep).
    pose proof Hstep as Hstep'.
    rewrite canonical_step_post in Hstep.
    destruct (canonical_post fs n) as [post'|] eqn:Epost'; [|done].
    pose proof (canonical_entry_slug _ _ _ _ _ Hstep) as Hn'.
    assert (n = slug) as -> by congruence.
    by rewrite Epost in Epost'; injection Epost' as <-.
  - apply Hnew2 in Hr as (f & Hf & Hstep).
    destruct (legacy_step_slug _ _ _ _ _ _ Hstep) as [Hend Hslug'].
    rewrite legacy_step_post, Hend in Hstep. cbn [negb] in Hstep.
    rewrite <- Hslug', Hslug in Hstep.
    destruct (slug_listed rs1 slug) eqn:Elisted; [done|].
    destruct Hlisted as [r0 Hr0].
    assert (slug_listed rs1 slug = true); [|congruence].
    apply slug_listed_spec, list_elem_of_fmap. exists r0.
    split; [by rewrite (canonical_entry_slug _ _ _ _ _ Hr0)|].
    apply Hnew1. exists slug. split; [done|].
    by rewrite canonical_step_post, Epost.
Qed.

Lemma canonical_entry_category q want slug post r :
  canonical_entry q want slug post = Some (Some r) →
  s_category r = get post "category" (VStr "").
Proof.
  unfold canonical_entry.
  destruct (text_pass _ _ _ _ _) as [[|]|]; try done.
  destruct (tags_pass _ _); cbn [negb]; try done.
  destruct (text_of _); try done. by intros [= <-].
Qed.

End ListedEntry.

(** X21.  The listing page decides by the category alone.  On an
    initialised store, for a logged-in reader, a blank query and a slug
    that is a proper path component whose canonical file parses: when
    [list_docs] returns, [docs] leaves the store as it is and shows the
    document to a reader of tier [n1] (also when the session names no
    tier) exactly when the key [category] of its front matter is absent,
    empty or [d1], to a reader of tier [n2] exactly when it is absent,
    empty, [d1] or [d2], and to a reader of any other tier always; the
    key [access_level], which the creation form writes, plays no part. *)
Theorem docs_filter_reads_category `{Lib} (fs fs' : node) (s : session)
    (arg_q : option string) (slug raw : string) (es : gmap string node)
    (post : Post) (rs : list summary) :
  let category := get post "category" (VStr "") in
  initialised fs →
  is_Some (user s) →
  Py.strip (default "" arg_q) = "" →
  Fs.plain_name slug →
  entries fs DOCS_DIR !! slug = Some (Dir es) →
  es !! "doc.md" = Some (File raw) →
  frontmatter_loads raw = Some post →
  list_docs "" None "n1" fs = Ret rs fs' →
  ∃ items,
    docs s arg_q fs = Ret (DocsList items "") fs
    ∧ (default "n1" (nivel s) = "n1" →
         (slug ∈ (i_slug <$> items) ↔
            category = VStr "" ∨ category = VStr "d1"))
    ∧ (nivel s = Some "n2" →
         (slug ∈ (i_slug <$> items) ↔
            category = VStr "" ∨ category = VStr "d1"
            ∨ category = VStr "d2"))
    ∧ (default "n1" (nivel s) ≠ "n1" → default "n1" (nivel s) ≠ "n2" →
         slug ∈ (i_slug <$> items)).
Proof.
  intros category Hinit [u Hu] Hq Hplain Hd Hmd Hloads Hrun.
  destruct (initialised_tree fs Hinit) as (root & d & t & -> & Hinit').
  rewrite entries_docs_tree in Hd.
  assert (Epost : canonical_post (tree root d t) slug = Some post).
  { rewrite (canonical_post_of_file root d t slug es raw) by done.
    unfold loaded_post. by rewrite Hloads. }
  destruct (listed_slugs root d t "" None "n1" rs fs' slug Hinit Hrun Hplain)
    as [-> Hlisted].
  cbv zeta in Hlisted.
  assert (Hshown : passes_text (Py.lower (Py.strip "")) slug post
                   ∧ tags_pass (want_tags None) (post_tags post) = true)
    by apply unfiltered_shown.
  destruct Hshown as [Htext Htags].
  assert (Hin : slug ∈ (s_slug <$> rs)).
  { apply Hlisted. left. by exists post. }
  assert (Hcat : ∀ r, r ∈ rs → s_slug r = slug → s_category r = category).
  { intros r Hr Hslug.
    apply (canonical_entry_category (Py.lower (Py.strip ""))
             (want_tags None) slug).
    by apply (listed_canonical_entry root d t "" None "n1" rs
                (tree root d t) slug post r). }
  set (lvl := default "n1" (nivel s)).
  set (items := List.filter (λ i, tier_allows lvl (i_category i))
                  (to_item <$> rs)).
  assert (Hitems : slug ∈ (i_slug <$> items) ↔ tier_allows lvl category = true).
  { unfold items. rewrite list_elem_of_fmap. split.
    - intros (i & Hi & Hmem).
      rewrite list_elem_of_In, List.filter_In, <- list_elem_of_In in Hmem.
      destruct Hmem as [(r & -> & Hr)%list_elem_of_fmap Hallow].
      cbn [to_item i_slug i_category] in Hi, Hallow.
      by rewrite (Hcat r Hr (eq_sym Hi)) in Hallow.
    - intros Hallow.
      apply list_elem_of_fmap in Hin as (r & Hslug & Hr).
      exists (to_item r). split; [done|].
      rewrite list_elem_of_In, List.filter_In, <- list_elem_of_In.
      split; [by apply list_elem_of_fmap_2|].
      cbn [to_item i_category]. by rewrite (Hcat r Hr (eq_sym Hslug)). }
  exists items. split.
  { unfold docs. rewrite Hu, Hq. unfold bind. by rewrite Hrun. }
  split; [|split].
  - intros Hn. rewrite Hitems. subst lvl. rewrite Hn.
    apply tier_allows_n1.
  - intros Hn. rewrite Hitems. subst lvl. rewrite Hn.
    apply tier_allows_n2.
  - intros H1 H2. apply Hitems. by apply tier_allows_other.
Qed.

Lemma docs_filter_reads_category_witness :
  initialised Sample.levels_docs
  ∧ (∃ items,
       docs (H := Sample.lib) Sample.reader_session None Sample.levels_docs
       = Ret (DocsList items "") Sample.levels_docs
       ∧ "restrito" ∈ (i_slug <$> items))
  ∧ (∃ items,
       docs (H := Sample.lib) Sample.reader_session None Sample.levels_docs
       = Ret (DocsList items "") Sample.levels_docs
       ∧ "categorizado" ∉ (i_slug <$> items)).
Proof.
  assert (H1 : initialised Sample.levels_docs) by by vm_compute.
  split; [exact H1|].
  destruct (list_docs (H := Sample.lib) "" None "n1" Sample.levels_docs)
    as [rs fs'|fs'] eqn:Hrun; [|by vm_compute in Hrun].
  destruct (frontmatter_loads (Lib := Sample.lib) Sample.restricted_text)
    as [p1|] eqn:Hp1; [|by vm_compute in Hp1].
  destruct (frontmatter_loads (Lib := Sample.lib) Sample.categorised_text)
    as [p2|] eqn:Hp2; [|by vm_compute in Hp2].
  assert (Hu : is_Some (user Sample.reader_session)) by by eexists.
  assert (Hs1 : Fs.plain_name "restrito")
    by (apply (bool_decide_unpack _); vm_compute; exact I).
  assert (Hs2 : Fs.plain_name "categorizado")
    by (apply (bool_decide_unpack _); vm_compute; exact I).
  assert (Hd1 : entries Sample.levels_docs DOCS_DIR !! "restrito"
                = Some (Dir (<["doc.md" := File Sample.restricted_text]> ∅)))
    by (vm_compute; reflexivity).
  assert (Hd2 : entries Sample.levels_docs DOCS_DIR !! "categorizado"
                = Some (Dir (<["doc.md" := File Sample.categorised_text]> ∅)))
    by (vm_compute; reflexivity).
  assert (Hc1 : get p1 "category" (VStr "") = VStr "").
  { vm_compute in Hp1. injection Hp1 as <-. vm_compute; reflexivity. }
  assert (Hc2 : get p2 "category" (VStr "") = VStr "d3").
  { vm_compute in Hp2. injection Hp2 as <-. vm_compute; reflexivity. }
  split.
  - destruct (docs_filter_reads_category (H := Sample.lib)
                Sample.levels_docs fs' Sample.reader_session None
                "restrito" Sample.restricted_text
                (<["doc.md" := File Sample.restricted_text]> ∅) p1 rs
                H1 Hu eq_refl Hs1 Hd1 eq_refl Hp1 Hrun)
      as (items & Hdocs & Hn1 & _).
    exists items. split; [exact Hdocs|].
    apply (Hn1 eq_refl). left. exact Hc1.
  - destruct (docs_filter_reads_category (H := Sample.lib)
                Sample.levels_docs fs' Sample.reader_session None
                "categorizado" Sample.categorised_text
                (<["doc.md" := File Sample.categorised_text]> ∅) p2 rs
                H1 Hu eq_refl Hs2 Hd2 eq_refl Hp2 Hrun)
      as (items & Hdocs & Hn1 & _).
    exists items. split; [exact Hdocs|].
    intros Hin. apply (Hn1 eq_refl) in Hin.
    rewrite Hc2 in Hin. by destruct Hin.
Defined.

Section UploadFacts.
Context `{Lib}.

Lemma dir_entries_insert d k es : dir_entries (<[k := Dir es]> d) k = es.
Proof. unfold dir_entries. by rewrite lookup_insert_eq. Qed.

Lemma dir_entries_insert_ne d k k' n :
  k ≠ k' → dir_entries (<[k := n]> d) k' = dir_entries d k'.
Proof. intros Hne. unfold dir_entries. by rewrite lookup_insert_ne. Qed.

Lemma upload_route_run root d t s file form_slug args_slug form_title
    args_title :
  let slug := default "" (either form_slug args_slug) in
  let title := either form_title args_title in
  let made := slugify (Fmt.opt_or title slug) in
  let base := upload_base slug title in
  let filename := upload_name file None in
  let d1 := <[made := Dir (dir_entries d made)]> d in
  initialised (tree root d t) →
  is_Some (user s) →
  Py.is_empty (up_filename file) = false →
  Fs.plain_name made → Fs.plain_name base → Fs.plain_name filename →
  (∀ data, d !! made ≠ Some (File data)) →
  (∀ data, d !! base ≠ Some (File data)) →
  (∀ sub, dir_entries d base !! filename ≠ Some (Dir sub)) →
  upload_route s (Some file) form_slug args_slug form_title args_title
    (tree root d t)
  = Ret (UploadUrl ("/docs/" ++ base ++ "/" ++ filename))
      (tree root
         (<[base := Dir (<[filename := File (up_data file)]>
                           (dir_entries d1 base))]> d1) t).
Proof.
  intros slug title made base filename d1 Hinit [u Hu] Hname Hmade Hbase
    Hfile Hnomade Hnobase Hnodir.
  unfold upload_route. rewrite Hu, Hname.
  fold title. fold slug.
  assert (Hgiven : Py.is_empty slug && Py.is_empty (default "" title) = false).
  { destruct (Py.is_empty slug) eqn:Es; [|done].
    destruct (Py.is_empty (default "" title)) eqn:Et; [|done].
    unfold base, upload_base in Hbase. rewrite Et in Hbase.
    destruct slug; [by destruct Hbase|done]. }
  rewrite Hgiven.
  unfold bind at 1. unfold try_except at 1. unfold bind at 1.
  fold made. change (DOCS_DIR ++ [made])%list with (_doc_dir made).
  rewrite makedirs_doc_dir by done. fold d1.
  unfold ret at 1. cbn [negb].
  unfold try_except, bind.
  pose proof (upload_file_run root d1 t file slug None title) as Hrun.
  cbv zeta in Hrun. fold base filename in Hrun.
  rewrite Hrun; try done.
  - by apply (tree_initialised root d t).
  - intros data. unfold d1.
    destruct (decide (made = base)) as [E|Hne].
    + by rewrite E, lookup_insert_eq.
    + rewrite lookup_insert_ne by done. apply Hnobase.
  - intros sub. unfold d1.
    destruct (decide (made = base)) as [E|Hne].
    + rewrite E, dir_entries_insert. apply Hnodir.
    + rewrite dir_entries_insert_ne by done. apply Hnodir.
Qed.

Lemma makedirs_over_file root d t k data :
  not_special k → d !! k = Some (File data) →
  Os.makedirs (DOCS_DIR ++ [k])%list (tree root d t) = Exc (tree root d t).
Proof.
  intros Hk Hd. unfold Os.makedirs. rewrite resolve_docs_child by done.
  unfold tree at 1. cbn [Fs.mkdirs]. rewrite lookup_tree_docs.
  cbn [default from_option id Fs.mkdirs]. by rewrite Hd.
Qed.

End UploadFacts.

(** X22.  An upload goes to the directory of the title.  For a logged-in
    session and a file with a name, when the request carries a title (in
    the form, or else in the query string), on an initialised store where
    the slug of the title and the file name that [upload_file] computes
    are proper path components, no file stands at the directory and no
    directory at the file: [upload] answers with the address
    [/docs/<slug of the title>/<name>] and stores the bytes there,
    creating the directory when it is missing; nothing else changes.  The
    slug of the request plays no part: the directory of another slug is
    left as it was. *)
Theorem upload_goes_to_title_directory `{Lib} (fs : node) (s : session)
    (file : upload) (form_slug args_slug form_title args_title : option string)
    (title : string) :
  let base := slugify title in
  let filename := upload_name file None in
  initialised fs →
  is_Some (user s) →
  Py.is_empty (up_filename file) = false →
  either form_title args_title = Some title →
  Py.is_empty title = false →
  Fs.plain_name base → Fs.plain_name filename →
  (∀ data, entries fs DOCS_DIR !! base ≠ Some (File data)) →
  (∀ sub, dir_entries (entries fs DOCS_DIR) base !! filename
          ≠ Some (Dir sub)) →
  ∃ fs1,
    upload_route s (Some file) form_slug args_slug form_title args_title fs
    = Ret (UploadUrl ("/docs/" ++ base ++ "/" ++ filename)) fs1
    ∧ entries fs1 DOCS_DIR
      = <[base := Dir (<[filename := File (up_data file)]>
                         (dir_entries (entries fs DOCS_DIR) base))]>
          (entries fs DOCS_DIR)
    ∧ entries fs1 TRASH_DIR = entries fs TRASH_DIR
    ∧ elsewhere fs1 = elsewhere fs
    ∧ (∀ slug, slug ≠ base →
         entries fs1 DOCS_DIR !! slug = entries fs DOCS_DIR !! slug).
Proof.
  intros base filename Hinit Hu Hname Htitle Hnonblank Hbase Hfile
    Hnofile Hnodir.
  destruct (initialised_tree fs Hinit) as (root & d & t & -> & Hinit').
  rewrite entries_docs_tree in *. rewrite entries_trash_tree.
  pose proof (upload_route_run root d t s file form_slug args_slug
                form_title args_title) as Hrun.
  cbv zeta in Hrun. rewrite Htitle in Hrun.
  unfold upload_base in Hrun. cbn [default from_option id] in Hrun.
  unfold Fmt.opt_or, Fmt.str_or in Hrun. rewrite Hnonblank in Hrun.
  fold base filename in Hrun.
  eexists. split; [by apply Hrun|].
  rewrite entries_docs_tree, entries_trash_tree, !elsewhere_tree.
  rewrite dir_entries_insert, insert_insert_eq.
  do 3 (split; [done|]).
  intros slug Hne. by rewrite lookup_insert_ne.
Qed.

Lemma upload_goes_to_title_directory_witness :
  initialised Sample.guide_docs
  ∧ Sample.reply_of
      (upload_route (H := Sample.lib) Sample.reader_session (Some Sample.logo)
         (Some "guia") None (Some "Guia Nova") None Sample.guide_docs)
    = Some (UploadUrl "/docs/guia-nova/logo-novo-a1b2c3.png")
  ∧ ∃ fs1,
      upload_route (H := Sample.lib) Sample.reader_session (Some Sample.logo)
        (Some "guia") None (Some "Guia Nova") None Sample.guide_docs
      = Ret (UploadUrl ("/docs/" ++ slugify (Lib := Sample.lib) "Guia Nova"
                        ++ "/" ++ upload_name (H := Sample.lib) Sample.logo
                                    None)) fs1
      ∧ entries fs1 DOCS_DIR !! "guia"
        = entries Sample.guide_docs DOCS_DIR !! "guia".
Proof.
  assert (H1 : initialised Sample.guide_docs) by by vm_compute.
  split; [exact H1|]. split; [vm_compute; reflexivity|].
  destruct (upload_goes_to_title_directory (H := Sample.lib)
              Sample.guide_docs Sample.reader_session Sample.logo
              (Some "guia") None (Some "Guia Nova") None "Guia Nova" H1)
    as (fs1 & Hrun & _ & _ & _ & Hother).
  - by eexists.
  - reflexivity.
  - reflexivity.
  - reflexivity.
  - apply (bool_decide_unpack _); vm_compute; exact I.
  - apply (bool_decide_unpack _); vm_compute; exact I.
  - intros data. vm_compute. discriminate.
  - intros sub. vm_compute. discriminate.
  - exists fs1. split; [exact Hrun|].
    apply Hother. vm_compute. discriminate.
Defined.

(** X23.  An upload without title goes to the directory of the slug as it
    is given, beside the directory of its slugified form.  For a logged-in
    session and a file with a name, when the request carries no title and
    a slug, on an initialised store where the slug, its slugified form and
    the file name are proper path components and none of the two
    directories is a file: [upload] makes the directory of the slugified
    slug, then stores the bytes in the directory of the slug itself and
    answers with [/docs/<slug>/<name>]; when the two differ and the
    slugified one did not exist, it is left behind empty. *)
Theorem upload_without_title `{Lib} (fs : node) (s : session)
    (file : upload) (form_slug args_slug form_title args_title : option string)
    (slug : string) :
  let made := slugify slug in
  let filename := upload_name file None in
  let d1 := <[made := Dir (dir_entries (entries fs DOCS_DIR) made)]>
              (entries fs DOCS_DIR) in
  initialised fs →
  is_Some (user s) →
  Py.is_empty (up_filename file) = false →
  Py.is_empty (default "" (either form_title args_title)) = true →
  either form_slug args_slug = Some slug →
  Fs.plain_name slug → Fs.plain_name made → Fs.plain_name filename →
  (∀ data, entries fs DOCS_DIR !! made ≠ Some (File data)) →
  (∀ data, entries fs DOCS_DIR !! slug ≠ Some (File data)) →
  (∀ sub, dir_entries (entries fs DOCS_DIR) slug !! filename
          ≠ Some (Dir sub)) →
  ∃ fs1,
    upload_route s (Some file) form_slug args_slug form_title args_title fs
    = Ret (UploadUrl ("/docs/" ++ slug ++ "/" ++ filename)) fs1
    ∧ entries fs1 DOCS_DIR
      = <[slug := Dir (<[filename := File (up_data file)]>
                         (dir_entries d1 slug))]> d1
    ∧ entries fs1 TRASH_DIR = entries fs TRASH_DIR
    ∧ elsewhere fs1 = elsewhere fs
    ∧ (made ≠ slug → entries fs DOCS_DIR !! made = None →
         entries fs1 DOCS_DIR !! made = Some (Dir ∅)).
Proof.
  intros made filename d1 Hinit Hu Hname Htitle Hslug Hplain Hmade Hfile
    Hnomade Hnoslug Hnodir.
  subst d1.
  destruct (initialised_tree fs Hinit) as (root & d & t & -> & Hinit').
  rewrite entries_docs_tree in *. rewrite entries_trash_tree.
  pose proof (upload_route_run root d t s file form_slug args_slug
                form_title args_title) as Hrun.
  cbv zeta in Hrun. rewrite Hslug in Hrun.
  unfold upload_base in Hrun. rewrite Htitle in Hrun.
  cbn [default from_option id] in Hrun.
  assert (Hor : Fmt.opt_or (either form_title args_title) slug = slug).
  { unfold Fmt.opt_or, Fmt.str_or.
    destruct (either form_title args_title) as [x|]; [|done].
    cbn [default from_option id] in Htitle. by rewrite Htitle. }
  rewrite Hor in Hrun. fold made filename in Hrun.
  eexists. split; [by apply Hrun|].
  rewrite entries_docs_tree, entries_trash_tree, !elsewhere_tree.
  do 3 (split; [done|]).
  intros Hne Hnone. rewrite lookup_insert_ne by done.
  rewrite lookup_insert_eq. unfold dir_entries. by rewrite Hnone.
Qed.

Lemma upload_without_title_witness :
  initialised Sample.guide_docs
  ∧ Sample.reply_of
      (upload_route (H := Sample.lib) Sample.reader_session (Some Sample.logo)
         None (Some "Guia") (Some "") None Sample.guide_docs)
    = Some (UploadUrl "/docs/Guia/logo-novo-a1b2c3.png")
  ∧ Sample.docs_names
      (upload_route (H := Sample.lib) Sample.reader_session (Some Sample.logo)
         None (Some "Guia") (Some "") None Sample.guide_docs)
    = ["Guia"; "guia"; "nota"]
  ∧ ∃ fs1,
      upload_route (H := Sample.lib) Sample.reader_session (Some Sample.logo)
        None (Some "Guia") (Some "") None Sample.guide_docs
      = Ret (UploadUrl ("/docs/Guia/"
                        ++ upload_name (H := Sample.lib) Sample.logo None))
          fs1
      ∧ entries fs1 TRASH_DIR = entries Sample.guide_docs TRASH_DIR.
Proof.
  assert (H1 : initialised Sample.guide_docs) by by vm_compute.
  split; [exact H1|]. split; [vm_compute; reflexivity|].
  split; [vm_compute; reflexivity|].
  destruct (upload_without_title (H := Sample.lib)
              Sample.guide_docs Sample.reader_session Sample.logo
              None (Some "Guia") (Some "") None "Guia" H1)
    as (fs1 & Hrun & _ & Htrash & _).
  - by eexists.
  - reflexivity.
  - reflexivity.
  - reflexivity.
  - apply (bool_decide_unpack _); vm_compute; exact I.
  - apply (bool_decide_unpack _); vm_compute; exact I.
  - apply (bool_decide_unpack _); vm_compute; exact I.
  - intros data. vm_compute. discriminate.
  - intros data. vm_compute. discriminate.
  - intros sub. vm_compute. discriminate.
  - exists fs1. split; [exact Hrun|exact Htrash].
Defined.

(** X24.  The refusals of [upload].  Without a session the handler sends
    to the login page.  With a session it answers 400 when the request has
    no file or a file without name, and when it carries neither a slug
    nor a title; on an initialised store it answers 500 when a file stands
    where the directory is to be made.  In each case the store is left as
    it is. *)
Theorem upload_refusals `{Lib} (fs : node) (s : session)
    (f : option upload) (form_slug args_slug form_title args_title
      : option string) :
  let slug := default "" (either form_slug args_slug) in
  let title := either form_title args_title in
  let run :=
    upload_route s f form_slug args_slug form_title args_title fs in
  (user s = None → run = Ret UploadToLogin fs)
  ∧ (is_Some (user s) →
       (f = None ∨ (∃ file, f = Some file ∧ up_filename file = "") →
          run = Ret (UploadError 400) fs)
       ∧ (Py.is_empty slug = true → Py.is_empty (default "" title) = true →
            run = Ret (UploadError 400) fs)
       ∧ (∀ file data,
            f = Some file → Py.is_empty (up_filename file) = false →
            Py.is_empty slug && Py.is_empty (default "" title) = false →
            initialised fs →
            not_special (slugify (Fmt.opt_or title slug)) →
            entries fs DOCS_DIR !! slugify (Fmt.opt_or title slug)
            = Some (File data) →
            run = Ret (UploadError 500) fs)).
Proof.
  intros slug title run. split.
  { intros Hu. unfold run, upload_route. by rewrite Hu. }
  intros [u Hu]. split; [|split].
  - intros [->|(file & -> & Hname)]; unfold run, upload_route; rewrite Hu;
      [done|by rewrite Hname].
  - intros Hs Ht. unfold run, upload_route. rewrite Hu.
    fold title. fold slug. rewrite Hs, Ht.
    destruct f as [file|]; [|done].
    by destruct (Py.is_empty (up_filename file)).
  - intros file data -> Hname Hgiven Hinit Hmade Hd.
    destruct (initialised_tree fs Hinit) as (root & d & t & Hfs & Hinit').
    unfold run. rewrite Hfs in *. rewrite entries_docs_tree in Hd.
    unfold upload_route. rewrite Hu, Hname. fold title. fold slug.
    rewrite Hgiven.
    unfold bind at 1. unfold try_except at 1. unfold bind at 1.
    by rewrite (makedirs_over_file root d t _ data).
Qed.

Lemma upload_refusals_witness :
  initialised Sample.guide_docs
  ∧ upload_route (H := Sample.lib) (mkSession None None) (Some Sample.logo)
      (Some "guia") None None None Sample.guide_docs
    = Ret UploadToLogin Sample.guide_docs
  ∧ upload_route (H := Sample.lib) Sample.reader_session None
      (Some "guia") None None None Sample.guide_docs
    = Ret (UploadError 400) Sample.guide_docs
  ∧ upload_route (H := Sample.lib) Sample.reader_session (Some Sample.logo)
      (Some "") None None (Some "") Sample.guide_docs
    = Ret (UploadError 400) Sample.guide_docs
  ∧ upload_route (H := Sample.lib) Sample.reader_session (Some Sample.logo)
      None None (Some "Nota") None Sample.guide_docs
    = Ret (UploadError 500) Sample.guide_docs.
Proof.
  assert (H1 : initialised Sample.guide_docs) by by vm_compute.
  assert (Hu : is_Some (user Sample.reader_session)) by by eexists.
  split; [exact H1|]. split; [|split; [|split]].
  - by apply (upload_refusals (H := Sample.lib) Sample.guide_docs
                (mkSession None None) (Some Sample.logo)
                (Some "guia") None None None).
  - destruct (upload_refusals (H := Sample.lib) Sample.guide_docs
                Sample.reader_session None (Some "guia") None None None)
      as [_ Hres].
    destruct (Hres Hu) as (H400 & _). apply H400. by left.
  - destruct (upload_refusals (H := Sample.lib) Sample.guide_docs
                Sample.reader_session (Some Sample.logo) (Some "") None
                None (Some "")) as [_ Hres].
    destruct (Hres Hu) as (_ & H400 & _). by apply H400.
  - destruct (upload_refusals (H := Sample.lib) Sample.guide_docs
                Sample.reader_session (Some Sample.logo) None None
                (Some "Nota") None) as [_ Hres].
    destruct (Hres Hu) as (_ & _ & H500).
    apply (H500 Sample.logo "x"); [done|done|done|exact H1| |].
    + apply plain_not_special, (bool_decide_unpack _); vm_compute; exact I.
    + vm_compute; reflexivity.
Defined.

Section Stripping.
Variable p : ascii → bool.








End Stripping.

Section Titles.





End Titles.



Section ViewFacts.
Context `{Lib}.

Lemma read_doc_canonical root d t slug raw post :
  initialised (tree root d t) →
  Py.strip slug = slug →
  Fs.stat (tree root d t) (_doc_md_path_new slug) = Some (File raw) →
  frontmatter_loads raw = Some post →
  read_doc slug (tree root d t) = Ret (Some post) (tree root d t).
Proof.
  intros Hinit Hstrip Hnew Hload.
  unfold read_doc. unfold bind at 1.
  rewrite ensure_dirs_and_repo_id by done. rewrite Hstrip.
  unfold bind at 1, Os.path_exists at 1. rewrite Hnew.
  cbn [Fs.is_some_node]. unfold bind at 1, try_except at 1, bind at 1.
  rewrite (frontmatter_load_file _ _ _ Hnew). by rewrite Hload.
Qed.

Lemma read_doc_nothing root d t slug :
  initialised (tree root d t) →
  Py.strip slug = slug →
  Fs.stat (tree root d t) (_doc_md_path_new slug) = None →
  d !! (slug ++ ".md") = None →
  read_doc slug (tree root d t) = Ret None (tree root d t).
Proof.
  intros Hinit Hstrip Hnew Hleg.
  unfold read_doc. unfold bind at 1.
  rewrite ensure_dirs_and_repo_id by done. rewrite Hstrip.
  unfold bind at 1, Os.path_exists at 1. rewrite Hnew.
  cbn [Fs.is_some_node]. unfold bind at 1. unfold ret at 1.
  unfold bind at 1, Os.path_exists at 1.
  by rewrite stat_doc_md_legacy, lookup_docs_entry, Hleg.
Qed.

Lemma read_doc_migrates root d t slug raw post :
  initialised (tree root d t) →
  Fs.plain_name slug →
  Py.strip slug = slug →
  only_legacy (tree root d t) slug raw →
  frontmatter_loads raw = Some post →
  read_doc slug (tree root d t)
  = Ret (Some post)
      (tree root
         (<[slug := Dir (<["doc.md" := File raw]> (dir_entries d slug))]> d)
         t).
Proof.
  intros Hinit Hplain Hstrip (Hleg & Hnew & Hnofile) Hload.
  rewrite entries_docs_tree in Hleg.
  unfold read_doc. unfold bind at 1.
  rewrite ensure_dirs_and_repo_id by done. rewrite Hstrip.
  unfold bind at 1, Os.path_exists at 1. rewrite Hnew.
  cbn [Fs.is_some_node]. unfold bind at 1. unfold ret at 1.
  unfold bind at 1, Os.path_exists at 1.
  rewrite stat_doc_md_legacy, lookup_docs_entry, Hleg.
  cbn [Fs.is_some_node]. unfold try_except at 1.
  rewrite (migrate_block root d t slug raw Hplain Hleg).
  - by rewrite Hload.
  - intros data Hd. apply (Hnofile data).
    by rewrite stat_doc_dir, lookup_docs_entry.
  - intros es Hes.
    rewrite stat_doc_md_new, lookup_doc_md in Hnew by done.
    unfold dir_entries in Hes.
    destruct (d !! slug) as [[data|es']|]; try done. by rewrite Hnew in Hes.
Qed.

End ViewFacts.

(** X26.  The page of a document has no tier check, and opening a legacy
    document migrates it.  On an initialised store, for a logged-in
    session of any tier and a slug that is a proper path component
    without surrounding white space: when the canonical file parses,
    [view_doc] shows its rendered body and its metadata and leaves the
    store as it is, whatever category or access level the document has;
    when only the legacy file exists and parses, it shows the document
    and the store then holds a copy of the file at the canonical place;
    when neither file exists it reports that the document was not
    found.  Without a session it sends to the login page. *)
Theorem view_doc_shows_to_every_tier `{Lib} (markdown_view : string → string)
    (fs : node) (s : session) (slug : string) :
  let shown post :=
    DocView (markdown_view (content post)) slug (metadata post) in
  initialised fs →
  Fs.plain_name slug →
  Py.strip slug = slug →
  view_doc markdown_view (mkSession None (nivel s)) slug fs
  = Ret ViewToLogin fs
  ∧ (is_Some (user s) →
       (∀ raw post,
          Fs.stat fs (_doc_md_path_new slug) = Some (File raw) →
          frontmatter_loads raw = Some post →
          view_doc markdown_view s slug fs = Ret (shown post) fs)
       ∧ (∀ raw post,
            only_legacy fs slug raw →
            frontmatter_loads raw = Some post →
            ∃ fs1,
              view_doc markdown_view s slug fs = Ret (shown post) fs1
              ∧ Fs.stat fs1 (_doc_md_path_new slug) = Some (File raw)
              ∧ entries fs1 DOCS_DIR !! (slug ++ ".md") = Some (File raw))
       ∧ (Fs.stat fs (_doc_md_path_new slug) = None →
          entries fs DOCS_DIR !! (slug ++ ".md") = None →
          view_doc markdown_view s slug fs = Ret ViewNotFound fs)).
Proof.
  intros shown Hinit Hplain Hstrip. split; [done|].
  intros [u Hu].
  destruct (initialised_tree fs Hinit) as (root & d & t & -> & Hinit').
  rewrite entries_docs_tree.
  split; [|split].
  - intros raw post Hnew Hload. unfold view_doc. rewrite Hu.
    unfold bind. by rewrite (read_doc_canonical root d t slug raw post).
  - intros raw post Hlegacy Hload.
    eexists. split.
    { unfold view_doc. rewrite Hu. unfold bind.
      by rewrite (read_doc_migrates root d t slug raw post). }
    rewrite entries_docs_tree. split.
    + rewrite stat_doc_md_new, lookup_doc_md, lookup_insert_eq by done.
      by rewrite lookup_insert_eq.
    + rewrite lookup_insert_ne by apply not_eq_sym, legacy_name_ne.
      destruct Hlegacy as [Hleg _]. by rewrite entries_docs_tree in Hleg.
  - intros Hnew Hleg. unfold view_doc. rewrite Hu.
    unfold bind. by rewrite (read_doc_nothing root d t slug).
Qed.

Lemma view_doc_shows_to_every_tier_witness :
  initialised Sample.both_forms
  ∧ (∃ post,
       view_doc (H := Sample.lib) Sample.framed Sample.reader_session "guia"
         Sample.both_forms
       = Ret (DocView (Sample.framed (content post)) "guia" (metadata post))
           Sample.both_forms
       ∧ content post = "passos")
  ∧ (∃ post fs1,
       view_doc (H := Sample.lib) Sample.framed Sample.reader_session "nota"
         Sample.both_forms
       = Ret (DocView (Sample.framed (content post)) "nota" (metadata post))
           fs1
       ∧ Fs.stat fs1 (_doc_md_path_new "nota") = Some (File Sample.nota_text))
  ∧ view_doc (H := Sample.lib) Sample.framed Sample.reader_session "outro"
      Sample.both_forms
    = Ret ViewNotFound Sample.both_forms.
Proof.
  assert (H1 : initialised Sample.both_forms) by by vm_compute.
  assert (Hu : is_Some (user Sample.reader_session)) by by eexists.
  destruct (frontmatter_loads (Lib := Sample.lib) Sample.guia_text)
    as [p1|] eqn:Hp1; [|by vm_compute in Hp1].
  destruct (frontmatter_loads (Lib := Sample.lib) Sample.nota_text)
    as [p2|] eqn:Hp2; [|by vm_compute in Hp2].
  split; [exact H1|]. split; [|split].
  - destruct (view_doc_shows_to_every_tier (H := Sample.lib) Sample.framed
                Sample.both_forms Sample.reader_session "guia" H1)
      as [_ Hres].
    { apply (bool_decide_unpack _); vm_compute; exact I. }
    { reflexivity. }
    destruct (Hres Hu) as (Hview & _).
    exists p1. split.
    + apply (Hview Sample.guia_text p1); [vm_compute; reflexivity|exact Hp1].
    + vm_compute in Hp1. by injection Hp1 as <-.
  - destruct (view_doc_shows_to_every_tier (H := Sample.lib) Sample.framed
                Sample.both_forms Sample.reader_session "nota" H1)
      as [_ Hres].
    { apply (bool_decide_unpack _); vm_compute; exact I. }
    { reflexivity. }
    destruct (Hres Hu) as (_ & Hmig & _).
    destruct (Hmig Sample.nota_text p2) as (fs1 & Hrun & Hstat & _).
    + split; [vm_compute; reflexivity|].
      split; [vm_compute; reflexivity|].
      intros data. vm_compute. discriminate.
    + exact Hp2.
    + exists p2, fs1. split; [exact Hrun|exact Hstat].
  - destruct (view_doc_shows_to_every_tier (H := Sample.lib) Sample.framed
                Sample.both_forms Sample.reader_session "outro" H1)
      as [_ Hres].
    { apply (bool_decide_unpack _); vm_compute; exact I. }
    { reflexivity. }
    destruct (Hres Hu) as (_ & _ & Hnone).
    apply Hnone; vm_compute; reflexivity.
Defined.
